(** * CookingAgent: enrichment, knowledge base, menu composition, dialogue

    A shallow embedding of the TypeScript sources
      - scripts/data-processing/LLMBasedTagger.ts
      - scripts/data-processing/DatabaseBuilder.ts
      - scripts/process-data.ts
      - src/lib/KnowledgeBase.ts
      - src/agents/IntentExtractor.ts
      - src/agents/MenuRecommender.ts
      - src/lib/ConversationEngine.ts
    and the properties of the design document that concern them.

    Conventions.  A JavaScript string is the list of its UTF-16 code units;
    [undefined] is [None]; an object used as a dictionary is a [gmap] of its
    own properties (dish names are recipe titles, never names inherited from
    [Object.prototype]); a count held in a [number] is an integer; the
    external model calls ([generateObject], [streamText]) and the file system
    are oracles passed as arguments; a thrown exception is the [Throw] result
    of a state-and-exception monad that keeps every mutation made before the
    throw, as JavaScript does.  Data read from JSON has its declared type. *)

From Stdlib Require Import ZArith NArith QArith Qround List Bool Lia String Ascii Sorted.
From stdpp Require Import base gmap.
Import ListNotations.

(** ** JavaScript strings and arrays *)

Module JS.

(** A string is its sequence of UTF-16 code units. *)
Abbreviation jsstring := (list N).

(** Code units of one code point (a surrogate pair above the BMP). *)
Definition units_of_code_point (cp : N) : list N :=
  if (cp <? 65536)%N then [cp]
  else let c := (cp - 65536)%N in [(55296 + c / 1024)%N; (56320 + c mod 1024)%N].

(** Decoder of the UTF-8 bytes of a source literal; [pending] counts the
    continuation bytes still expected, [acc] holds the bits read so far. *)
Fixpoint decode_utf8 (bs : list N) (pending : nat) (acc : N) : list N :=
  match bs with
  | [] => []
  | b :: bs' =>
      if (b <? 128)%N then b :: decode_utf8 bs' 0 0%N
      else if (b <? 192)%N then
        let acc' := (acc * 64 + (b - 128))%N in
        match pending with
        | 0 => decode_utf8 bs' 0 0%N
        | 1 => units_of_code_point acc' ++ decode_utf8 bs' 0 0%N
        | S k => decode_utf8 bs' k acc'
        end
      else if (b <? 224)%N then decode_utf8 bs' 1 (b - 192)%N
      else if (b <? 240)%N then decode_utf8 bs' 2 (b - 224)%N
      else decode_utf8 bs' 3 (b - 240)%N
  end.

(** The JavaScript string written by a literal of the source text. *)
Definition lit (s : string) : jsstring :=
  decode_utf8 (map N_of_ascii (list_ascii_of_string s)) 0 0%N.
Arguments lit s%_string.

(** [a === b] on strings. *)
Definition str_eqb (a b : jsstring) : bool := bool_decide (a = b).

(** [s.startsWith(p)]. *)
Fixpoint startsWith (p s : jsstring) : bool :=
  match p, s with
  | [], _ => true
  | _ :: _, [] => false
  | a :: p', b :: s' => (a =? b)%N && startsWith p' s'
  end.

(** [s.includes(sub)]: [sub] occurs in [s] as a contiguous run. *)
Fixpoint includes (s sub : jsstring) : bool :=
  startsWith sub s ||
  match s with
  | [] => false
  | _ :: s' => includes s' sub
  end.

(** [arr.includes(x)] on an array of strings. *)
Definition arr_includes (arr : list jsstring) (x : jsstring) : bool :=
  existsb (str_eqb x) arr.

(** [arr.some(f)]. *)
Definition some {A} (f : A -> bool) (arr : list A) : bool := existsb f arr.

(** [String.prototype.toLowerCase] on the Basic Latin letters; every other
    code unit is kept.  All keyword literals of the sources are caseless
    (CJK) or already lower case. *)
Definition lower_unit (c : N) : N :=
  if ((65 <=? c) && (c <=? 90))%N then (c + 32)%N else c.
Definition toLowerCase (s : jsstring) : jsstring := map lower_unit s.

(** WhiteSpace and LineTerminator code units, as [trim] strips them. *)
Definition isWhiteSpace (c : N) : bool :=
  ((9 <=? c) && (c <=? 13) || (c =? 32) || (c =? 160) || (c =? 5760)
   || (8192 <=? c) && (c <=? 8202) || (c =? 8232) || (c =? 8233)
   || (c =? 8239) || (c =? 8287) || (c =? 12288) || (c =? 65279))%N.

Fixpoint trimStart (s : jsstring) : jsstring :=
  match s with
  | c :: s' => if isWhiteSpace c then trimStart s' else s
  | [] => []
  end.
Definition trim (s : jsstring) : jsstring := rev (trimStart (rev (trimStart s))).

(** [s.split(/[...]/)] for a character class: a new segment starts after
    every code unit of the class; empty segments are kept. *)
Fixpoint split_class (cls : list N) (s : jsstring) : list jsstring :=
  match s with
  | [] => [[]]
  | c :: s' =>
      if existsb (N.eqb c) cls then [] :: split_class cls s'
      else match split_class cls s' with
           | seg :: rest => (c :: seg) :: rest
           | [] => [[c]]
           end
  end.

(** [s.split(sep)] for a non-empty string separator: leftmost occurrences,
    not overlapping.  [skip] counts the units of a matched separator that are
    still to be passed over, [cur] is the open segment, reversed. *)
Fixpoint split_aux (sep : jsstring) (skip : nat) (cur : jsstring) (s : jsstring)
  : list jsstring :=
  match s with
  | [] => [rev cur]
  | c :: s' =>
      match skip with
      | S k => split_aux sep k cur s'
      | 0 =>
          if startsWith sep s
          then rev cur :: split_aux sep (length sep - 1) [] s'
          else split_aux sep 0 (c :: cur) s'
      end
  end.
Definition split (sep s : jsstring) : list jsstring := split_aux sep 0 [] s.

(** [arr.slice(0, e)]: a negative end counts from the end of the array. *)
Definition slice0 {A} (arr : list A) (e : Z) : list A :=
  let len := Z.of_nat (length arr) in
  let final := if (e <? 0)%Z then Z.max (len + e) 0 else Z.min e len in
  firstn (Z.to_nat final) arr.

(** [arr.sort(cmp)] for a comparator that orders by a key: the specification
    asks for a stable sort, whose result is then the one of a stable insertion:
    an element moves behind exactly those it compares greater than. *)
Fixpoint insert_sorted {A} (cmp : A -> A -> Z) (x : A) (arr : list A) : list A :=
  match arr with
  | [] => [x]
  | y :: arr' => if (0 <? cmp x y)%Z then y :: insert_sorted cmp x arr' else x :: arr
  end.
Definition Array_sort {A} (cmp : A -> A -> Z) (arr : list A) : list A :=
  fold_right (insert_sorted cmp) [] arr.

(** [if (c) arr.push(x)]. *)
Definition pushIf {A} (c : bool) (x : A) (arr : list A) : list A :=
  if c then arr ++ [x] else arr.

(** [Math.round]: the nearest integer, halves towards plus infinity. *)
Definition Math_round (x : Q) : Z := Qfloor (x + (1 # 2))%Q.

End JS.
Import JS.

(** ** src/types/index.ts *)

Record RawContent := mkRawContent {
  description : option jsstring;
  ingredientsAndTools : option jsstring;
  calculation : option jsstring;
  steps : option jsstring;
  additionalContent : option jsstring
}.

Record RawRecipe := mkRawRecipe {
  dishName : jsstring;
  sourceFile : jsstring;
  contentHash : jsstring;
  category : jsstring;
  rawContent : RawContent
}.

Record Tags := mkTags {
  taste : list jsstring;
  cookingStyle : list jsstring;
  season : list jsstring;
  suitability : list jsstring
}.

(** [ProcessedRecipe extends RawRecipe]: [{...rawRecipe, tags, difficulty}]. *)
Record ProcessedRecipe := mkProcessed {
  raw : RawRecipe;
  difficulty : option Z;
  tags : Tags
}.

Record RecipeIndex := mkIndex {
  idx_dishName : jsstring;
  idx_category : jsstring;
  idx_difficulty : option Z;
  idx_tags : Tags
}.

Record MenuRecommendation := mkMenuItem {
  item_dishName : jsstring;
  recommendationReason : jsstring
}.

Inductive ConversationState :=
| AWAITING_PREFERENCES
| RECOMMENDING_MENU
| GENERATING_SHOPPING_LIST
| PLANNING_WORKFLOW
| READY_FOR_QUESTIONS.

Inductive Role := user | assistant.

(** The [timestamp: Date] field of a message is wall-clock time and is left
    out. *)
Record Message := mkMessage { role : Role; content : jsstring }.

(** [x || ''] on an optional string. *)
Definition orEmpty (o : option jsstring) : jsstring := default [] o.


(** A property of an object: left out, present but holding [undefined], or
    present with a value.  Object spread copies every present property, also
    one that holds [undefined]. *)
Inductive Slot (A : Type) :=
| Omitted
| Undefined
| Value (a : A).
Arguments Omitted {A}.
Arguments Undefined {A}.
Arguments Value {A} a.

(** Reading the property: [o.k]. *)
Definition get {A} (s : Slot A) : option A :=
  match s with
  | Value a => Some a
  | _ => None
  end.

Record UserPreferences := mkPrefs {
  peopleCount : Slot Z;
  tastePreferences : Slot (list jsstring);
  ingredientExclusions : Slot (list jsstring);
  specialGroup : Slot (list jsstring);
  maxCookingTimeMinutes : Slot Z
}.

(** The preferences without their taste key. *)
Definition withoutTaste (p : UserPreferences) : UserPreferences :=
  {| peopleCount := peopleCount p;
     tastePreferences := Omitted;
     ingredientExclusions := ingredientExclusions p;
     specialGroup := specialGroup p;
     maxCookingTimeMinutes := maxCookingTimeMinutes p |}.

(** [o.k?.length] as a condition: the array is there and not empty. *)
Definition hasLength {A} (s : Slot (list A)) : bool :=
  match get s with
  | Some (_ :: _) => true
  | _ => false
  end.

(** [o.k!] once [hasLength] holds; the empty array otherwise. *)
Definition arrayOf {A} (s : Slot (list A)) : list A := default [] (get s).

(** ** scripts/data-processing/LLMBasedTagger.ts *)

Module LLMBasedTagger.

(** [estimateDifficulty]: base 1, more for many steps, a complex method, many
    ingredient lines; rounded and clamped to 1..5. *)
Definition estimateDifficulty (recipe : RawRecipe) : Z :=
  let stepsText := orEmpty (steps (rawContent recipe)) in
  let ingredientsText := orEmpty (ingredientsAndTools (rawContent recipe)) in
  let difficulty : Q := 1%Q in
  let stepCount :=
    length (List.filter (fun s => 10 <? length (trim s))
                        (split_class (lit "。.\n-") stepsText)) in
  let difficulty :=
    if 10 <? stepCount then (difficulty + 2)%Q
    else if 5 <? stepCount then (difficulty + 1)%Q
    else difficulty in
  let complexMethods := [lit "炸"; lit "炖"; lit "焖"; lit "烤"; lit "蒸"] in
  let hasComplexMethod := some (fun method => includes stepsText method) complexMethods in
  let difficulty := if hasComplexMethod then (difficulty + 1)%Q else difficulty in
  let ingredientLines :=
    List.filter (fun line => 0 <? length (trim line)) (split (lit "\n") ingredientsText) in
  let difficulty :=
    if 15 <? length ingredientLines then (difficulty + 1)%Q
    else if 10 <? length ingredientLines then (difficulty + (1 # 2))%Q
    else difficulty in
  Z.min 5 (Z.max 1 (Math_round difficulty)).

(** The text the keyword heuristics read: [`${dishName} ${steps} ${ingredients}`]. *)
Definition allTextOf (recipe : RawRecipe) : jsstring :=
  toLowerCase (dishName recipe) ++ lit " "
  ++ toLowerCase (orEmpty (steps (rawContent recipe))) ++ lit " "
  ++ toLowerCase (orEmpty (ingredientsAndTools (rawContent recipe))).

Definition dangerousIngredients : list jsstring :=
  [lit "酒"; lit "咖啡"; lit "生"; lit "半生"; lit "血"].
Definition spicyKeywords : list jsstring := [lit "辣"; lit "椒"; lit "麻"].

Definition hasDangerousIngredients (allText : jsstring) : bool :=
  some (fun ingredient => includes allText ingredient) dangerousIngredients.
Definition isSpicy (allText : jsstring) : bool :=
  some (fun keyword => includes allText keyword) spicyKeywords.

Definition fallbackTaste (allText : jsstring) : list jsstring :=
  let has := includes allText in
  let t := [] in
  let t := pushIf (has (lit "辣") || has (lit "椒") || has (lit "麻")) (lit "辣") t in
  let t := pushIf (has (lit "酸") || has (lit "醋") || has (lit "柠檬")) (lit "酸") t in
  let t := pushIf (has (lit "甜") || has (lit "糖") || has (lit "蜜")) (lit "甜") t in
  let t := pushIf (has (lit "咸") || has (lit "盐") || has (lit "酱油")) (lit "咸") t in
  let t := pushIf (has (lit "鲜") || has (lit "味精") || has (lit "鸡精")) (lit "鲜") t in
  pushIf (length t =? 0) (lit "香") t.

(** The [switch (recipe.category)] used when no cooking keyword occurs. *)
Definition defaultCookingStyle (category : jsstring) : jsstring :=
  if str_eqb category (lit "soup") then lit "煮"
  else if str_eqb category (lit "vegetable_dish") then lit "炒"
  else if str_eqb category (lit "meat_dish") then lit "烧"
  else lit "炒".

Definition fallbackCookingStyle (allText category : jsstring) : list jsstring :=
  let has := includes allText in
  let c := [] in
  let c := pushIf (has (lit "炒")) (lit "炒") c in
  let c := pushIf (has (lit "蒸")) (lit "蒸") c in
  let c := pushIf (has (lit "炖") || has (lit "煨")) (lit "炖") c in
  let c := pushIf (has (lit "炸")) (lit "炸") c in
  let c := pushIf (has (lit "凉拌") || has (lit "拌")) (lit "凉拌") c in
  let c := pushIf (has (lit "烤")) (lit "烤") c in
  let c := pushIf (has (lit "烧") || has (lit "红烧")) (lit "烧") c in
  let c := pushIf (has (lit "焖")) (lit "焖") c in
  let c := pushIf (has (lit "煮") || has (lit "水煮")) (lit "煮") c in
  let c := pushIf (has (lit "煎")) (lit "煎") c in
  let c := pushIf (has (lit "烙")) (lit "烙") c in
  let c := pushIf (has (lit "汆")) (lit "汆") c in
  if length c =? 0 then c ++ [defaultCookingStyle category] else c.

Definition fallbackSuitability (allText : jsstring) : list jsstring :=
  let s := [] in
  let s := pushIf (negb (hasDangerousIngredients allText) && negb (isSpicy allText))
                  (lit "kid_friendly") s in
  pushIf (negb (hasDangerousIngredients allText)) (lit "pregnancy_safe") s.

(** [generateFallbackTags]: the keyword and category heuristics used when the
    tagging call fails. *)
Definition generateFallbackTags (recipe : RawRecipe) : Tags :=
  let allText := allTextOf recipe in
  {| taste := fallbackTaste allText;
     cookingStyle := fallbackCookingStyle allText (category recipe);
     season := [lit "春"; lit "夏"; lit "秋"; lit "冬"];
     suitability := fallbackSuitability allText |}.

Inductive Event :=
| ApiCall (recipe : RawRecipe)
| Delay (ms : Z).

Record TagRun := mkTagRun {
  processedRecipes : list ProcessedRecipe;
  apiCallCount : Z;
  events : list Event
}.

(** The recipes sent to the tagging service, in order. *)
Definition apiCalls (evs : list Event) : list RawRecipe :=
  flat_map (fun ev => match ev with
                      | ApiCall recipe => [recipe]
                      | Delay _ => []
                      end) evs.

(** Every keyword the taste heuristics look for, and every keyword the
    cooking-style heuristics look for. *)
Definition tasteKeywords : list jsstring :=
  [lit "辣"; lit "椒"; lit "麻"; lit "酸"; lit "醋"; lit "柠檬"; lit "甜"; lit "糖";
   lit "蜜"; lit "咸"; lit "盐"; lit "酱油"; lit "鲜"; lit "味精"; lit "鸡精"].
Definition cookingKeywords : list jsstring :=
  [lit "炒"; lit "蒸"; lit "炖"; lit "煨"; lit "炸"; lit "凉拌"; lit "拌"; lit "烤";
   lit "烧"; lit "红烧"; lit "焖"; lit "煮"; lit "水煮"; lit "煎"; lit "烙"; lit "汆"].

Section Tagger.

(** The external tagging call of [tagRecipe] ([generateObject] with
    [RecipeTagsSchema]), with everything else inside its [try]: [None] is any
    failure.  The first argument is the value of [apiCallCount] at the call,
    so that the service may answer the same recipe differently. *)
Variable generateObject : Z -> RawRecipe -> option Tags.

(** [processingConfig.batchSize] and [processingConfig.requestDelayMs]. *)
Variables batchSize requestDelayMs : Z.

(** [tagRecipe]: declared [ProcessedRecipe | null]. *)
Definition tagRecipe (n : Z) (rawRecipe : RawRecipe) : option ProcessedRecipe :=
  match generateObject n rawRecipe with
  | Some object =>
      Some {| raw := rawRecipe;
              tags := {| taste := taste object;
                         cookingStyle := cookingStyle object;
                         season := season object;
                         suitability := suitability object |};
              difficulty := Some (estimateDifficulty rawRecipe) |}
  | None =>
      let fallbackTags := generateFallbackTags rawRecipe in
      Some {| raw := rawRecipe;
              tags := fallbackTags;
              difficulty := Some (estimateDifficulty rawRecipe) |}
  end.

(** [existing && existing.contentHash === rawRecipe.contentHash]. *)
Definition isUnchanged (existing : option ProcessedRecipe) (rawRecipe : RawRecipe) : bool :=
  match existing with
  | Some e => str_eqb (contentHash (raw e)) (contentHash rawRecipe)
  | None => false
  end.

(** The [else] branch of the loop body: tag, count, and pause after every
    [batchSize] calls.  For a batch size of 0, [count % 0] is [NaN] and
    [Z.rem count 0] is [count], which is positive: neither equals 0. *)
Definition processNew (st : TagRun) (rawRecipe : RawRecipe) : TagRun :=
  let called := events st ++ [ApiCall rawRecipe] in
  match tagRecipe (apiCallCount st) rawRecipe with
  | Some tagged =>
      let count := (apiCallCount st + 1)%Z in
      {| processedRecipes := processedRecipes st ++ [tagged];
         apiCallCount := count;
         events := if (Z.rem count batchSize =? 0)%Z
                   then called ++ [Delay requestDelayMs] else called |}
  | None =>
      {| processedRecipes := processedRecipes st;
         apiCallCount := apiCallCount st;
         events := called |}
  end.

(** One iteration of [for (const rawRecipe of rawRecipes)]. *)
Definition tagStep (existingData : gmap jsstring ProcessedRecipe)
  (st : TagRun) (rawRecipe : RawRecipe) : TagRun :=
  let existing := existingData !! dishName rawRecipe in
  match existing with
  | Some e =>
      if isUnchanged existing rawRecipe
      then {| processedRecipes := processedRecipes st ++ [e];
              apiCallCount := apiCallCount st;
              events := events st |}
      else processNew st rawRecipe
  | None => processNew st rawRecipe
  end.

Definition tagRecipesIncremental (rawRecipes : list RawRecipe)
  (existingData : gmap jsstring ProcessedRecipe) : TagRun :=
  fold_left (tagStep existingData) rawRecipes
            {| processedRecipes := []; apiCallCount := 0%Z; events := [] |}.

(** A record is a cache hit: an enriched record of the same name holds the
    same content hash. *)
Definition cached (existingData : gmap jsstring ProcessedRecipe) (rawRecipe : RawRecipe)
  : bool :=
  isUnchanged (existingData !! dishName rawRecipe) rawRecipe.

End Tagger.

End LLMBasedTagger.

(** ** Exceptions and object state

    A method of an object with fields [S] that may throw: it returns a value or
    throws, and in both cases leaves the fields as it last wrote them. *)

Module Eff.

Inductive Err :=
| LoadError   (* new Error(`Failed to load recipe database: ...`) *)
| TypeError.  (* reading a property of undefined *)

Inductive Outcome (A : Type) :=
| Return (a : A)
| Throw (e : Err).
Arguments Return {A} a.
Arguments Throw {A} e.

Definition M (S A : Type) : Type := S -> Outcome A * S.

Definition ret {S A} (a : A) : M S A := fun s => (Return a, s).
Definition throw {S A} (e : Err) : M S A := fun s => (Throw e, s).
Definition bind {S A B} (c : M S A) (k : A -> M S B) : M S B :=
  fun s => match c s with
           | (Return a, s') => k a s'
           | (Throw e, s') => (Throw e, s')
           end.
Definition this {S} : M S S := fun s => (Return s, s).
Definition assign {S} (f : S -> S) : M S unit := fun s => (Return tt, f s).

(** [try { c } catch (error) { handler error }]. *)
Definition try_catch {S A} (c : M S A) (handler : Err -> M S A) : M S A :=
  fun s => match c s with
           | (Return a, s') => (Return a, s')
           | (Throw e, s') => handler e s'
           end.

(** A computation that does not touch the fields. *)
Definition pure {S A} (o : Outcome A) : M S A := fun s => (o, s).

End Eff.
Import Eff.

Declare Scope eff_scope.
Delimit Scope eff_scope with eff.
Notation "'do' x <- c ; k" := (bind c (fun x => k))
  (at level 10, x name, c at level 100, k at level 200) : eff_scope.
Notation "'run' c ; k" := (bind c (fun _ => k))
  (at level 10, c at level 100, k at level 200) : eff_scope.

(** ** src/lib/KnowledgeBase.ts *)

Module KnowledgeBase.

Record KB := mkKB {
  recipesData : gmap jsstring ProcessedRecipe;
  recipesIndex : list RecipeIndex;
  isLoaded : bool
}.

(** [new KnowledgeBase()]. *)
Definition fresh : KB := {| recipesData := ∅; recipesIndex := []; isLoaded := false |}.

(** What [loadData] finds on disk. *)
Inductive Files :=
| Unreadable                                  (* a readFile rejects *)
| IndexUnparseable                            (* JSON.parse(indexContent) throws *)
| DataUnparseable (index : list RecipeIndex)  (* JSON.parse(dataContent) throws *)
| Artifacts (index : list RecipeIndex) (data : gmap jsstring ProcessedRecipe).

(** The array held by the local variable [candidates] of [searchRecipes]:
    either the very array stored in [this.recipesIndex], or an array of its
    own made by [filter]. *)
Inductive Candidates :=
| SharedIndex
| Fresh (arr : list RecipeIndex).

Record CandidateDishes := mkCandidates {
  mainDishes : list ProcessedRecipe;
  vegetableDishes : list ProcessedRecipe;
  soups : list ProcessedRecipe
}.

Definition setIndex (idx : list RecipeIndex) (kb : KB) : KB :=
  {| recipesData := recipesData kb; recipesIndex := idx; isLoaded := isLoaded kb |}.
Definition setData (d : gmap jsstring ProcessedRecipe) (kb : KB) : KB :=
  {| recipesData := d; recipesIndex := recipesIndex kb; isLoaded := isLoaded kb |}.
Definition setLoaded (b : bool) (kb : KB) : KB :=
  {| recipesData := recipesData kb; recipesIndex := recipesIndex kb; isLoaded := b |}.

(** The recipes an array variable denotes. *)
Definition deref (c : Candidates) (kb : KB) : list RecipeIndex :=
  match c with
  | SharedIndex => recipesIndex kb
  | Fresh arr => arr
  end.

(** The taste predicate of the first filter. *)
Definition matchesTaste (preferences : UserPreferences) (recipe : RecipeIndex) : bool :=
  some (fun t => arr_includes (taste (idx_tags recipe)) t)
       (arrayOf (tastePreferences preferences)).

(** The comparator of the special-group sort: [scoreB - scoreA]. *)
Definition groupScore (preferences : UserPreferences) (recipe : RecipeIndex) : Z :=
  let group := arrayOf (specialGroup preferences) in
  let score := 0%Z in
  let score :=
    if arr_includes group (lit "kid") then
      if arr_includes (suitability (idx_tags recipe)) (lit "kid_friendly")
      then (score + 2)%Z else score
    else score in
  if arr_includes group (lit "pregnant") then
    if arr_includes (suitability (idx_tags recipe)) (lit "pregnancy_safe")
    then (score + 2)%Z else score
  else score.
Definition groupCompare (preferences : UserPreferences) (a b : RecipeIndex) : Z :=
  (groupScore preferences b - groupScore preferences a)%Z.

(** The callback of the exclusion filter; it reads [fullRecipe.rawContent]. *)
Definition keepsAfterExclusions (data : gmap jsstring ProcessedRecipe)
  (preferences : UserPreferences) (recipe : RecipeIndex) : Outcome bool :=
  match data !! idx_dishName recipe with
  | None => Throw TypeError
  | Some fullRecipe =>
      let ingredientsText :=
        orEmpty (toLowerCase <$> ingredientsAndTools (rawContent (raw fullRecipe))) in
      Return (negb (some (fun exclusion => includes ingredientsText (toLowerCase exclusion))
                         (arrayOf (ingredientExclusions preferences))))
  end.

(** [arr.filter(f)] for a callback that may throw. *)
Fixpoint filter_throwing {A} (f : A -> Outcome bool) (arr : list A) : Outcome (list A) :=
  match arr with
  | [] => Return []
  | x :: arr' =>
      match f x with
      | Throw e => Throw e
      | Return b =>
          match filter_throwing f arr' with
          | Throw e => Throw e
          | Return kept => Return (if b then x :: kept else kept)
          end
      end
  end.

(** Reading [recipe.category] of every element of an array that may hold
    [undefined]. *)
Fixpoint allDefined {A} (arr : list (option A)) : Outcome (list A) :=
  match arr with
  | [] => Return []
  | None :: _ => Throw TypeError
  | Some x :: arr' =>
      match allDefined arr' with
      | Throw e => Throw e
      | Return xs => Return (x :: xs)
      end
  end.

Section Loaded.

Variable files : Files.

Local Open Scope eff_scope.

Definition loadData : M KB unit :=
  match files with
  | Unreadable => throw LoadError
  | IndexUnparseable => throw LoadError
  | DataUnparseable index => run assign (setIndex index) ; throw LoadError
  | Artifacts index data => run assign (setIndex index) ; assign (setData data)
  end.

Definition initialize : M KB unit :=
  do kb <- this ;
  if isLoaded kb then ret tt
  else try_catch (run loadData ; assign (setLoaded true))
                 (fun error => throw LoadError).

Definition ensureLoaded : M KB unit :=
  do kb <- this ;
  if negb (isLoaded kb) then initialize else ret tt.

(** [this.recipesData[dishName] || null]. *)
Definition getDishByName (name : jsstring) : M KB (option ProcessedRecipe) :=
  run ensureLoaded ;
  do kb <- this ;
  ret (recipesData kb !! name).

Definition getRecipesByCategory (cat : jsstring) : M KB (list ProcessedRecipe) :=
  run ensureLoaded ;
  do kb <- this ;
  ret (omap (fun o : option ProcessedRecipe => o)
         (map (fun recipe => recipesData kb !! idx_dishName recipe)
            (List.filter (fun recipe => str_eqb (idx_category recipe) cat)
               (recipesIndex kb)))).

(** The taste stage: [candidates] is replaced only by a non-empty filter
    result. *)
Definition tasteStage (preferences : UserPreferences) (kb : KB) : Candidates :=
  if hasLength (tastePreferences preferences) then
    let filteredByTaste := List.filter (matchesTaste preferences) (recipesIndex kb) in
    if 0 <? length filteredByTaste then Fresh filteredByTaste else SharedIndex
  else SharedIndex.

(** The sort stage: [candidates = candidates.sort(...)] sorts the array that
    [candidates] refers to, in place. *)
Definition sortStage (preferences : UserPreferences) (candidates : Candidates)
  : M KB Candidates :=
  if hasLength (specialGroup preferences) then
    match candidates with
    | SharedIndex =>
        run assign (fun kb => setIndex (Array_sort (groupCompare preferences) (recipesIndex kb)) kb) ;
        ret SharedIndex
    | Fresh arr => ret (Fresh (Array_sort (groupCompare preferences) arr))
    end
  else ret candidates.

(** The exclusion stage: a hard filter into a new array. *)
Definition exclusionStage (preferences : UserPreferences) (candidates : Candidates)
  : M KB Candidates :=
  if hasLength (ingredientExclusions preferences) then
    do kb <- this ;
    do kept <- pure (filter_throwing (keepsAfterExclusions (recipesData kb) preferences)
                                     (deref candidates kb)) ;
    ret (Fresh kept)
  else ret candidates.

(** The stages of [searchRecipes] after the taste stage. *)
Definition searchFrom (preferences : UserPreferences) (candidates : Candidates)
  : M KB (list (option ProcessedRecipe)) :=
  do candidates <- sortStage preferences candidates ;
  do candidates <- exclusionStage preferences candidates ;
  do kb <- this ;
  ret (map (fun recipe => recipesData kb !! idx_dishName recipe) (deref candidates kb)).

(** [searchRecipes]; an element of the result is [None] where
    [this.recipesData[recipe.dishName]] is [undefined]. *)
Definition searchRecipes (preferences : UserPreferences)
  : M KB (list (option ProcessedRecipe)) :=
  run ensureLoaded ;
  do kb <- this ;
  searchFrom preferences (tasteStage preferences kb).

Definition getRecommendedCandidates (preferences : UserPreferences)
  : M KB CandidateDishes :=
  run ensureLoaded ;
  do allCandidates <- searchRecipes preferences ;
  do defined <- pure (allDefined allCandidates) ;
  let mainDishes :=
    List.filter (fun recipe => arr_includes [lit "meat_dish"; lit "aquatic"] (category (raw recipe)))
                defined in
  let vegetableDishes :=
    List.filter (fun recipe => str_eqb (category (raw recipe)) (lit "vegetable_dish")) defined in
  let soups :=
    List.filter (fun recipe => str_eqb (category (raw recipe)) (lit "soup")) defined in
  ret {| mainDishes := mainDishes; vegetableDishes := vegetableDishes; soups := soups |}.

(** [recipe.difficulty || 1]. *)
Definition difficultyOr1 (d : option Z) : Z :=
  match d with
  | Some v => if (v =? 0)%Z then 1%Z else v
  | None => 1%Z
  end.

Definition getRecipesByDifficulty (maxDifficulty : Z)
  : M KB (list (option ProcessedRecipe)) :=
  run ensureLoaded ;
  do kb <- this ;
  ret (map (fun recipe => recipesData kb !! idx_dishName recipe)
         (List.filter (fun recipe => (difficultyOr1 (idx_difficulty recipe) <=? maxDifficulty)%Z)
            (recipesIndex kb))).

End Loaded.

End KnowledgeBase.

(** ** src/agents/IntentExtractor.ts *)

Module IntentExtractor.

(** [tasteMapping]: the user's words to the taste tags of the database. *)
Definition tasteMapping : list (jsstring * list jsstring) :=
  [ (lit "清淡", [lit "鲜"]); (lit "清爽", [lit "鲜"]); (lit "不油腻", [lit "鲜"]);
    (lit "淡", [lit "鲜"]); (lit "鲜美", [lit "鲜"]); (lit "香", [lit "香"]);
    (lit "香味", [lit "香"]); (lit "辣", [lit "辣"]); (lit "微辣", [lit "微辣"]);
    (lit "甜", [lit "甜"]); (lit "酸", [lit "酸"]); (lit "咸", [lit "咸"]);
    (lit "麻", [lit "麻"]); (lit "苦", [lit "苦"]) ].

Definition lookupMapping (t : jsstring) : option (list jsstring) :=
  snd <$> List.find (fun kv => str_eqb (fst kv) t) tasteMapping.

(** [set.add(x)] on a [Set], kept in insertion order. *)
Definition set_add (x : jsstring) (s : list jsstring) : list jsstring :=
  if arr_includes s x then s else s ++ [x].

Definition mapTastePreferences (preferences : UserPreferences) : UserPreferences :=
  match get (tastePreferences preferences) with
  | None => preferences
  | Some tastes =>
      let mappedTastes :=
        fold_left (fun acc t =>
                     match lookupMapping t with
                     | Some mapped => fold_left (fun acc tag => set_add tag acc) mapped acc
                     | None => set_add t acc
                     end) tastes [] in
      {| peopleCount := peopleCount preferences;
         tastePreferences := Value mappedTastes;
         ingredientExclusions := ingredientExclusions preferences;
         specialGroup := specialGroup preferences;
         maxCookingTimeMinutes := maxCookingTimeMinutes preferences |}
  end.

(** The object returned by the [catch] of [extractIntent]: all five keys are
    written, each holding [undefined]. *)
Definition emptyPreferences : UserPreferences :=
  {| peopleCount := Undefined;
     tastePreferences := Undefined;
     ingredientExclusions := Undefined;
     specialGroup := Undefined;
     maxCookingTimeMinutes := Undefined |}.

Record Validation := mkValidation {
  isValid : bool;
  missingInfo : list jsstring;
  suggestions : list jsstring
}.

(** [!preferences.peopleCount]. *)
Definition noPeopleCount (preferences : UserPreferences) : bool :=
  match get (peopleCount preferences) with
  | Some n => (n =? 0)%Z
  | None => true
  end.

Definition validatePreferences (preferences : UserPreferences) : Validation :=
  let missing := [] in
  let sugg := [] in
  let missing := pushIf (noPeopleCount preferences) (lit "用餐人数") missing in
  let sugg := pushIf (noPeopleCount preferences) (lit "请告诉我有几个人用餐？") sugg in
  let noTaste := negb (hasLength (tastePreferences preferences))
                 && negb (hasLength (specialGroup preferences)) in
  let missing := pushIf noTaste (lit "口味偏好或特殊需求") missing in
  let sugg := pushIf noTaste (lit "您有什么口味偏好吗？比如想吃辣的、清淡的？") sugg in
  let sugg :=
    pushIf
      (match get (peopleCount preferences) with
       | Some n => negb (n =? 0)%Z && (6 <? n)%Z
       | None => false
       end)
      (lit "人数较多，建议增加一些容易制作的大份菜品。") sugg in
  let sugg :=
    pushIf (arr_includes (arrayOf (specialGroup preferences)) (lit "kid"))
      (lit "有小朋友，建议选择不太辣、口味温和的菜品。") sugg in
  let sugg :=
    pushIf (arr_includes (arrayOf (specialGroup preferences)) (lit "pregnant"))
      (lit "有孕妇，会避免推荐生冷、刺激性食物。") sugg in
  {| isValid := length missing =? 0; missingInfo := missing; suggestions := sugg |}.

Inductive Action :=
| modify_preferences
| confirm_menu
| replace_dish
| ask_question
| unknown.

Inductive Details :=
| NoDetails
| OfInput (userInput : jsstring)
| OfPreferences (newPreferences : UserPreferences)
| OfQuestion (question : jsstring).

Record FollowUp := mkFollowUp { action : Action; details : Details }.

Section Extractor.

(** The external call of [extractIntent] ([generateObject] with
    [UserPreferencesSchema]) on the prompt built from the input and the
    history; [None] is any failure inside the [try]. *)
Variable generateObject : jsstring -> list Message -> option UserPreferences.

Definition extractIntent (userInput : jsstring) (conversationHistory : list Message)
  : UserPreferences :=
  match generateObject userInput conversationHistory with
  | Some object => mapTastePreferences object
  | None => emptyPreferences
  end.

Definition interpretFollowUpRequest (userInput : jsstring)
  (currentPreferences : UserPreferences) : FollowUp :=
  let lowerInput := toLowerCase userInput in
  if includes lowerInput (lit "确认") || includes lowerInput (lit "好的")
     || includes lowerInput (lit "就这些")
  then {| action := confirm_menu; details := NoDetails |}
  else
    let replacePatterns := [lit "换"; lit "替换"; lit "不要"; lit "改成"] in
    if some (fun pattern => includes lowerInput pattern) replacePatterns
    then {| action := replace_dish; details := OfInput userInput |}
    else
      let modifyPatterns :=
        [lit "人数"; lit "口味"; lit "辣"; lit "甜"; lit "咸"; lit "清淡"; lit "不吃"; lit "忌口"] in
      if some (fun pattern => includes lowerInput pattern) modifyPatterns
      then
        let newPreferences := extractIntent userInput [] in
        {| action := modify_preferences; details := OfPreferences newPreferences |}
      else
        let questionPatterns :=
          [lit "怎么做"; lit "怎么"; lit "为什么"; lit "什么时候"; lit "多长时间"; lit "怎样"] in
        if some (fun pattern => includes lowerInput pattern) questionPatterns
           || includes lowerInput (lit "?") || includes lowerInput (lit "？")
        then {| action := ask_question; details := OfQuestion userInput |}
        else {| action := unknown; details := OfInput userInput |}.

End Extractor.

End IntentExtractor.

(** ** src/agents/MenuRecommender.ts *)

Module MenuRecommender.

Record MenuComposition := mkComposition {
  mainDishes : Z;
  vegetableDishes : Z;
  soups : Z;
  totalDishes : Z
}.

(** [calculateMenuComposition]; [totalDishes / 2] is a fraction when the
    total is odd. *)
Definition calculateMenuComposition (peopleCount : Z) : MenuComposition :=
  let totalDishes := (peopleCount + 1)%Z in
  let vegetableDishes := Qfloor (inject_Z totalDishes / 2)%Q in
  let mainDishes := Qceiling (inject_Z totalDishes / 2)%Q in
  let soups := if (4 <? peopleCount)%Z then 1%Z else 0%Z in
  {| mainDishes := mainDishes;
     vegetableDishes := vegetableDishes;
     soups := soups;
     totalDishes := (mainDishes + vegetableDishes + soups)%Z |}.

(** [preferences.peopleCount || 2]. *)
Definition peopleCountOr2 (preferences : UserPreferences) : Z :=
  match get (peopleCount preferences) with
  | Some n => if (n =? 0)%Z then 2%Z else n
  | None => 2%Z
  end.

Definition mainReason (dish : ProcessedRecipe) : jsstring :=
  lit "经典"
  ++ (if str_eqb (category (raw dish)) (lit "meat_dish") then lit "荤菜" else lit "海鲜")
  ++ lit "，营养丰富，适合家庭聚餐。".
Definition vegetableReason : jsstring := lit "清爽素菜，平衡荤腥，提供丰富维生素和纤维。".
Definition soupReason : jsstring := lit "暖胃汤品，有助消化，丰富用餐层次。".

Definition mainItem (dish : ProcessedRecipe) : MenuRecommendation :=
  {| item_dishName := dishName (raw dish); recommendationReason := mainReason dish |}.
Definition vegetableItem (dish : ProcessedRecipe) : MenuRecommendation :=
  {| item_dishName := dishName (raw dish); recommendationReason := vegetableReason |}.
Definition soupItem (dish : ProcessedRecipe) : MenuRecommendation :=
  {| item_dishName := dishName (raw dish); recommendationReason := soupReason |}.

Definition generateFallbackMenu (candidateDishes : KnowledgeBase.CandidateDishes)
  (peopleCount : Z) : list MenuRecommendation :=
  let composition := calculateMenuComposition peopleCount in
  let menu := [] in
  let menu :=
    menu ++ map mainItem
                (slice0 (KnowledgeBase.mainDishes candidateDishes) (mainDishes composition)) in
  let menu :=
    menu ++ map vegetableItem
                (slice0 (KnowledgeBase.vegetableDishes candidateDishes)
                        (vegetableDishes composition)) in
  if (0 <? soups composition)%Z then
    menu ++ map soupItem
                (slice0 (KnowledgeBase.soups candidateDishes) (soups composition))
  else menu.

(** What [recommendMenu] writes with [console.warn]. *)
Inductive Warning :=
| InvalidDishName (name : jsstring)
| TooManyInvalid (valid : nat) (total : Z).

(** The names [availableDishNames] holds. *)
Definition availableDishNames (candidateDishes : KnowledgeBase.CandidateDishes)
  : list jsstring :=
  map (fun dish => dishName (raw dish))
      (KnowledgeBase.mainDishes candidateDishes
       ++ KnowledgeBase.vegetableDishes candidateDishes
       ++ KnowledgeBase.soups candidateDishes).

Section Recommender.

(** The external call of [recommendMenu] ([generateObject] with
    [MenuRecommendationSchema]); [None] is any failure inside the [try]. *)
Variable generateObject :
  UserPreferences -> KnowledgeBase.CandidateDishes -> MenuComposition ->
  option (list MenuRecommendation).

Definition recommendMenu (preferences : UserPreferences)
  (candidateDishes : KnowledgeBase.CandidateDishes)
  : list MenuRecommendation * list Warning :=
  let menuComposition := calculateMenuComposition (peopleCountOr2 preferences) in
  let names := availableDishNames candidateDishes in
  match generateObject preferences candidateDishes menuComposition with
  | Some recommendedMenu =>
      let isValid := fun item : MenuRecommendation => arr_includes names (item_dishName item) in
      let validatedMenu := List.filter isValid recommendedMenu in
      let warnings :=
        map (fun item => InvalidDishName (item_dishName item))
            (List.filter (fun item => negb (isValid item)) recommendedMenu) in
      if (Z.of_nat (length validatedMenu) <? totalDishes menuComposition - 1)%Z then
        (generateFallbackMenu candidateDishes (peopleCountOr2 preferences),
         warnings ++ [TooManyInvalid (length validatedMenu) (totalDishes menuComposition)])
      else (validatedMenu, warnings)
  | None =>
      (generateFallbackMenu candidateDishes (peopleCountOr2 preferences), [])
  end.

End Recommender.

End MenuRecommender.

(** ** src/agents/WorkflowPlanner.ts *)

Module WorkflowPlanner.

Definition MAX_CONTEXT_LENGTH : Z := 8000.

Definition optLength (o : option jsstring) : nat :=
  match o with
  | Some s => length s
  | None => 0
  end.

Definition estimateContentLength (confirmedMenu : list ProcessedRecipe) : Z :=
  Z.of_nat
    (fold_left (fun totalLength recipe =>
                  totalLength + length (dishName (raw recipe))
                  + optLength (ingredientsAndTools (rawContent (raw recipe)))
                  + optLength (calculation (rawContent (raw recipe)))
                  + optLength (steps (rawContent (raw recipe))))
               confirmedMenu 0)
  + 1000.

Inductive Mode := Detailed | Macro.

(** The text of a plan: streamed by the service, or the fixed staged outline
    of [generateFallbackWorkflow], which only varies in the dish names. *)
Inductive Plan :=
| Streamed (text : jsstring)
| FallbackWorkflow (dishNames : list jsstring).

Section Planner.

(** The external call ([streamText], read to its end); [None] is any failure
    inside the [try] of [planWorkflow]. *)
Variable streamText : Mode -> list ProcessedRecipe -> option jsstring.

Definition planWorkflow (confirmedMenu : list ProcessedRecipe) : Plan :=
  let totalContentLength := estimateContentLength confirmedMenu in
  let useDetailedPlanning := (totalContentLength <? MAX_CONTEXT_LENGTH)%Z in
  match streamText (if useDetailedPlanning then Detailed else Macro) confirmedMenu with
  | Some workflowText => Streamed workflowText
  | None => FallbackWorkflow (map (fun r => dishName (raw r)) confirmedMenu)
  end.

End Planner.

End WorkflowPlanner.

(** ** src/lib/ConversationEngine.ts *)

Module ConversationEngine.

(** One entry of the array [generateShoppingList] returns. *)
Inductive Line :=
| DishHeading (number : nat) (name : jsstring)   (* `## ${index + 1}. ${dishName}` *)
| CalculationHeading (name : jsstring)           (* `### 计算 - ${dishName}` *)
| Text (s : jsstring)
| Blank.

(** The message of a reply, by the template that builds it. *)
Inductive Reply :=
| ErrorReply (error : Err)
| NeedMoreInfo (missingInfo suggestions : list jsstring)
| MenuProposal (menu : list MenuRecommendation)
| ReplacementOptions (dishToReplace : jsstring) (alternatives : list ProcessedRecipe)
| NoReplacementFound
| NotUnderstood
| ShoppingListAndWorkflow (shoppingList : list Line) (plan : WorkflowPlanner.Plan)
| ShoppingListOnly (shoppingList : list Line)
| Workflow (plan : WorkflowPlanner.Plan)
| Welcome
| RecipeAnswer (recipe : ProcessedRecipe)
| AskAboutMenu.

Record Response := mkResponse { message : Reply; newState : ConversationState }.

Record Engine := mkEngine {
  state : ConversationState;
  messages : list Message;
  userPreferences : UserPreferences;
  recommendedMenu : list MenuRecommendation;
  confirmedMenu : list ProcessedRecipe;
  knowledgeBase : KnowledgeBase.KB
}.

(** The external services and the disk, as one turn sees them. *)
Record Collaborators := mkCollaborators {
  files : KnowledgeBase.Files;
  intentModel : jsstring -> list Message -> option UserPreferences;
  menuModel : UserPreferences -> KnowledgeBase.CandidateDishes ->
              MenuRecommender.MenuComposition -> option (list MenuRecommendation);
  workflowModel : WorkflowPlanner.Mode -> list ProcessedRecipe -> option jsstring
}.

Definition getWelcomeMessage : jsstring := lit "🍳 欢迎使用 CookingAgent - 您的智能烹饪助手！

我可以帮您：
• 🎯 根据人数和偏好推荐菜单
• 🛒 生成详细的购物清单  
• ⏰ 规划高效的烹饪流程
• ❓ 回答烹饪相关的问题

请告诉我您的用餐需求，比如：
- 有几个人用餐？
- 想吃什么口味的？（辣的、清淡的等）
- 有什么忌口的吗？
- 有小孩或孕妇需要特别注意的吗？".

(** [{}]. *)
Definition noPreferences : UserPreferences :=
  {| peopleCount := Omitted;
     tastePreferences := Omitted;
     ingredientExclusions := Omitted;
     specialGroup := Omitted;
     maxCookingTimeMinutes := Omitted |}.

(** [new ConversationEngine(knowledgeBase)]. *)
Definition create (kb : KnowledgeBase.KB) : Engine :=
  {| state := AWAITING_PREFERENCES;
     messages := [];
     userPreferences := noPreferences;
     recommendedMenu := [];
     confirmedMenu := [];
     knowledgeBase := kb |}.

(** One key of [{ ...old, ...new }]. *)
Definition spreadKey {A} (old new : Slot A) : Slot A :=
  match new with
  | Omitted => old
  | _ => new
  end.

(** [{ ...old, ...new }]. *)
Definition spread (old new : UserPreferences) : UserPreferences :=
  {| peopleCount := spreadKey (peopleCount old) (peopleCount new);
     tastePreferences := spreadKey (tastePreferences old) (tastePreferences new);
     ingredientExclusions := spreadKey (ingredientExclusions old) (ingredientExclusions new);
     specialGroup := spreadKey (specialGroup old) (specialGroup new);
     maxCookingTimeMinutes :=
       spreadKey (maxCookingTimeMinutes old) (maxCookingTimeMinutes new) |}.

Definition withState (st : ConversationState) (e : Engine) : Engine :=
  {| state := st; messages := messages e; userPreferences := userPreferences e;
     recommendedMenu := recommendedMenu e; confirmedMenu := confirmedMenu e;
     knowledgeBase := knowledgeBase e |}.
Definition withMessages (ms : list Message) (e : Engine) : Engine :=
  {| state := state e; messages := ms; userPreferences := userPreferences e;
     recommendedMenu := recommendedMenu e; confirmedMenu := confirmedMenu e;
     knowledgeBase := knowledgeBase e |}.
Definition withPreferences (p : UserPreferences) (e : Engine) : Engine :=
  {| state := state e; messages := messages e; userPreferences := p;
     recommendedMenu := recommendedMenu e; confirmedMenu := confirmedMenu e;
     knowledgeBase := knowledgeBase e |}.
Definition withRecommended (m : list MenuRecommendation) (e : Engine) : Engine :=
  {| state := state e; messages := messages e; userPreferences := userPreferences e;
     recommendedMenu := m; confirmedMenu := confirmedMenu e;
     knowledgeBase := knowledgeBase e |}.
Definition withConfirmed (c : list ProcessedRecipe) (e : Engine) : Engine :=
  {| state := state e; messages := messages e; userPreferences := userPreferences e;
     recommendedMenu := recommendedMenu e; confirmedMenu := c;
     knowledgeBase := knowledgeBase e |}.
Definition withKnowledgeBase (kb : KnowledgeBase.KB) (e : Engine) : Engine :=
  {| state := state e; messages := messages e; userPreferences := userPreferences e;
     recommendedMenu := recommendedMenu e; confirmedMenu := confirmedMenu e;
     knowledgeBase := kb |}.

(** Two engines hold the same session: they differ at most in the state of
    the shared knowledge base. *)
Definition sameSession (e e' : Engine) : Prop :=
  state e' = state e
  /\ messages e' = messages e
  /\ userPreferences e' = userPreferences e
  /\ recommendedMenu e' = recommendedMenu e
  /\ confirmedMenu e' = confirmedMenu e.

(** A method call on [this.knowledgeBase]. *)
Definition onKnowledgeBase {A} (c : M KnowledgeBase.KB A) : M Engine A :=
  fun e => match c (knowledgeBase e) with
           | (o, kb') => (o, withKnowledgeBase kb' e)
           end.

(** A string used as a condition: there and not empty. *)
Definition truthy (o : option jsstring) : bool :=
  match o with
  | Some (_ :: _) => true
  | _ => false
  end.

Definition shoppingLinesOf (index : nat) (recipe : ProcessedRecipe) : list Line :=
  (if truthy (ingredientsAndTools (rawContent (raw recipe)))
   then [DishHeading (index + 1) (dishName (raw recipe));
         Text (orEmpty (ingredientsAndTools (rawContent (raw recipe))));
         Blank]
   else [])
  ++ (if truthy (calculation (rawContent (raw recipe)))
      then [CalculationHeading (dishName (raw recipe));
            Text (orEmpty (calculation (rawContent (raw recipe))));
            Blank]
      else []).

Fixpoint shoppingLinesFrom (index : nat) (menu : list ProcessedRecipe) : list Line :=
  match menu with
  | [] => []
  | recipe :: menu' => shoppingLinesOf index recipe ++ shoppingLinesFrom (S index) menu'
  end.

(** LineTerminator code units, which [.] of a regular expression skips. *)
Definition isLineTerminator (c : N) : bool :=
  ((c =? 10) || (c =? 13) || (c =? 8232) || (c =? 8233))%N.

(** The group [(.+?)] followed by [(?:$|，|。)]: the shortest non-empty run. *)
Fixpoint lazyCapture (rest acc : jsstring) : option jsstring :=
  match rest with
  | [] => match acc with
          | [] => None
          | _ => Some (rev acc)
          end
  | c :: rest' =>
      match acc with
      | _ :: _ =>
          if ((c =? 65292) || (c =? 12290))%N then Some (rev acc)
          else if isLineTerminator c then None
          else lazyCapture rest' (c :: acc)
      | [] => if isLineTerminator c then None else lazyCapture rest' [c]
      end
  end.

(** [userInput.match(/(?:换掉|替换|不要)(.+?)(?:$|，|。)/)], group 1 of the
    leftmost match. *)
Fixpoint replaceMatch (userInput : jsstring) : option jsstring :=
  match userInput with
  | [] => None
  | _ :: rest =>
      let here :=
        if startsWith (lit "换掉") userInput || startsWith (lit "替换") userInput
           || startsWith (lit "不要") userInput
        then lazyCapture (skipn 2 userInput) []
        else None in
      match here with
      | Some captured => Some captured
      | None => replaceMatch rest
      end
  end.

Section Turn.

Variable world : Collaborators.

Local Open Scope eff_scope.

Definition addMessage (r : Role) (text : jsstring) : M Engine unit :=
  assign (fun e => withMessages (messages e ++ [{| role := r; content := text |}]) e).

Definition setState (st : ConversationState) : M Engine unit :=
  assign (withState st).

Definition updateUserPreferences (preferences : UserPreferences) : M Engine unit :=
  assign (fun e => withPreferences (spread (userPreferences e) preferences) e).

Definition setRecommendedMenu (menu : list MenuRecommendation) : M Engine unit :=
  run assign (withRecommended menu) ;
  setState RECOMMENDING_MENU.

Definition reset : M Engine unit :=
  run assign (withState AWAITING_PREFERENCES) ;
  run assign (withPreferences noPreferences) ;
  run assign (withRecommended []) ;
  run assign (withConfirmed []) ;
  run assign (withMessages []) ;
  addMessage assistant getWelcomeMessage.

(** The loop of [confirmMenu]: names that do not resolve are skipped. *)
Fixpoint resolveDishes (names : list jsstring) (confirmedRecipes : list ProcessedRecipe)
  : M Engine (list ProcessedRecipe) :=
  match names with
  | [] => ret confirmedRecipes
  | name :: names' =>
      do recipe <- onKnowledgeBase (KnowledgeBase.getDishByName (files world) name) ;
      match recipe with
      | Some r => resolveDishes names' (confirmedRecipes ++ [r])
      | None => resolveDishes names' confirmedRecipes
      end
  end.

Definition confirmMenu (confirmedDishNames : list jsstring) : M Engine (list ProcessedRecipe) :=
  do confirmedRecipes <- resolveDishes confirmedDishNames [] ;
  run assign (withConfirmed confirmedRecipes) ;
  run setState GENERATING_SHOPPING_LIST ;
  ret confirmedRecipes.

Definition generateShoppingList : M Engine (list Line) :=
  do e <- this ;
  ret (shoppingLinesFrom 0 (confirmedMenu e)).

Definition getMenuSuggestions : M Engine KnowledgeBase.CandidateDishes :=
  do e <- this ;
  onKnowledgeBase (KnowledgeBase.getRecommendedCandidates (files world) (userPreferences e)).

(** [replaceDish(oldDishName)], called without a category. *)
Definition replaceDish (oldDishName : jsstring) : M Engine (list ProcessedRecipe) :=
  do e <- this ;
  let currentDishNames := map (fun recipe => dishName (raw recipe)) (confirmedMenu e) in
  let currentDishNamesExcludingOld :=
    List.filter (fun name => negb (str_eqb name oldDishName)) currentDishNames in
  do suggestions <- getMenuSuggestions ;
  let alternatives :=
    KnowledgeBase.mainDishes suggestions ++ KnowledgeBase.vegetableDishes suggestions
    ++ KnowledgeBase.soups suggestions in
  let alternatives :=
    List.filter (fun recipe =>
                   negb (arr_includes currentDishNamesExcludingOld (dishName (raw recipe))))
                alternatives in
  ret (slice0 alternatives 5).

Definition handlePreferenceInput (userInput : jsstring) : M Engine Response :=
  do e <- this ;
  let extractedPreferences :=
    IntentExtractor.extractIntent (intentModel world) userInput (messages e) in
  run updateUserPreferences extractedPreferences ;
  do e <- this ;
  let validation := IntentExtractor.validatePreferences (userPreferences e) in
  if negb (IntentExtractor.isValid validation) then
    ret {| message := NeedMoreInfo (IntentExtractor.missingInfo validation)
                                   (IntentExtractor.suggestions validation);
           newState := AWAITING_PREFERENCES |}
  else
    do candidates <-
      onKnowledgeBase (KnowledgeBase.getRecommendedCandidates (files world) (userPreferences e)) ;
    let menuRecommendations :=
      fst (MenuRecommender.recommendMenu (menuModel world) (userPreferences e) candidates) in
    run setRecommendedMenu menuRecommendations ;
    ret {| message := MenuProposal menuRecommendations; newState := RECOMMENDING_MENU |}.

(** [generateCookingGuide] only writes a file, inside its own [try]; it is
    left out. *)
Definition handleShoppingListGeneration : M Engine Response :=
  do shoppingList <- generateShoppingList ;
  try_catch
    (do e <- this ;
     let workflowPlan := WorkflowPlanner.planWorkflow (workflowModel world) (confirmedMenu e) in
     run setState READY_FOR_QUESTIONS ;
     ret {| message := ShoppingListAndWorkflow shoppingList workflowPlan;
            newState := READY_FOR_QUESTIONS |})
    (fun error =>
       run setState READY_FOR_QUESTIONS ;
       ret {| message := ShoppingListOnly shoppingList; newState := READY_FOR_QUESTIONS |}).

Definition handleWorkflowPlanning : M Engine Response :=
  do e <- this ;
  let workflowPlan := WorkflowPlanner.planWorkflow (workflowModel world) (confirmedMenu e) in
  run setState READY_FOR_QUESTIONS ;
  ret {| message := Workflow workflowPlan; newState := READY_FOR_QUESTIONS |}.

Definition handleMenuResponse (userInput : jsstring) : M Engine Response :=
  do e <- this ;
  let response :=
    IntentExtractor.interpretFollowUpRequest (intentModel world) userInput (userPreferences e) in
  match IntentExtractor.action response with
  | IntentExtractor.confirm_menu =>
      let dishNames := map item_dishName (recommendedMenu e) in
      run confirmMenu dishNames ;
      handleShoppingListGeneration
  | IntentExtractor.replace_dish =>
      let notFound := {| message := NoReplacementFound; newState := RECOMMENDING_MENU |} in
      match replaceMatch userInput with
      | Some captured =>
          let dishToReplace := trim captured in
          do alternatives <- replaceDish dishToReplace ;
          if 0 <? length alternatives then
            ret {| message := ReplacementOptions dishToReplace (slice0 alternatives 3);
                   newState := RECOMMENDING_MENU |}
          else ret notFound
      | None => ret notFound
      end
  | IntentExtractor.modify_preferences => handlePreferenceInput userInput
  | _ => ret {| message := NotUnderstood; newState := RECOMMENDING_MENU |}
  end.

Definition isResetRequest (userInput : jsstring) : bool :=
  let lowerInput := toLowerCase userInput in
  includes lowerInput (lit "重新开始") || includes lowerInput (lit "重新规划").

Definition handleQuestionInput (userInput : jsstring) : M Engine Response :=
  if isResetRequest userInput then
    run reset ;
    ret {| message := Welcome; newState := AWAITING_PREFERENCES |}
  else
    do e <- this ;
    match List.find (fun recipe => includes userInput (dishName (raw recipe))) (confirmedMenu e) with
    | Some recipe => ret {| message := RecipeAnswer recipe; newState := READY_FOR_QUESTIONS |}
    | None => ret {| message := AskAboutMenu; newState := READY_FOR_QUESTIONS |}
    end.

(** The [switch (this.state)] of [processUserInput]; its [default] branch is
    out of reach of a typed state. *)
Definition dispatch (userInput : jsstring) : M Engine Response :=
  do e <- this ;
  match state e with
  | AWAITING_PREFERENCES => handlePreferenceInput userInput
  | RECOMMENDING_MENU => handleMenuResponse userInput
  | GENERATING_SHOPPING_LIST => handleShoppingListGeneration
  | PLANNING_WORKFLOW => handleWorkflowPlanning
  | READY_FOR_QUESTIONS => handleQuestionInput userInput
  end.

Definition processUserInput (userInput : jsstring) : M Engine Response :=
  run addMessage user userInput ;
  try_catch (dispatch userInput)
            (fun error =>
               do e <- this ;
               ret {| message := ErrorReply error; newState := state e |}).

End Turn.

End ConversationEngine.

(** ** Sample data *)

Module Samples.

Definition noContent : RawContent :=
  {| description := None; ingredientsAndTools := None; calculation := None;
     steps := None; additionalContent := None |}.

(** A spicy meat dish without any risk ingredient. *)
Definition spicyChicken : RawRecipe :=
  {| dishName := lit "辣子鸡";
     sourceFile := lit "dishes/meat_dish/辣子鸡.md";
     contentHash := lit "a1";
     category := lit "meat_dish";
     rawContent := noContent |}.

(** Twenty ingredients, one on each line. *)
Definition twentyIngredients : RawRecipe :=
  {| dishName := lit "佛跳墙";
     sourceFile := lit "dishes/soup/佛跳墙.md";
     contentHash := lit "b2";
     category := lit "soup";
     rawContent :=
       {| description := None;
          ingredientsAndTools :=
            Some (flat_map (fun _ => lit "- 料" ++ [10%N]) (seq 0 20));
          calculation := None;
          steps := None;
          additionalContent := None |} |}.

(** The tagging service is down. *)
Definition taggingDown : Z -> RawRecipe -> option Tags := fun _ _ => None.

Definition savoury : Tags :=
  {| taste := [lit "咸"]; cookingStyle := [lit "烧"];
     season := [lit "春"; lit "夏"; lit "秋"; lit "冬"]; suitability := [] |}.
Definition mild : Tags :=
  {| taste := [lit "鲜"]; cookingStyle := [lit "蒸"];
     season := [lit "春"; lit "夏"; lit "秋"; lit "冬"];
     suitability := [lit "kid_friendly"; lit "pregnancy_safe"] |}.

Definition braisedPork : ProcessedRecipe :=
  {| raw := {| dishName := lit "红烧肉"; sourceFile := lit "dishes/meat_dish/红烧肉.md";
               contentHash := lit "b2"; category := lit "meat_dish";
               rawContent := {| description := None;
                                ingredientsAndTools := Some (lit "五花肉、酱油、冰糖");
                                calculation := None; steps := None;
                                additionalContent := None |} |};
     difficulty := Some 3%Z;
     tags := savoury |}.

Definition steamedEgg : ProcessedRecipe :=
  {| raw := {| dishName := lit "蒸水蛋"; sourceFile := lit "dishes/vegetable_dish/蒸水蛋.md";
               contentHash := lit "c3"; category := lit "vegetable_dish";
               rawContent := {| description := None;
                                ingredientsAndTools := Some (lit "鸡蛋、水、盐");
                                calculation := None; steps := None;
                                additionalContent := None |} |};
     difficulty := Some 1%Z;
     tags := mild |}.

(** The index entry [buildDatabases] writes for a record. *)
Definition indexEntry (recipe : ProcessedRecipe) : RecipeIndex :=
  {| idx_dishName := dishName (raw recipe);
     idx_category := category (raw recipe);
     idx_difficulty := difficulty recipe;
     idx_tags := tags recipe |}.

(** A loaded knowledge base of two dishes. *)
Definition twoDishes : KnowledgeBase.KB :=
  {| KnowledgeBase.recipesData :=
       <[lit "红烧肉" := braisedPork]> (<[lit "蒸水蛋" := steamedEgg]> ∅);
     KnowledgeBase.recipesIndex := [indexEntry braisedPork; indexEntry steamedEgg];
     KnowledgeBase.isLoaded := true |}.

(** A loaded knowledge base whose index names a dish the data table lacks. *)
Definition dangling : KnowledgeBase.KB :=
  {| KnowledgeBase.recipesData := ∅;
     KnowledgeBase.recipesIndex := [indexEntry braisedPork];
     KnowledgeBase.isLoaded := true |}.

Definition onDisk : KnowledgeBase.Files :=
  KnowledgeBase.Artifacts (KnowledgeBase.recipesIndex twoDishes)
                          (KnowledgeBase.recipesData twoDishes).

Definition only (taste group exclusions : Slot (list jsstring)) : UserPreferences :=
  {| peopleCount := Omitted; tastePreferences := taste;
     ingredientExclusions := exclusions; specialGroup := group;
     maxCookingTimeMinutes := Omitted |}.

End Samples.

Module Sessions.
Import ConversationEngine.

(** Four diners who like it hot. *)
Definition fourSpicy : UserPreferences :=
  {| peopleCount := Value 4%Z; tastePreferences := Value [lit "辣"];
     ingredientExclusions := Omitted; specialGroup := Omitted;
     maxCookingTimeMinutes := Omitted |}.

(** What the intent model reads from "三个人，想吃咸的". *)
Definition threeSavoury : UserPreferences :=
  {| peopleCount := Value 3%Z; tastePreferences := Value [lit "咸"];
     ingredientExclusions := Omitted; specialGroup := Omitted;
     maxCookingTimeMinutes := Omitted |}.

(** Every service fails. *)
Definition servicesDown : Collaborators :=
  {| files := Samples.onDisk;
     intentModel := fun _ _ => None;
     menuModel := fun _ _ _ => None;
     workflowModel := fun _ _ => None |}.

(** The intent model answers, but the artifacts cannot be read. *)
Definition artifactsMissing : Collaborators :=
  {| files := KnowledgeBase.Unreadable;
     intentModel := fun _ _ => Some threeSavoury;
     menuModel := fun _ _ _ => None;
     workflowModel := fun _ _ => None |}.

(** The intent model finds nothing to extract and returns [{}]. *)
Definition nothingExtracted : Collaborators :=
  {| files := Samples.onDisk;
     intentModel := fun _ _ => Some noPreferences;
     menuModel := fun _ _ _ => None;
     workflowModel := fun _ _ => None |}.

(** A session that holds preferences and waits for more. *)
Definition collecting : Engine :=
  withPreferences fourSpicy (create Samples.twoDishes).

(** A session that has proposed a menu. *)
Definition proposing : Engine :=
  {| state := RECOMMENDING_MENU;
     messages := [];
     userPreferences := fourSpicy;
     recommendedMenu := [MenuRecommender.mainItem Samples.braisedPork;
                         MenuRecommender.vegetableItem Samples.steamedEgg];
     confirmedMenu := [];
     knowledgeBase := Samples.twoDishes |}.

(** The intent model answers and the artifacts are there; the other services
    fail. *)
Definition listening : Collaborators :=
  {| files := Samples.onDisk;
     intentModel := fun _ _ => Some threeSavoury;
     menuModel := fun _ _ _ => None;
     workflowModel := fun _ _ => None |}.

(** The intent model answers, and the artifacts are there but hold no
    recipe. *)
Definition emptyPantry : Collaborators :=
  {| files := KnowledgeBase.Artifacts [] ∅;
     intentModel := fun _ _ => Some threeSavoury;
     menuModel := fun _ _ _ => None;
     workflowModel := fun _ _ => None |}.

(** A session whose knowledge base never loaded, as the command-line entry
    point leaves it when [initialize] fails at start-up. *)
Definition unloaded : Engine := create KnowledgeBase.fresh.

End Sessions.

(** ** scripts/data-processing/DatabaseBuilder.ts *)

Module DatabaseBuilder.

(** One element of [recipes_index.json]. *)
Definition indexOf (recipe : ProcessedRecipe) : RecipeIndex :=
  {| idx_dishName := dishName (raw recipe);
     idx_category := category (raw recipe);
     idx_difficulty := difficulty recipe;
     idx_tags := tags recipe |}.

Definition buildIndex (processedRecipes : list ProcessedRecipe) : list RecipeIndex :=
  map indexOf processedRecipes.

(** [processedRecipes.forEach(recipe => { data[recipe.dishName] = recipe })]. *)
Definition buildData (processedRecipes : list ProcessedRecipe)
  : gmap jsstring ProcessedRecipe :=
  fold_left (fun data recipe => <[dishName (raw recipe) := recipe]> data)
            processedRecipes ∅.

(** [stats[key] = (stats[key] || 0) + 1]. *)
Definition countUp `{Countable K} (key : K) (stats : gmap K Z) : gmap K Z :=
  <[key := (default 0%Z (stats !! key) + 1)%Z]> stats.

Definition getCategoryStats (recipes : list ProcessedRecipe) : gmap jsstring Z :=
  fold_left (fun stats recipe => countUp (category (raw recipe)) stats) recipes ∅.

Definition getDifficultyStats (recipes : list ProcessedRecipe) : gmap Z Z :=
  fold_left (fun stats recipe => countUp (KnowledgeBase.difficultyOr1 (difficulty recipe)) stats)
            recipes ∅.

(** The four tables of [getTagStats]. *)
Record TagStats := mkTagStats {
  stat_taste : gmap jsstring Z;
  stat_cookingStyle : gmap jsstring Z;
  stat_season : gmap jsstring Z;
  stat_suitability : gmap jsstring Z
}.

(** [tags.forEach(tag => { table[tag] = (table[tag] || 0) + 1 })]. *)
Definition countTags (tagList : list jsstring) (table : gmap jsstring Z) : gmap jsstring Z :=
  fold_left (fun table tag => countUp tag table) tagList table.

Definition getTagStats (recipes : list ProcessedRecipe) : TagStats :=
  fold_left (fun stats recipe =>
               {| stat_taste := countTags (taste (tags recipe)) (stat_taste stats);
                  stat_cookingStyle :=
                    countTags (cookingStyle (tags recipe)) (stat_cookingStyle stats);
                  stat_season := countTags (season (tags recipe)) (stat_season stats);
                  stat_suitability :=
                    countTags (suitability (tags recipe)) (stat_suitability stats) |})
            recipes
            {| stat_taste := ∅; stat_cookingStyle := ∅; stat_season := ∅;
               stat_suitability := ∅ |}.

(** The object [generateStatistics] writes to [statistics.json]. *)
Record Statistics := mkStatistics {
  stat_totalRecipes : nat;
  stat_categories : gmap jsstring Z;
  stat_difficulty : gmap Z Z;
  stat_tags : TagStats;
  generatedAt : jsstring
}.

(** [generateStatistics]; [now] is what [new Date().toISOString()] gives at
    the call. *)
Definition generateStatistics (now : jsstring) (recipes : list ProcessedRecipe)
  : Statistics :=
  {| stat_totalRecipes := length recipes;
     stat_categories := getCategoryStats recipes;
     stat_difficulty := getDifficultyStats recipes;
     stat_tags := getTagStats recipes;
     generatedAt := now |}.

(** The three files of the data directory. *)
Record Written := mkWritten {
  recipes_index_json : list RecipeIndex;
  recipes_data_json : gmap jsstring ProcessedRecipe;
  statistics_json : Statistics
}.

(** [buildDatabases]: the index and the data table are written, then the
    statistics.  The data directory is taken to be writable. *)
Definition buildDatabases (now : jsstring) (processedRecipes : list ProcessedRecipe)
  : Written :=
  let index := buildIndex processedRecipes in
  let data := buildData processedRecipes in
  {| recipes_index_json := index;
     recipes_data_json := data;
     statistics_json := generateStatistics now processedRecipes |}.

(** The data directory as [loadData] of the knowledge base reads it: the
    index and the data table. *)
Definition asRead (written : Written) : KnowledgeBase.Files :=
  KnowledgeBase.Artifacts (recipes_index_json written) (recipes_data_json written).

(** [loadExistingData]: the parsed content of [recipes_data.json], or the
    empty object when the file cannot be read or parsed. *)
Definition loadExistingData (dataFile : option (gmap jsstring ProcessedRecipe))
  : gmap jsstring ProcessedRecipe :=
  match dataFile with
  | Some data => data
  | None => ∅
  end.

(** [recipes_data.json] as a later run finds it in the data directory. *)
Definition dataFileOf (written : Written) : option (gmap jsstring ProcessedRecipe) :=
  Some (recipes_data_json written).

(** The statistics with another time of generation. *)
Definition generatedLater (now : jsstring) (stats : Statistics) : Statistics :=
  {| stat_totalRecipes := stat_totalRecipes stats;
     stat_categories := stat_categories stats;
     stat_difficulty := stat_difficulty stats;
     stat_tags := stat_tags stats;
     generatedAt := now |}.

End DatabaseBuilder.

(** ** src/scripts/process-data.ts *)

Module ProcessData.

(** [main], after the parser has produced [rawRecipes]: the existing data is
    loaded, the recipes are tagged incrementally, and the databases and the
    statistics are built from the result.  The run of the tagger is returned
    with the files written; [now] is the time the statistics are generated
    at. *)
Definition main (generateObject : Z -> RawRecipe -> option Tags)
  (batchSize requestDelayMs : Z) (now : jsstring) (rawRecipes : list RawRecipe)
  (dataFile : option (gmap jsstring ProcessedRecipe))
  : LLMBasedTagger.TagRun * DatabaseBuilder.Written :=
  let existingData := DatabaseBuilder.loadExistingData dataFile in
  let tagging := LLMBasedTagger.tagRecipesIncremental generateObject batchSize requestDelayMs
                                                      rawRecipes existingData in
  (tagging, DatabaseBuilder.buildDatabases now (LLMBasedTagger.processedRecipes tagging)).

End ProcessData.

(** ** src/agents/MenuRecommender.ts, revision of a menu *)

Module MenuRevision.

(** [calculatePreferenceMatch]: +2 per preferred taste the dish has, -5 per
    excluded ingredient it contains, +1 per special group it suits. *)
Definition calculatePreferenceMatch (dish : ProcessedRecipe) (preferences : UserPreferences)
  : Z :=
  let score := 0%Z in
  let score :=
    fold_left (fun score t => if arr_includes (taste (tags dish)) t then (score + 2)%Z else score)
              (arrayOf (tastePreferences preferences)) score in
  let ingredients := orEmpty (toLowerCase <$> ingredientsAndTools (rawContent (raw dish))) in
  let score :=
    fold_left (fun score exclusion =>
                 if includes ingredients (toLowerCase exclusion) then (score - 5)%Z else score)
              (arrayOf (ingredientExclusions preferences)) score in
  let score :=
    if arr_includes (arrayOf (specialGroup preferences)) (lit "kid")
       && arr_includes (suitability (tags dish)) (lit "kid_friendly")
    then (score + 1)%Z else score in
  if arr_includes (arrayOf (specialGroup preferences)) (lit "pregnant")
     && arr_includes (suitability (tags dish)) (lit "pregnancy_safe")
  then (score + 1)%Z else score.

(** [dish.difficulty || 3]. *)
Definition difficultyOr3 (d : option Z) : Z :=
  match d with
  | Some v => if (v =? 0)%Z then 3%Z else v
  | None => 3%Z
  end.

(** The comparator of [suggestAlternatives]: better match first, then easier
    first. *)
Definition compareAlternatives (preferences : UserPreferences) (a b : ProcessedRecipe) : Z :=
  let aMatchScore := calculatePreferenceMatch a preferences in
  let bMatchScore := calculatePreferenceMatch b preferences in
  if negb (aMatchScore =? bMatchScore)%Z then (bMatchScore - aMatchScore)%Z
  else (difficultyOr3 (difficulty a) - difficultyOr3 (difficulty b))%Z.

Definition named (name : jsstring) (dish : ProcessedRecipe) : bool :=
  str_eqb (dishName (raw dish)) name.

(** The bucket the dish to replace is found in, main dishes first. *)
Definition categoryDishesOf (dishToReplace : jsstring)
  (candidateDishes : KnowledgeBase.CandidateDishes) : list ProcessedRecipe :=
  if some (named dishToReplace) (KnowledgeBase.mainDishes candidateDishes)
  then KnowledgeBase.mainDishes candidateDishes
  else if some (named dishToReplace) (KnowledgeBase.vegetableDishes candidateDishes)
  then KnowledgeBase.vegetableDishes candidateDishes
  else if some (named dishToReplace) (KnowledgeBase.soups candidateDishes)
  then KnowledgeBase.soups candidateDishes
  else [].

Definition suggestAlternatives (dishToReplace : jsstring)
  (currentMenu : list MenuRecommendation)
  (candidateDishes : KnowledgeBase.CandidateDishes)
  (preferences : UserPreferences) : list ProcessedRecipe :=
  let allDishes :=
    KnowledgeBase.mainDishes candidateDishes ++ KnowledgeBase.vegetableDishes candidateDishes
    ++ KnowledgeBase.soups candidateDishes in
  match List.find (named dishToReplace) allDishes with
  | None => []
  | Some dishToReplaceObj =>
      let categoryDishes := categoryDishesOf dishToReplace candidateDishes in
      let currentDishNames := map item_dishName currentMenu in
      let alternatives :=
        List.filter (fun dish => negb (arr_includes currentDishNames (dishName (raw dish)))
                                 && negb (str_eqb (dishName (raw dish)) dishToReplace))
                    categoryDishes in
      slice0 (Array_sort (compareAlternatives preferences) alternatives) 5
  end.

Inductive MenuWarning :=
| TooFewDishes (missing : Z)   (* `菜品数量偏少，建议增加${...}道菜` *)
| SpicyWithChildren            (* 有小朋友用餐，建议减少辛辣菜品 *)
| RawWhilePregnant.            (* 有孕妇用餐，建议避免生冷食物 *)

Inductive MenuSuggestion :=
| Balanced                     (* 菜单搭配合理，营养均衡 *)
| ShareableDish.               (* 人数较多，可考虑增加一道容易分享的大菜 *)

Record MenuValidation := mkMenuValidation {
  isValid : bool;
  warnings : list MenuWarning;
  suggestions : list MenuSuggestion
}.

Definition validateMenu (menu : list MenuRecommendation) (preferences : UserPreferences)
  : MenuValidation :=
  let composition :=
    MenuRecommender.calculateMenuComposition (MenuRecommender.peopleCountOr2 preferences) in
  let w := [] in
  let w :=
    pushIf (Z.of_nat (length menu) <? MenuRecommender.totalDishes composition - 1)%Z
           (TooFewDishes (MenuRecommender.totalDishes composition - Z.of_nat (length menu))%Z)
           w in
  let w :=
    if arr_includes (arrayOf (specialGroup preferences)) (lit "kid") then
      let spicyDishes :=
        List.filter (fun item => includes (item_dishName item) (lit "辣")
                                 || includes (item_dishName item) (lit "麻")) menu in
      pushIf (0 <? length spicyDishes) SpicyWithChildren w
    else w in
  let w :=
    if arr_includes (arrayOf (specialGroup preferences)) (lit "pregnant") then
      let rawDishes :=
        List.filter (fun item => includes (item_dishName item) (lit "生")
                                 || includes (item_dishName item) (lit "凉拌")) menu in
      pushIf (0 <? length rawDishes) RawWhilePregnant w
    else w in
  let s := [] in
  let s :=
    if 0 <? length menu then
      pushIf (match get (peopleCount preferences) with
              | Some n => negb (n =? 0)%Z && (4 <? n)%Z
              | None => false
              end) ShareableDish (s ++ [Balanced])
    else s in
  {| isValid := length w =? 0; warnings := w; suggestions := s |}.

End MenuRevision.

(** ** Notions used to state properties *)

Module Notions.

(** Every entry of the index has its record in the data table. *)
Definition covered (kb : KnowledgeBase.KB) : Prop :=
  forall entry, In entry (KnowledgeBase.recipesIndex kb) ->
                is_Some (KnowledgeBase.recipesData kb !! idx_dishName entry).

(** The index entries [searchRecipes] works on after its taste stage. *)
Definition tasteSet (preferences : UserPreferences) (kb : KnowledgeBase.KB)
  : list RecipeIndex :=
  KnowledgeBase.deref (KnowledgeBase.tasteStage preferences kb) kb.

(** The same entries after the sort stage. *)
Definition rankedSet (preferences : UserPreferences) (kb : KnowledgeBase.KB)
  : list RecipeIndex :=
  if hasLength (specialGroup preferences)
  then Array_sort (KnowledgeBase.groupCompare preferences) (tasteSet preferences kb)
  else tasteSet preferences kb.

(** The ingredients text the exclusion filter reads. *)
Definition ingredientsText (recipe : ProcessedRecipe) : jsstring :=
  orEmpty (toLowerCase <$> ingredientsAndTools (rawContent (raw recipe))).

(** The recipe contains an excluded ingredient. *)
Definition excluded (preferences : UserPreferences) (recipe : ProcessedRecipe) : bool :=
  some (fun exclusion => includes (ingredientsText recipe) (toLowerCase exclusion))
       (arrayOf (ingredientExclusions preferences)).

(** The pauses of a tagging run. *)
Definition delays (evs : list LLMBasedTagger.Event) : list Z :=
  flat_map (fun ev => match ev with
                      | LLMBasedTagger.ApiCall _ => []
                      | LLMBasedTagger.Delay ms => [ms]
                      end) evs.

(** The record [tagRecipesIncremental] puts out for a raw record: the stored
    record on a hit; otherwise the raw record itself with the locally
    estimated difficulty and the tags of the service at some call, or the
    fallback tags when that call failed. *)
Definition enriches (generateObject : Z -> RawRecipe -> option Tags)
  (existingData : gmap jsstring ProcessedRecipe)
  (rawRecipe : RawRecipe) (p : ProcessedRecipe) : Prop :=
  (LLMBasedTagger.cached existingData rawRecipe = true
   /\ existingData !! dishName rawRecipe = Some p
   /\ contentHash (raw p) = contentHash rawRecipe)
  \/ (LLMBasedTagger.cached existingData rawRecipe = false
      /\ raw p = rawRecipe
      /\ difficulty p = Some (LLMBasedTagger.estimateDifficulty rawRecipe)
      /\ exists n, match generateObject n rawRecipe with
                   | Some object => taste (tags p) = taste object
                                    /\ cookingStyle (tags p) = cookingStyle object
                                    /\ season (tags p) = season object
                                    /\ suitability (tags p) = suitability object
                   | None => tags p = LLMBasedTagger.generateFallbackTags rawRecipe
                   end).

(** The raw record without its ingredients section. *)
Definition withoutIngredients (recipe : RawRecipe) : RawRecipe :=
  {| dishName := dishName recipe;
     sourceFile := sourceFile recipe;
     contentHash := contentHash recipe;
     category := category recipe;
     rawContent := {| description := description (rawContent recipe);
                      ingredientsAndTools := None;
                      calculation := calculation (rawContent recipe);
                      steps := steps (rawContent recipe);
                      additionalContent := additionalContent (rawContent recipe) |} |}.

(** The database tags [mapTastePreferences] puts in for one taste of the
    user: the mapped tags, or the taste itself when the mapping has no entry
    for it. *)
Definition databaseTags (t : jsstring) : list jsstring :=
  match IntentExtractor.lookupMapping t with
  | Some mapped => mapped
  | None => [t]
  end.

(** The order [suggestAlternatives] sorts by: the better preference match
    first, and of two equal matches the easier dish first. *)
Definition ranksBefore (preferences : UserPreferences) (a b : ProcessedRecipe) : Prop :=
  (MenuRevision.calculatePreferenceMatch b preferences
   < MenuRevision.calculatePreferenceMatch a preferences)%Z
  \/ (MenuRevision.calculatePreferenceMatch a preferences
      = MenuRevision.calculatePreferenceMatch b preferences
      /\ (MenuRevision.difficultyOr3 (difficulty a)
          <= MenuRevision.difficultyOr3 (difficulty b))%Z).

(** The dialogue states a turn can end in, by the state it starts in. *)
Definition mayFollow (before after : ConversationState) : bool :=
  match before, after with
  | AWAITING_PREFERENCES, AWAITING_PREFERENCES => true
  | AWAITING_PREFERENCES, RECOMMENDING_MENU => true
  | RECOMMENDING_MENU, RECOMMENDING_MENU => true
  | RECOMMENDING_MENU, READY_FOR_QUESTIONS => true
  | GENERATING_SHOPPING_LIST, READY_FOR_QUESTIONS => true
  | PLANNING_WORKFLOW, READY_FOR_QUESTIONS => true
  | READY_FOR_QUESTIONS, READY_FOR_QUESTIONS => true
  | READY_FOR_QUESTIONS, AWAITING_PREFERENCES => true
  | _, _ => false
  end.

(** No record is confirmed while preferences are collected or a menu is
    proposed. *)
Definition unconfirmed (e : ConversationEngine.Engine) : Prop :=
  ConversationEngine.state e = AWAITING_PREFERENCES
  \/ ConversationEngine.state e = RECOMMENDING_MENU ->
  ConversationEngine.confirmedMenu e = [].

(** The engine after a series of turns, each with the collaborators as they
    behave at that turn. *)
Definition afterTurns (turns : list (ConversationEngine.Collaborators * jsstring))
  (e : ConversationEngine.Engine) : ConversationEngine.Engine :=
  fold_left (fun e turn =>
               snd (ConversationEngine.processUserInput (fst turn) (snd turn) e))
            turns e.

(** [canTransitionTo]: the table of transitions the engine declares. *)
Definition validTransitions (st : ConversationState) : list ConversationState :=
  match st with
  | AWAITING_PREFERENCES => [RECOMMENDING_MENU]
  | RECOMMENDING_MENU => [GENERATING_SHOPPING_LIST; AWAITING_PREFERENCES]
  | GENERATING_SHOPPING_LIST => [PLANNING_WORKFLOW; RECOMMENDING_MENU]
  | PLANNING_WORKFLOW => [READY_FOR_QUESTIONS; GENERATING_SHOPPING_LIST]
  | READY_FOR_QUESTIONS => [RECOMMENDING_MENU; PLANNING_WORKFLOW; AWAITING_PREFERENCES]
  end.

Definition sameState (a b : ConversationState) : bool :=
  match a, b with
  | AWAITING_PREFERENCES, AWAITING_PREFERENCES => true
  | RECOMMENDING_MENU, RECOMMENDING_MENU => true
  | GENERATING_SHOPPING_LIST, GENERATING_SHOPPING_LIST => true
  | PLANNING_WORKFLOW, PLANNING_WORKFLOW => true
  | READY_FOR_QUESTIONS, READY_FOR_QUESTIONS => true
  | _, _ => false
  end.

Definition canTransitionTo (newState : ConversationState) (e : ConversationEngine.Engine)
  : bool :=
  existsb (sameState newState) (validTransitions (ConversationEngine.state e)).

(** The stored records are filed under their own names. *)
Definition wellKeyed (data : gmap jsstring ProcessedRecipe) : Prop :=
  forall name recipe, data !! name = Some recipe -> dishName (raw recipe) = name.

End Notions.

(** * Properties *)

(** ** Strings and arrays *)

Example lit_cjk : lit "辣" = [36771%N].
Proof. reflexivity. Qed.

Example lit_surrogates : lit "🍳" = [55356%N; 57203%N].
Proof. reflexivity. Qed.

Example split_on_backslash_n :
  split (lit "\n") (lit "a\nb\n\nc") = [lit "a"; lit "b"; lit ""; lit "c"].
Proof. reflexivity. Qed.

Example split_on_class :
  split_class (lit "。.\n-") (lit "ab。c-n") = [lit "ab"; lit "c"; lit ""; lit ""].
Proof. reflexivity. Qed.

Example trim_both_ends : trim (lit "  a b  ") = lit "a b".
Proof. reflexivity. Qed.

Example includes_infix : includes (lit "我想重新开始吧") (lit "重新开始") = true.
Proof. reflexivity. Qed.

Example slice0_negative_end : slice0 [1; 2; 3] (-1) = [1; 2].
Proof. reflexivity. Qed.

Example sort_is_stable :
  Array_sort (fun a b : Z * nat => (fst b - fst a)%Z) [(0%Z, 1); (2%Z, 2); (0%Z, 3); (2%Z, 4)]
  = [(2%Z, 2); (2%Z, 4); (0%Z, 1); (0%Z, 3)].
Proof. reflexivity. Qed.

Example round_half_up : Math_round (5 # 2) = 3%Z /\ Math_round (9 # 4) = 2%Z.
Proof. split; reflexivity. Qed.

Example replace_pattern :
  ConversationEngine.replaceMatch (lit "我想换掉红烧肉，谢谢") = Some (lit "红烧肉")
  /\ ConversationEngine.replaceMatch (lit "不要 蒸水蛋") = Some (lit " 蒸水蛋")
  /\ ConversationEngine.replaceMatch (lit "换掉") = None.
Proof. repeat split; reflexivity. Qed.

Lemma str_eqb_eq (a b : jsstring) : str_eqb a b = true <-> a = b.
Proof. unfold str_eqb. apply bool_decide_eq_true. Qed.

Lemma str_eqb_refl (a : jsstring) : str_eqb a a = true.
Proof. by apply str_eqb_eq. Qed.

Lemma arr_includes_In (arr : list jsstring) (x : jsstring) :
  arr_includes arr x = true <-> In x arr.
Proof.
  unfold arr_includes. rewrite existsb_exists. split.
  - intros (y & Hy & Heq). apply str_eqb_eq in Heq. by subst.
  - intros Hin. exists x. split; [done | apply str_eqb_refl].
Qed.

Lemma pushIf_nonempty {A} (c : bool) (x : A) (arr : list A) :
  arr <> [] -> pushIf c x arr <> [].
Proof. destruct c, arr; simpl; congruence. Qed.

Lemma slice0_firstn {A} (arr : list A) (e : Z) :
  (0 <= e)%Z -> slice0 arr e = firstn (Z.to_nat e) arr.
Proof.
  intros He. unfold slice0.
  destruct (Z.ltb_spec e 0) as [Hlt | _]; [lia |].
  destruct (Z.le_gt_cases e (Z.of_nat (length arr))) as [Hle | Hgt].
  - by rewrite Z.min_l.
  - rewrite Z.min_r by lia. rewrite Nat2Z.id.
    rewrite firstn_all. symmetry. apply firstn_all2. lia.
Qed.

Lemma firstn_incl {A} (n : nat) (arr : list A) (x : A) : In x (firstn n arr) -> In x arr.
Proof.
  revert arr. induction n as [| n IH]; intros [| y arr]; simpl; try tauto.
  intros [-> | Hin]; [by left | right; by apply IH].
Qed.

Lemma slice0_incl {A} (arr : list A) (e : Z) (x : A) : In x (slice0 arr e) -> In x arr.
Proof. unfold slice0. apply firstn_incl. Qed.

(** ** Incremental enrichment *)

Module TaggerFacts.
Import LLMBasedTagger.

Section WithService.

Variable generateObject : Z -> RawRecipe -> option Tags.
Variables batchSize requestDelayMs : Z.

Local Abbreviation step := (tagStep generateObject batchSize requestDelayMs).
Local Abbreviation process := (processNew generateObject batchSize requestDelayMs).

Lemma apiCalls_app (xs ys : list Event) : apiCalls (xs ++ ys) = apiCalls xs ++ apiCalls ys.
Proof. unfold apiCalls. apply flat_map_app. Qed.

(** A call to the service always yields a record, thanks to the fallback. *)
Lemma tagRecipe_some (n : Z) (rawRecipe : RawRecipe) :
  exists tagged, tagRecipe generateObject n rawRecipe = Some tagged /\ raw tagged = rawRecipe.
Proof. unfold tagRecipe. destruct (generateObject n rawRecipe); eauto. Qed.

Lemma processNew_shape (st : TagRun) (rawRecipe : RawRecipe) :
  exists tagged,
    processedRecipes (process st rawRecipe) = processedRecipes st ++ [tagged]
    /\ raw tagged = rawRecipe
    /\ apiCallCount (process st rawRecipe) = (apiCallCount st + 1)%Z
    /\ apiCalls (events (process st rawRecipe)) = apiCalls (events st) ++ [rawRecipe].
Proof.
  unfold processNew.
  destruct (tagRecipe_some (apiCallCount st) rawRecipe) as (tagged & -> & Hraw).
  exists tagged. simpl. repeat split; try done.
  destruct (Z.rem _ _ =? 0)%Z; rewrite !apiCalls_app; simpl; by rewrite ?app_nil_r.
Qed.

(** One iteration: a hit appends the stored record and nothing else. *)
Lemma tagStep_cached (existingData : gmap jsstring ProcessedRecipe) st rawRecipe :
  cached existingData rawRecipe = true ->
  exists e, existingData !! dishName rawRecipe = Some e
    /\ step existingData st rawRecipe =
       {| processedRecipes := processedRecipes st ++ [e];
          apiCallCount := apiCallCount st;
          events := events st |}.
Proof.
  unfold cached, tagStep. intros Hc.
  destruct (existingData !! dishName rawRecipe) as [e |] eqn:He; [| done].
  exists e. by rewrite Hc.
Qed.

Lemma tagStep_new (existingData : gmap jsstring ProcessedRecipe) st rawRecipe :
  cached existingData rawRecipe = false ->
  step existingData st rawRecipe = process st rawRecipe.
Proof.
  unfold cached, tagStep. intros Hc.
  destruct (existingData !! dishName rawRecipe) as [e |] eqn:He; [| done].
  by rewrite Hc.
Qed.

(** The loop from any intermediate state: the output grows by one record per
    input, hits yield the stored record at their position, and the calls made
    are exactly the misses, in order. *)
Lemma loop_invariant (existingData : gmap jsstring ProcessedRecipe) rawRecipes st :
  exists out,
    processedRecipes (fold_left (step existingData) rawRecipes st)
      = processedRecipes st ++ out
    /\ length out = length rawRecipes
    /\ (forall (i : nat) r e,
          rawRecipes !! i = Some r ->
          existingData !! dishName r = Some e ->
          contentHash (raw e) = contentHash r ->
          out !! i = Some e)
    /\ apiCalls (events (fold_left (step existingData) rawRecipes st))
       = apiCalls (events st)
         ++ List.filter (fun r => negb (cached existingData r)) rawRecipes.
Proof.
  revert st. induction rawRecipes as [| r rs IH]; intros st.
  - exists []. simpl. rewrite !app_nil_r. repeat split; try done.
  - simpl fold_left.
    destruct (IH (step existingData st r)) as (out & Hout & Hlen & Hhit & Hcalls).
    destruct (cached existingData r) eqn:Hc.
    + destruct (tagStep_cached existingData st r Hc) as (e & He & Hstep).
      exists (e :: out). rewrite Hout, Hcalls, Hstep. simpl. rewrite Hc. simpl.
      rewrite <- app_assoc. simpl. repeat split; try done.
      * by rewrite Hlen.
      * intros [| i] r' e' Hr' He' Hh; simpl in *.
        -- injection Hr' as <-. congruence.
        -- eauto.
    + rewrite (tagStep_new existingData st r Hc) in *.
      destruct (processNew_shape st r) as (tagged & Hp & Hraw & Hcount & Hev).
      exists (tagged :: out). rewrite Hout, Hcalls, Hp, Hev. simpl. rewrite Hc. simpl.
      rewrite <- !app_assoc. simpl. repeat split; try done.
      * by rewrite Hlen.
      * intros [| i] r' e' Hr' He' Hh; simpl in *.
        -- injection Hr' as <-. exfalso.
           unfold cached, isUnchanged in Hc. rewrite He' in Hc.
           apply Bool.not_true_iff_false in Hc. apply Hc. by apply str_eqb_eq.
        -- eauto.
Qed.

(** A batch of hits only: the state gains the stored records and nothing
    else changes. *)
Lemma loop_all_cached (existingData : gmap jsstring ProcessedRecipe) rawRecipes st :
  (forall r, In r rawRecipes -> cached existingData r = true) ->
  apiCallCount (fold_left (step existingData) rawRecipes st) = apiCallCount st
  /\ events (fold_left (step existingData) rawRecipes st) = events st.
Proof.
  revert st. induction rawRecipes as [| r rs IH]; intros st Hall; [done |].
  simpl fold_left.
  destruct (tagStep_cached existingData st r) as (e & He & Hstep).
  { apply Hall. by left. }
  rewrite Hstep.
  destruct (IH {| processedRecipes := processedRecipes st ++ [e];
                  apiCallCount := apiCallCount st;
                  events := events st |}) as [Hc Hev].
  { intros r' Hr'. apply Hall. by right. }
  done.
Qed.

(** C1.  For every batch of raw records and every map of previously enriched
    records, [tagRecipesIncremental] returns one record per input; at the
    position of each raw record whose name has a stored record with the same
    content hash it returns exactly that stored record; the records sent to
    the tagging service are exactly the others, in order, so no call is made
    for a hit; and a batch of hits only makes no call and takes no pause. *)
Theorem tagRecipesIncremental_reuses_unchanged
  (rawRecipes : list RawRecipe) (existingData : gmap jsstring ProcessedRecipe) :
  let out := tagRecipesIncremental generateObject batchSize requestDelayMs
               rawRecipes existingData in
  length (processedRecipes out) = length rawRecipes
  /\ (forall (i : nat) r e,
        rawRecipes !! i = Some r ->
        existingData !! dishName r = Some e ->
        contentHash (raw e) = contentHash r ->
        processedRecipes out !! i = Some e)
  /\ apiCalls (events out) = List.filter (fun r => negb (cached existingData r)) rawRecipes
  /\ (forall r, In r (apiCalls (events out)) -> cached existingData r = false)
  /\ ((forall r, In r rawRecipes -> cached existingData r = true) ->
      events out = [] /\ apiCallCount out = 0%Z).
Proof.
  intros out. subst out. unfold tagRecipesIncremental.
  set (st0 := {| processedRecipes := []; apiCallCount := 0%Z; events := [] |}).
  destruct (loop_invariant existingData rawRecipes st0) as (o & Hout & Hlen & Hhit & Hcalls).
  simpl in Hout, Hcalls. rewrite Hout, Hcalls.
  split; [done |]. split; [done |]. split; [done |]. split.
  - intros r Hr. apply filter_In in Hr as [_ Hr]. by apply negb_true_iff in Hr.
  - intros Hall. destruct (loop_all_cached existingData rawRecipes st0 Hall) as [Hc Hev].
    by split.
Qed.

End WithService.

Lemma estimateDifficulty_range (recipe : RawRecipe) :
  (1 <= estimateDifficulty recipe <= 5)%Z.
Proof. unfold estimateDifficulty. lia. Qed.

Lemma fallbackTaste_nonempty (allText : jsstring) : fallbackTaste allText <> [].
Proof.
  unfold fallbackTaste. cbv zeta.
  match goal with |- pushIf (length ?t =? 0) _ ?t <> [] => destruct t end; simpl; congruence.
Qed.

Ltac split_disjunctions :=
  repeat match goal with
         | H : _ || _ = false |- _ => apply orb_false_elim in H as [? ?]
         end.

Ltac rewrite_misses :=
  repeat match goal with
         | H : includes _ _ = false |- _ => rewrite H; clear H
         end.

Lemma fallbackTaste_default (allText : jsstring) :
  some (fun keyword => includes allText keyword) tasteKeywords = false ->
  fallbackTaste allText = [lit "香"].
Proof.
  intros H. unfold some, tasteKeywords in H. cbn [existsb] in H.
  split_disjunctions. unfold fallbackTaste. cbv zeta. rewrite_misses. reflexivity.
Qed.

Lemma fallbackCookingStyle_nonempty (allText category : jsstring) :
  fallbackCookingStyle allText category <> [].
Proof.
  unfold fallbackCookingStyle. cbv zeta.
  match goal with |- (if length ?c =? 0 then _ else _) <> [] => destruct c end;
    simpl; congruence.
Qed.

Lemma fallbackCookingStyle_default (allText category : jsstring) :
  some (fun keyword => includes allText keyword) cookingKeywords = false ->
  fallbackCookingStyle allText category = [defaultCookingStyle category].
Proof.
  intros H. unfold some, cookingKeywords in H. cbn [existsb] in H.
  split_disjunctions. unfold fallbackCookingStyle. cbv zeta. rewrite_misses. reflexivity.
Qed.

Lemma fallbackSuitability_kid (allText : jsstring) :
  In (lit "kid_friendly") (fallbackSuitability allText)
  <-> hasDangerousIngredients allText = false /\ isSpicy allText = false.
Proof.
  rewrite <- arr_includes_In. unfold fallbackSuitability.
  destruct (hasDangerousIngredients allText), (isSpicy allText); vm_compute; intuition congruence.
Qed.

Lemma fallbackSuitability_pregnancy (allText : jsstring) :
  In (lit "pregnancy_safe") (fallbackSuitability allText)
  <-> hasDangerousIngredients allText = false.
Proof.
  rewrite <- arr_includes_In. unfold fallbackSuitability.
  destruct (hasDangerousIngredients allText), (isSpicy allText); vm_compute; intuition congruence.
Qed.

Section Fallback.

Variable generateObject : Z -> RawRecipe -> option Tags.

(** C5, as the code has it.  When the tagging call fails, [tagRecipe] still
    returns a record for the raw recipe: its taste set is not empty, and is
    the single default label when no taste keyword occurs; its cooking-style
    set is not empty, and is the default of the category when no cooking
    keyword occurs; its seasons are all four; it is flagged kid-friendly
    exactly when neither a risk keyword nor a spice keyword occurs, and
    pregnancy-safe exactly when no risk keyword occurs (a spice keyword does
    not withhold that flag); and its difficulty lies between 1 and 5. *)
Theorem fallback_record_well_formed (n : Z) (recipe : RawRecipe) :
  generateObject n recipe = None ->
  exists p,
    tagRecipe generateObject n recipe = Some p
    /\ raw p = recipe
    /\ taste (tags p) <> []
    /\ (some (fun keyword => includes (allTextOf recipe) keyword) tasteKeywords = false ->
        taste (tags p) = [lit "香"])
    /\ cookingStyle (tags p) <> []
    /\ (some (fun keyword => includes (allTextOf recipe) keyword) cookingKeywords = false ->
        cookingStyle (tags p) = [defaultCookingStyle (category recipe)])
    /\ season (tags p) = [lit "春"; lit "夏"; lit "秋"; lit "冬"]
    /\ (In (lit "kid_friendly") (suitability (tags p))
        <-> hasDangerousIngredients (allTextOf recipe) = false
            /\ isSpicy (allTextOf recipe) = false)
    /\ (In (lit "pregnancy_safe") (suitability (tags p))
        <-> hasDangerousIngredients (allTextOf recipe) = false)
    /\ exists d, difficulty p = Some d /\ (1 <= d <= 5)%Z.
Proof.
  intros Hfail. unfold tagRecipe. rewrite Hfail. eexists. split; [reflexivity |].
  cbn [raw tags difficulty generateFallbackTags taste cookingStyle season suitability].
  split; [reflexivity |].
  split; [apply fallbackTaste_nonempty |].
  split; [apply fallbackTaste_default |].
  split; [apply fallbackCookingStyle_nonempty |].
  split; [apply fallbackCookingStyle_default |].
  split; [reflexivity |].
  split; [apply fallbackSuitability_kid |].
  split; [apply fallbackSuitability_pregnancy |].
  eexists. split; [reflexivity | apply estimateDifficulty_range].
Qed.

End Fallback.

(** The default cooking style of each category. *)
Example defaultCookingStyle_by_category :
  defaultCookingStyle (lit "soup") = lit "煮"
  /\ defaultCookingStyle (lit "vegetable_dish") = lit "炒"
  /\ defaultCookingStyle (lit "meat_dish") = lit "烧"
  /\ defaultCookingStyle (lit "aquatic") = lit "炒".
Proof. vm_compute. repeat split. Qed.

(** C5 as stated fails: with the service down, a dish whose name holds a
    spice keyword is still flagged pregnancy-safe. *)
Lemma fallback_pregnancy_safe_despite_spice :
  exists p,
    tagRecipe Samples.taggingDown 0 Samples.spicyChicken = Some p
    /\ isSpicy (allTextOf Samples.spicyChicken) = true
    /\ In (lit "pregnancy_safe") (suitability (tags p)).
Proof.
  eexists. split; [reflexivity |]. split; [reflexivity |].
  apply arr_includes_In. reflexivity.
Qed.

Lemma fallback_record_well_formed_witness :
  exists p,
    tagRecipe Samples.taggingDown 0 Samples.spicyChicken = Some p
    /\ taste (tags p) = [lit "辣"]
    /\ cookingStyle (tags p) = [lit "烧"]
    /\ suitability (tags p) = [lit "pregnancy_safe"]
    /\ difficulty p = Some 1%Z.
Proof.
  destruct (fallback_record_well_formed Samples.taggingDown 0 Samples.spicyChicken eq_refl)
    as (p & Hp & _).
  exists p. split; [exact Hp |].
  injection Hp as <-. vm_compute. repeat split.
Defined.

End TaggerFacts.

(** ** Knowledge base queries *)

Module KnowledgeBaseFacts.
Import KnowledgeBase.

Lemma ensureLoaded_loaded (files : Files) (kb : KB) :
  isLoaded kb = true -> ensureLoaded files kb = (Return tt, kb).
Proof. intros H. unfold ensureLoaded, bind, this. by rewrite H. Qed.

Lemma filter_none {A} (f : A -> bool) (l : list A) :
  (forall x, In x l -> f x = false) -> List.filter f l = [].
Proof.
  induction l as [| x l IH]; intros H; [done |]. simpl.
  rewrite (H x) by (by left). apply IH. intros y Hy. apply H. by right.
Qed.

Lemma filter_some {A} (f : A -> bool) (l : list A) :
  (exists x, In x l /\ f x = true) -> List.filter f l <> [].
Proof.
  intros (x & Hin & Hf) Hnil.
  assert (In x (List.filter f l)) as Hx by (apply filter_In; by split).
  rewrite Hnil in Hx. destruct Hx.
Qed.

(** The taste stage keeps the shared index when nothing matches. *)
Lemma tasteStage_no_match (preferences : UserPreferences) (kb : KB) :
  (forall recipe, In recipe (recipesIndex kb) -> matchesTaste preferences recipe = false) ->
  tasteStage preferences kb = SharedIndex.
Proof.
  intros H. unfold tasteStage. rewrite (filter_none _ _ H).
  by destruct (hasLength _).
Qed.

Lemma matchesTaste_hasLength (preferences : UserPreferences) (recipe : RecipeIndex) :
  matchesTaste preferences recipe = true -> hasLength (tastePreferences preferences) = true.
Proof.
  unfold matchesTaste, hasLength, arrayOf, some.
  destruct (get (tastePreferences preferences)) as [[| t ts] |]; simpl; congruence.
Qed.

Lemma tasteStage_match (preferences : UserPreferences) (kb : KB) :
  (exists recipe, In recipe (recipesIndex kb) /\ matchesTaste preferences recipe = true) ->
  tasteStage preferences kb
  = Fresh (List.filter (matchesTaste preferences) (recipesIndex kb)).
Proof.
  intros Hex. unfold tasteStage.
  destruct Hex as (recipe & Hin & Hm).
  rewrite (matchesTaste_hasLength _ _ Hm).
  assert (List.filter (matchesTaste preferences) (recipesIndex kb) <> []) as Hne.
  { apply filter_some. eauto. }
  by destruct (List.filter _ _).
Qed.

Lemma tasteStage_withoutTaste (preferences : UserPreferences) (kb : KB) :
  tasteStage (withoutTaste preferences) kb = SharedIndex.
Proof. reflexivity. Qed.

Lemma searchFrom_withoutTaste (preferences : UserPreferences) (c : Candidates) :
  searchFrom (withoutTaste preferences) c = searchFrom preferences c.
Proof. reflexivity. Qed.

(** C4.  On a loaded knowledge base: when the taste preferences match no
    recipe of the index, [searchRecipes] returns what it returns for the same
    preferences without the taste key (the same result, and the same state
    afterwards); when they match at least one recipe, the working set becomes
    exactly the matching part of the index and the later stages run on it. *)
Theorem taste_filter_is_soft (files : Files) (preferences : UserPreferences) (kb : KB) :
  isLoaded kb = true ->
  ((forall recipe, In recipe (recipesIndex kb) -> matchesTaste preferences recipe = false) ->
   searchRecipes files preferences kb = searchRecipes files (withoutTaste preferences) kb)
  /\ ((exists recipe, In recipe (recipesIndex kb) /\ matchesTaste preferences recipe = true) ->
      tasteStage preferences kb
      = Fresh (List.filter (matchesTaste preferences) (recipesIndex kb))
      /\ searchRecipes files preferences kb
         = searchFrom preferences
             (Fresh (List.filter (matchesTaste preferences) (recipesIndex kb))) kb).
Proof.
  intros Hloaded. split.
  - intros Hnone. unfold searchRecipes, bind.
    rewrite (ensureLoaded_loaded files kb Hloaded). unfold this.
    rewrite (tasteStage_no_match _ _ Hnone), tasteStage_withoutTaste.
    by rewrite searchFrom_withoutTaste.
  - intros Hsome. split; [by apply tasteStage_match |].
    unfold searchRecipes, bind.
    rewrite (ensureLoaded_loaded files kb Hloaded). unfold this.
    by rewrite (tasteStage_match _ _ Hsome).
Qed.

Lemma taste_filter_is_soft_witness :
  searchRecipes Samples.onDisk (Samples.only (Value [lit "甜"]) Omitted Omitted)
                Samples.twoDishes
  = searchRecipes Samples.onDisk
                  (withoutTaste (Samples.only (Value [lit "甜"]) Omitted Omitted))
                  Samples.twoDishes.
Proof.
  apply (taste_filter_is_soft Samples.onDisk
           (Samples.only (Value [lit "甜"]) Omitted Omitted) Samples.twoDishes eq_refl).
  intros recipe [<- | [<- | []]]; reflexivity.
Defined.

(** A taste that matches one of the two dishes narrows the result to it. *)
Example taste_filter_narrows :
  fst (searchRecipes Samples.onDisk (Samples.only (Value [lit "鲜"]) Omitted Omitted)
                     Samples.twoDishes)
  = Return [Some Samples.steamedEgg].
Proof. vm_compute. reflexivity. Qed.

Lemma insert_sorted_perm {A} (cmp : A -> A -> Z) (x : A) (arr : list A) :
  Permutation (insert_sorted cmp x arr) (x :: arr).
Proof.
  induction arr as [| y arr IH]; simpl; [done |].
  destruct (0 <? cmp x y)%Z; [| done].
  rewrite IH. apply perm_swap.
Qed.

Lemma Array_sort_perm {A} (cmp : A -> A -> Z) (arr : list A) :
  Permutation (Array_sort cmp arr) arr.
Proof.
  induction arr as [| x arr IH]; simpl; [done |].
  rewrite insert_sorted_perm. by constructor.
Qed.

(** What a search does leave alone: the data table and the loaded flag; the
    index keeps its elements, and keeps their order too unless the sort stage
    runs on the shared array. *)
Lemma searchRecipes_frame (files : Files) (preferences : UserPreferences) (kb : KB) :
  isLoaded kb = true ->
  let kb' := snd (searchRecipes files preferences kb) in
  recipesData kb' = recipesData kb
  /\ isLoaded kb' = true
  /\ Permutation (recipesIndex kb') (recipesIndex kb)
  /\ (hasLength (specialGroup preferences) = false \/ tasteStage preferences kb <> SharedIndex ->
      recipesIndex kb' = recipesIndex kb).
Proof.
  intros Hloaded. unfold searchRecipes, bind.
  rewrite (ensureLoaded_loaded files kb Hloaded). unfold this, searchFrom, bind.
  unfold sortStage, exclusionStage.
  destruct (hasLength (specialGroup preferences)) eqn:Hgroup;
    destruct (tasteStage preferences kb) as [| arr] eqn:Htaste;
    destruct (hasLength (ingredientExclusions preferences));
    unfold bind, assign, ret, this, pure; cbn [fst snd];
    repeat match goal with
           | |- context [filter_throwing ?f ?l] => destruct (filter_throwing f l)
           end;
    cbn [fst snd setIndex recipesData recipesIndex isLoaded];
    repeat split; try done; try apply Array_sort_perm;
    intros [? | ?]; congruence.
Qed.

(** C9 fails on the code: a search with a special group and no effective
    taste filter sorts the array stored in [recipesIndex] itself.  On the
    two-dish knowledge base a search for a child-friendly menu leaves the
    index reordered, and every later query sees the new order. *)
Theorem search_reorders_shared_index :
  let kid := Samples.only Omitted (Value [lit "kid"]) Omitted in
  let after := snd (searchRecipes Samples.onDisk kid Samples.twoDishes) in
  recipesIndex Samples.twoDishes
  = [Samples.indexEntry Samples.braisedPork; Samples.indexEntry Samples.steamedEgg]
  /\ recipesIndex after
     = [Samples.indexEntry Samples.steamedEgg; Samples.indexEntry Samples.braisedPork]
  /\ recipesIndex after <> recipesIndex Samples.twoDishes
  /\ fst (getRecipesByDifficulty Samples.onDisk 5 Samples.twoDishes)
     = Return [Some Samples.braisedPork; Some Samples.steamedEgg]
  /\ fst (getRecipesByDifficulty Samples.onDisk 5 after)
     = Return [Some Samples.steamedEgg; Some Samples.braisedPork].
Proof.
  cbv zeta. split; [reflexivity |]. split; [vm_compute; reflexivity |].
  split; [vm_compute; discriminate |]. split; vm_compute; reflexivity.
Qed.

(** C10 fails on the code: when the index names a dish the data table lacks,
    only [getRecipesByCategory] drops it.  [searchRecipes] with an ingredient
    exclusion throws, [searchRecipes] without one and [getRecipesByDifficulty]
    return an array holding [undefined], and [getRecommendedCandidates]
    throws on that array. *)
Theorem dangling_index_entry_not_recovered :
  fst (searchRecipes Samples.onDisk (Samples.only Omitted Omitted (Value [lit "花生"]))
                     Samples.dangling)
  = Throw TypeError
  /\ fst (searchRecipes Samples.onDisk (Samples.only Omitted Omitted Omitted) Samples.dangling)
     = Return [None]
  /\ fst (getRecipesByDifficulty Samples.onDisk 5 Samples.dangling) = Return [None]
  /\ fst (getRecommendedCandidates Samples.onDisk (Samples.only Omitted Omitted Omitted)
                                   Samples.dangling)
     = Throw TypeError
  /\ fst (getRecipesByCategory Samples.onDisk (lit "meat_dish") Samples.dangling) = Return [].
Proof. repeat split; vm_compute; reflexivity. Qed.

End KnowledgeBaseFacts.

(** ** Menu composition *)

Module MenuFacts.
Import MenuRecommender.

Lemma floor_half (t : Z) : Qfloor (inject_Z t / 2)%Q = (t / 2)%Z.
Proof. symmetry. apply (Zdiv_Qdiv t 2). Qed.

Lemma ceiling_half (t : Z) : Qceiling (inject_Z t / 2)%Q = (t - t / 2)%Z.
Proof.
  unfold Qceiling.
  assert (- (inject_Z t / 2) == inject_Z (- t) / 2)%Q as Heq.
  { rewrite inject_Z_opp. field. }
  rewrite (Qfloor_comp _ _ Heq), floor_half.
  Z.div_mod_to_equations. lia.
Qed.

Lemma composition_counts (p : Z) :
  vegetableDishes (calculateMenuComposition p) = ((p + 1) / 2)%Z
  /\ mainDishes (calculateMenuComposition p) = ((p + 1) - (p + 1) / 2)%Z
  /\ soups (calculateMenuComposition p) = (if (4 <? p)%Z then 1 else 0)%Z
  /\ totalDishes (calculateMenuComposition p)
     = (mainDishes (calculateMenuComposition p) + vegetableDishes (calculateMenuComposition p)
        + soups (calculateMenuComposition p))%Z.
Proof.
  unfold calculateMenuComposition. cbn [vegetableDishes mainDishes soups totalDishes].
  rewrite floor_half, ceiling_half. done.
Qed.

(** C3.  With the people count read as [peopleCount || 2] (2 when the key is
    absent): the vegetable count is the floor and the main count the ceiling
    of (peopleCount + 1) / 2, so together they are peopleCount + 1 and the
    main count is never the smaller; there is one soup above four diners and
    none otherwise; three diners get 2 main, 2 vegetable, 0 soup and six get
    4 main, 3 vegetable, 1 soup. *)
Theorem composition_sizing (preferences : UserPreferences) :
  let p := peopleCountOr2 preferences in
  let total := (p + 1)%Z in
  let c := calculateMenuComposition p in
  (2 * vegetableDishes c <= total < 2 * vegetableDishes c + 2)%Z
  /\ (2 * mainDishes c - 2 < total <= 2 * mainDishes c)%Z
  /\ (mainDishes c + vegetableDishes c = total)%Z
  /\ soups c = (if (4 <? p)%Z then 1 else 0)%Z
  /\ (vegetableDishes c <= mainDishes c)%Z
  /\ (get (peopleCount preferences) = None -> p = 2%Z)
  /\ calculateMenuComposition 3
     = {| mainDishes := 2; vegetableDishes := 2; soups := 0; totalDishes := 4 |}
  /\ calculateMenuComposition 6
     = {| mainDishes := 4; vegetableDishes := 3; soups := 1; totalDishes := 8 |}.
Proof.
  intros p total c. subst c total.
  destruct (composition_counts p) as (Hv & Hm & Hs & _).
  rewrite Hv, Hm, Hs.
  repeat split; try (Z.div_mod_to_equations; lia).
  intros Hnone. subst p. unfold peopleCountOr2. by rewrite Hnone.
Qed.

Lemma composition_nonneg (p : Z) :
  (0 < p)%Z ->
  (0 <= mainDishes (calculateMenuComposition p))%Z
  /\ (0 <= vegetableDishes (calculateMenuComposition p))%Z
  /\ (0 <= soups (calculateMenuComposition p))%Z.
Proof.
  intros Hp. destruct (composition_counts p) as (Hv & Hm & Hs & _).
  rewrite Hv, Hm, Hs. repeat split.
  - Z.div_mod_to_equations. lia.
  - Z.div_mod_to_equations. lia.
  - destruct (4 <? p)%Z; lia.
Qed.

Lemma fallback_names_available (candidateDishes : KnowledgeBase.CandidateDishes)
  (p : Z) (item : MenuRecommendation) :
  In item (generateFallbackMenu candidateDishes p) ->
  In (item_dishName item) (availableDishNames candidateDishes).
Proof.
  unfold generateFallbackMenu, availableDishNames. cbv zeta. intros Hin.
  assert (forall (f : ProcessedRecipe -> MenuRecommendation) bucket e it,
            (forall dish, item_dishName (f dish) = dishName (raw dish)) ->
            In it (map f (slice0 bucket e)) ->
            In (item_dishName it) (map (fun dish => dishName (raw dish)) bucket)) as Hbucket.
  { intros f bucket e it Hf Hi. apply in_map_iff in Hi as (dish & <- & Hd).
    rewrite Hf. apply (in_map (fun d => dishName (raw d))). by apply slice0_incl in Hd. }
  rewrite !map_app, !in_app_iff.
  destruct (0 <? soups _)%Z; simpl in Hin; rewrite ?in_app_iff in Hin.
  - destruct Hin as [[Hi | Hi] | Hi];
      [left | right; left | right; right]; by apply Hbucket in Hi.
  - destruct Hin as [Hi | Hi]; [left | right; left]; by apply Hbucket in Hi.
Qed.

Lemma fallback_shape (candidateDishes : KnowledgeBase.CandidateDishes) (p : Z) :
  (0 < p)%Z ->
  let c := calculateMenuComposition p in
  generateFallbackMenu candidateDishes p
  = map mainItem (firstn (Z.to_nat (mainDishes c)) (KnowledgeBase.mainDishes candidateDishes))
    ++ map vegetableItem
         (firstn (Z.to_nat (vegetableDishes c)) (KnowledgeBase.vegetableDishes candidateDishes))
    ++ map soupItem (firstn (Z.to_nat (soups c)) (KnowledgeBase.soups candidateDishes)).
Proof.
  intros Hp c. destruct (composition_nonneg p Hp) as (Hm & Hv & Hs). fold c in Hm, Hv, Hs.
  unfold generateFallbackMenu. cbv zeta. fold c.
  rewrite !slice0_firstn by done. cbn [app].
  destruct (Z.ltb_spec 0 (soups c)) as [Hpos | Hzero].
  - by rewrite <- app_assoc.
  - assert (soups c = 0%Z) as Hs0 by lia. rewrite Hs0.
    change (Z.to_nat 0) with 0. cbn [firstn map]. by rewrite app_nil_r.
Qed.

Section Validation.

Variable generateObject :
  UserPreferences -> KnowledgeBase.CandidateDishes -> MenuComposition ->
  option (list MenuRecommendation).

(** C2.  Of the menu the recommender service returns, every item whose name
    is in none of the three candidate buckets is dropped with a warning and
    is not in the result; when fewer valid items remain than
    (mainCount + vegetableCount + soupCount) - 1, or the call fails, the
    result is the fallback menu, and otherwise it is the valid items; every
    name of the fallback menu is a name of a candidate; and for a positive
    people count the fallback menu is the first mainCount main candidates,
    the first vegetableCount vegetable candidates and the first soupCount
    soup candidates, in bucket order, each with its fixed justification. *)
Theorem recommendMenu_validates (preferences : UserPreferences)
  (candidateDishes : KnowledgeBase.CandidateDishes) :
  let c := calculateMenuComposition (peopleCountOr2 preferences) in
  let required := (mainDishes c + vegetableDishes c + soups c)%Z in
  let fallback := generateFallbackMenu candidateDishes (peopleCountOr2 preferences) in
  let known := fun item : MenuRecommendation =>
                 arr_includes (availableDishNames candidateDishes) (item_dishName item) in
  let result := recommendMenu generateObject preferences candidateDishes in
  (generateObject preferences candidateDishes c = None -> fst result = fallback)
  /\ (forall returned,
        generateObject preferences candidateDishes c = Some returned ->
        (forall item,
            In item returned ->
            ~ In (item_dishName item) (availableDishNames candidateDishes) ->
            ~ In item (fst result) /\ In (InvalidDishName (item_dishName item)) (snd result))
        /\ ((Z.of_nat (length (List.filter known returned)) < required - 1)%Z ->
            fst result = fallback)
        /\ ((required - 1 <= Z.of_nat (length (List.filter known returned)))%Z ->
            fst result = List.filter known returned))
  /\ (forall item,
        In item fallback -> In (item_dishName item) (availableDishNames candidateDishes))
  /\ ((0 < peopleCountOr2 preferences)%Z ->
      fallback
      = map mainItem
          (firstn (Z.to_nat (mainDishes c)) (KnowledgeBase.mainDishes candidateDishes))
        ++ map vegetableItem
             (firstn (Z.to_nat (vegetableDishes c))
                     (KnowledgeBase.vegetableDishes candidateDishes))
        ++ map soupItem (firstn (Z.to_nat (soups c)) (KnowledgeBase.soups candidateDishes))).
Proof.
  intros c required fallback known result.
  assert (totalDishes c = required) as Htotal by reflexivity.
  split; [| split; [| split]].
  - intros Hfail. subst result. unfold recommendMenu. fold c. by rewrite Hfail.
  - intros returned Hret. subst result. unfold recommendMenu. fold c. rewrite Hret.
    fold known. fold fallback. rewrite Htotal.
    destruct (Z.ltb_spec (Z.of_nat (length (List.filter known returned))) (required - 1))
      as [Hfew | Henough]; cbn [fst snd].
    + split; [| split; [done | lia]].
      intros item Hin Habsent. split.
      * intros Hfb. apply Habsent. by apply (fallback_names_available _ _ _ Hfb).
      * apply in_app_iff. left. apply in_map_iff. exists item. split; [done |].
        apply filter_In. split; [done |]. apply negb_true_iff.
        apply not_true_is_false. intros Hk. by apply arr_includes_In in Hk.
    + split; [| split; [lia | done]].
      intros item Hin Habsent. split.
      * intros Hv. apply filter_In in Hv as [_ Hk]. by apply arr_includes_In in Hk.
      * apply in_map_iff. exists item. split; [done |].
        apply filter_In. split; [done |]. apply negb_true_iff.
        apply not_true_is_false. intros Hk. by apply arr_includes_In in Hk.
  - intros item. apply fallback_names_available.
  - intros Hp. by apply fallback_shape.
Qed.

End Validation.

(** A menu with one invented dish.  For two diners (three dishes asked for)
    the invented dish is dropped with a warning and the two known ones stay;
    for four diners (five asked for) two valid dishes are too few and the
    fallback menu is returned. *)
Example invented_dish_is_dropped :
  let candidates :=
    {| KnowledgeBase.mainDishes := [Samples.braisedPork];
       KnowledgeBase.vegetableDishes := [Samples.steamedEgg];
       KnowledgeBase.soups := [] |} in
  let answer := [ {| item_dishName := lit "红烧肉"; recommendationReason := lit "下饭" |};
                  {| item_dishName := lit "龙肝凤髓"; recommendationReason := lit "稀罕" |};
                  {| item_dishName := lit "蒸水蛋"; recommendationReason := lit "滑嫩" |} ] in
  recommendMenu (fun _ _ _ => Some answer) (Samples.only Omitted Omitted Omitted) candidates
  = ([ {| item_dishName := lit "红烧肉"; recommendationReason := lit "下饭" |};
       {| item_dishName := lit "蒸水蛋"; recommendationReason := lit "滑嫩" |} ],
     [InvalidDishName (lit "龙肝凤髓")])
  /\ recommendMenu (fun _ _ _ => Some answer) Sessions.fourSpicy candidates
     = ([mainItem Samples.braisedPork; vegetableItem Samples.steamedEgg],
        [InvalidDishName (lit "龙肝凤髓"); TooManyInvalid 2 5]).
Proof. split; reflexivity. Qed.

End MenuFacts.

(** ** The dialogue *)

Module EngineFacts.
Import ConversationEngine.

Lemma sameSession_refl (e : Engine) : sameSession e e.
Proof. by repeat split. Qed.

Lemma sameSession_trans (e1 e2 e3 : Engine) :
  sameSession e1 e2 -> sameSession e2 e3 -> sameSession e1 e3.
Proof.
  intros (H1 & H2 & H3 & H4 & H5) (G1 & G2 & G3 & G4 & G5).
  repeat split; congruence.
Qed.

Lemma onKnowledgeBase_frame {A} (c : M KnowledgeBase.KB A) (e e' : Engine) (o : Outcome A) :
  onKnowledgeBase c e = (o, e') -> sameSession e e'.
Proof.
  unfold onKnowledgeBase. destruct (c (knowledgeBase e)) as [o' kb'].
  intros [= _ <-]. by repeat split.
Qed.

(** ** Merging preferences *)

Lemma spread_omitted (old new : UserPreferences) :
  (peopleCount new = Omitted -> peopleCount (spread old new) = peopleCount old)
  /\ (tastePreferences new = Omitted ->
      tastePreferences (spread old new) = tastePreferences old)
  /\ (ingredientExclusions new = Omitted ->
      ingredientExclusions (spread old new) = ingredientExclusions old)
  /\ (specialGroup new = Omitted -> specialGroup (spread old new) = specialGroup old)
  /\ (maxCookingTimeMinutes new = Omitted ->
      maxCookingTimeMinutes (spread old new) = maxCookingTimeMinutes old).
Proof. unfold spread. simpl. repeat split; intros ->; reflexivity. Qed.

Lemma spreadKey_present {A} (old new : Slot A) : new <> Omitted -> spreadKey old new = new.
Proof. by destruct new. Qed.

Lemma spread_no_keys (old : UserPreferences) : spread old noPreferences = old.
Proof. by destruct old. Qed.

(** The object of the [catch] of [extractIntent] replaces every key. *)
Lemma spread_emptyPreferences (old : UserPreferences) :
  spread old IntentExtractor.emptyPreferences = IntentExtractor.emptyPreferences.
Proof. reflexivity. Qed.

Section Turns.

Variable world : Collaborators.

(** After a failed extraction the preference handler holds no preference
    any more, whatever it held before. *)
Lemma failed_extraction_forgets (userInput : jsstring) (e : Engine) :
  intentModel world userInput (messages e) = None ->
  userPreferences (snd (handlePreferenceInput world userInput e))
  = IntentExtractor.emptyPreferences
  /\ fst (handlePreferenceInput world userInput e)
     = Return {| message :=
                   NeedMoreInfo
                     (IntentExtractor.missingInfo
                        (IntentExtractor.validatePreferences IntentExtractor.emptyPreferences))
                     (IntentExtractor.suggestions
                        (IntentExtractor.validatePreferences IntentExtractor.emptyPreferences));
                 newState := AWAITING_PREFERENCES |}.
Proof.
  intros Hfail. unfold handlePreferenceInput, bind, this, updateUserPreferences, assign.
  unfold IntentExtractor.extractIntent. rewrite Hfail.
  cbn [userPreferences withPreferences]. rewrite spread_emptyPreferences.
  split; reflexivity.
Qed.

End Turns.

(** C6 fails on the code: when the intent model fails, [extractIntent]
    returns an object that holds all five keys with the value [undefined], and
    the spread of [updateUserPreferences] copies them over the accumulated
    preferences.  A session that knew of four diners who like it hot knows
    nothing after the turn and asks for both again. *)
Theorem failed_extraction_erases_preferences :
  let turn := processUserInput Sessions.servicesDown (lit "还有别的吗") Sessions.collecting in
  get (peopleCount (userPreferences Sessions.collecting)) = Some 4%Z
  /\ get (tastePreferences (userPreferences Sessions.collecting)) = Some [lit "辣"]
  /\ userPreferences (snd turn) = IntentExtractor.emptyPreferences
  /\ get (peopleCount (userPreferences (snd turn))) = None
  /\ get (tastePreferences (userPreferences (snd turn))) = None
  /\ fst turn
     = Return {| message := NeedMoreInfo
                              [lit "用餐人数"; lit "口味偏好或特殊需求"]
                              [lit "请告诉我有几个人用餐？";
                               lit "您有什么口味偏好吗？比如想吃辣的、清淡的？"];
                 newState := AWAITING_PREFERENCES |}.
Proof. cbv zeta. repeat split; vm_compute; reflexivity. Qed.

(** A key that is present but empty overrides as well. *)
Example empty_value_overrides :
  tastePreferences
    (spread Sessions.fourSpicy
       {| peopleCount := Omitted; tastePreferences := Value [];
          ingredientExclusions := Omitted; specialGroup := Omitted;
          maxCookingTimeMinutes := Omitted |})
  = Value [].
Proof. reflexivity. Qed.

(** ** Turns that throw *)

Section Throwing.

Variable world : Collaborators.

Lemma resolveDishes_frame (names : list jsstring) (acc : list ProcessedRecipe)
  (e e' : Engine) (o : Outcome (list ProcessedRecipe)) :
  resolveDishes world names acc e = (o, e') -> sameSession e e'.
Proof.
  revert acc e. induction names as [| name names IH]; intros acc e; simpl.
  - unfold ret. intros [= _ <-]. apply sameSession_refl.
  - unfold bind.
    destruct (onKnowledgeBase (KnowledgeBase.getDishByName (files world) name) e)
      as [[recipe | er] e1] eqn:Hk; apply onKnowledgeBase_frame in Hk.
    + destruct recipe; intros H; apply IH in H; by apply (sameSession_trans e e1 e').
    + by intros [= _ <-].
Qed.

(** [confirmMenu] assigns only after every name was looked up. *)
Lemma confirmMenu_throw (names : list jsstring) (e e' : Engine) (err : Err) :
  confirmMenu world names e = (Throw err, e') -> sameSession e e'.
Proof.
  unfold confirmMenu, bind.
  destruct (resolveDishes world names [] e) as [[rs | er] e1] eqn:Hr.
  - cbn. intros [=].
  - intros [= _ <-]. by apply resolveDishes_frame in Hr.
Qed.

Lemma handleShoppingListGeneration_returns (e : Engine) :
  exists r e', handleShoppingListGeneration world e = (Return r, e').
Proof. eexists _, _. reflexivity. Qed.

Lemma handleWorkflowPlanning_returns (e : Engine) :
  exists r e', handleWorkflowPlanning world e = (Return r, e').
Proof.
  cbv [handleWorkflowPlanning bind this setState assign ret]. eexists _, _. reflexivity.
Qed.

Lemma handleQuestionInput_returns (userInput : jsstring) (e : Engine) :
  exists r e', handleQuestionInput userInput e = (Return r, e').
Proof.
  unfold handleQuestionInput. destruct (isResetRequest userInput).
  - cbv [reset addMessage bind this setState assign ret]. eexists _, _. reflexivity.
  - unfold bind, this, ret. destruct (List.find _ _); eexists _, _; reflexivity.
Qed.

(** The preference handler merges first and queries second: when the query
    throws, the merge stays. *)
Lemma handlePreferenceInput_throw (userInput : jsstring) (e e' : Engine) (err : Err) :
  handlePreferenceInput world userInput e = (Throw err, e') ->
  state e' = state e
  /\ messages e' = messages e
  /\ recommendedMenu e' = recommendedMenu e
  /\ confirmedMenu e' = confirmedMenu e
  /\ userPreferences e'
     = spread (userPreferences e)
              (IntentExtractor.extractIntent (intentModel world) userInput (messages e)).
Proof.
  unfold handlePreferenceInput, bind, this, updateUserPreferences, assign.
  match goal with |- context [withPreferences ?p e] => set (e1 := withPreferences p e) end.
  destruct (negb _); [intros [=] |].
  destruct (onKnowledgeBase _ e1) as [[candidates | er] e2] eqn:Hk.
  - cbn. intros [=].
  - intros [= _ <-]. apply onKnowledgeBase_frame in Hk as (H1 & H2 & H3 & H4 & H5).
    rewrite H1, H2, H3, H4, H5. by repeat split.
Qed.

Lemma replaceDish_frame (oldDishName : jsstring) (e e' : Engine)
  (o : Outcome (list ProcessedRecipe)) :
  replaceDish world oldDishName e = (o, e') -> sameSession e e'.
Proof.
  unfold replaceDish, getMenuSuggestions, bind, this.
  destruct (onKnowledgeBase _ e) as [[suggestions | er] e1] eqn:Hk;
    apply onKnowledgeBase_frame in Hk; by intros [= _ <-].
Qed.

Lemma handleMenuResponse_throw (userInput : jsstring) (e e' : Engine) (err : Err) :
  handleMenuResponse world userInput e = (Throw err, e') ->
  state e' = state e
  /\ messages e' = messages e
  /\ recommendedMenu e' = recommendedMenu e
  /\ confirmedMenu e' = confirmedMenu e
  /\ (userPreferences e' = userPreferences e
      \/ userPreferences e'
         = spread (userPreferences e)
                  (IntentExtractor.extractIntent (intentModel world) userInput (messages e))).
Proof.
  unfold handleMenuResponse, bind, this.
  destruct (IntentExtractor.action _).
  - intros H. apply handlePreferenceInput_throw in H as (H1 & H2 & H3 & H4 & H5).
    repeat split; try done. by right.
  - destruct (confirmMenu world _ e) as [[rs | er] e1] eqn:Hc.
    + destruct (handleShoppingListGeneration_returns e1) as (r & e2 & ->). intros [=].
    + intros [= _ <-]. apply confirmMenu_throw in Hc as (H1 & H2 & H3 & H4 & H5).
      repeat split; try done. by left.
  - destruct (replaceMatch userInput) as [captured |]; [| intros [=]].
    destruct (replaceDish world _ e) as [[alternatives | er] e1] eqn:Hr.
    + destruct (0 <? length alternatives); intros [=].
    + intros [= _ <-]. apply replaceDish_frame in Hr as (H1 & H2 & H3 & H4 & H5).
      repeat split; try done. by left.
  - intros [=].
  - intros [=].
Qed.

Lemma dispatch_throw (userInput : jsstring) (e e' : Engine) (err : Err) :
  dispatch world userInput e = (Throw err, e') ->
  state e' = state e
  /\ messages e' = messages e
  /\ recommendedMenu e' = recommendedMenu e
  /\ confirmedMenu e' = confirmedMenu e
  /\ (userPreferences e' = userPreferences e
      \/ userPreferences e'
         = spread (userPreferences e)
                  (IntentExtractor.extractIntent (intentModel world) userInput (messages e))).
Proof.
  unfold dispatch, bind, this. set (st := state e) at 1. clearbody st. destruct st.
  - intros H. apply handlePreferenceInput_throw in H as (H1 & H2 & H3 & H4 & H5).
    repeat split; try done. by right.
  - apply handleMenuResponse_throw.
  - destruct (handleShoppingListGeneration_returns e) as (r & e2 & ->). intros [=].
  - destruct (handleWorkflowPlanning_returns e) as (r & e2 & ->). intros [=].
  - destruct (handleQuestionInput_returns userInput e) as (r & e2 & ->). intros [=].
Qed.

(** C7, as the code has it.  When the handler of a turn throws,
    [processUserInput] catches the error and replies with the error message
    and the dialogue state the session had before the turn; the dialogue
    state, the proposed menu and the confirmed records are those of before
    the turn; the user's message stays appended to the history; and the
    accumulated preferences are either those of before the turn or, when the
    preference handler had merged already, those merged with the fields
    extracted from the input.  Nothing is rolled back. *)
Theorem error_turn_outcome (userInput : jsstring) (e mid : Engine) (err : Err) :
  dispatch world userInput (snd (addMessage user userInput e)) = (Throw err, mid) ->
  let heard := messages e ++ [{| role := user; content := userInput |}] in
  processUserInput world userInput e
  = (Return {| message := ErrorReply err; newState := state e |}, mid)
  /\ state mid = state e
  /\ recommendedMenu mid = recommendedMenu e
  /\ confirmedMenu mid = confirmedMenu e
  /\ messages mid = heard
  /\ (userPreferences mid = userPreferences e
      \/ userPreferences mid
         = spread (userPreferences e)
                  (IntentExtractor.extractIntent (intentModel world) userInput heard)).
Proof.
  intros Hthrow heard.
  cbv [addMessage assign] in Hthrow. cbn [snd] in Hthrow.
  pose proof (dispatch_throw _ _ _ _ Hthrow) as (H1 & H2 & H3 & H4 & H5).
  cbn [withMessages state messages userPreferences recommendedMenu confirmedMenu]
    in H1, H2, H3, H4, H5.
  split.
  - unfold processUserInput, bind, try_catch. cbv [addMessage assign].
    rewrite Hthrow. unfold this, ret. by rewrite H1.
  - by repeat split.
Qed.

(** A reset phrase is only looked for by the question handler: while a menu
    is proposed it is an utterance the follow-up rules do not recognise. *)
Lemma reset_not_recognised_while_recommending (phrase : jsstring) (e : Engine) :
  phrase = lit "重新开始" \/ phrase = lit "重新规划" ->
  state e = RECOMMENDING_MENU ->
  processUserInput world phrase e
  = (Return {| message := NotUnderstood; newState := RECOMMENDING_MENU |},
     withMessages (messages e ++ [{| role := user; content := phrase |}]) e).
Proof.
  intros Hphrase Hstate. unfold processUserInput, try_catch, dispatch. unfold bind, this.
  cbv [addMessage assign]. cbn [withMessages state]. rewrite Hstate.
  unfold handleMenuResponse, bind, this.
  assert (forall prefs,
            IntentExtractor.action
              (IntentExtractor.interpretFollowUpRequest (intentModel world) phrase prefs)
            = IntentExtractor.unknown) as ->
      by (intros prefs; destruct Hphrase as [-> | ->]; vm_compute; reflexivity).
  reflexivity.
Qed.

(** In the question state every utterance holding a reset phrase clears the
    session. *)
Lemma reset_from_ready (userInput : jsstring) (e : Engine) :
  state e = READY_FOR_QUESTIONS ->
  isResetRequest userInput = true ->
  processUserInput world userInput e
  = (Return {| message := Welcome; newState := AWAITING_PREFERENCES |},
     {| state := AWAITING_PREFERENCES;
        messages := [{| role := assistant; content := getWelcomeMessage |}];
        userPreferences := noPreferences;
        recommendedMenu := [];
        confirmedMenu := [];
        knowledgeBase := knowledgeBase e |}).
Proof.
  intros Hstate Hreset. unfold processUserInput, try_catch, dispatch. unfold bind, this.
  cbv [addMessage assign]. cbn [withMessages state]. rewrite Hstate.
  unfold handleQuestionInput. rewrite Hreset. reflexivity.
Qed.

End Throwing.

(** C7 as stated fails: the preference handler merges the extracted fields
    before it queries the knowledge base.  When the artifacts cannot be read
    the query throws, the turn ends in the error reply, and the session holds
    preferences it did not hold before the turn. *)
Lemma error_turn_keeps_merged_preferences :
  let turn := processUserInput Sessions.artifactsMissing (lit "三个人，想吃咸的")
                               Sessions.unloaded in
  fst (dispatch Sessions.artifactsMissing (lit "三个人，想吃咸的")
         (snd (addMessage user (lit "三个人，想吃咸的") Sessions.unloaded)))
  = Throw LoadError
  /\ fst turn = Return {| message := ErrorReply LoadError; newState := AWAITING_PREFERENCES |}
  /\ userPreferences Sessions.unloaded = noPreferences
  /\ userPreferences (snd turn) = Sessions.threeSavoury
  /\ userPreferences (snd turn) <> userPreferences Sessions.unloaded.
Proof.
  cbv zeta. repeat split; try (vm_compute; reflexivity). vm_compute. discriminate.
Qed.

Lemma error_turn_outcome_witness :
  fst (processUserInput Sessions.artifactsMissing (lit "三个人，想吃咸的") Sessions.unloaded)
  = Return {| message := ErrorReply LoadError; newState := AWAITING_PREFERENCES |}.
Proof.
  assert (dispatch Sessions.artifactsMissing (lit "三个人，想吃咸的")
            (snd (addMessage user (lit "三个人，想吃咸的") Sessions.unloaded))
          = (Throw LoadError,
             snd (dispatch Sessions.artifactsMissing (lit "三个人，想吃咸的")
                    (snd (addMessage user (lit "三个人，想吃咸的") Sessions.unloaded)))))
    as Hthrow by (vm_compute; reflexivity).
  destruct (error_turn_outcome Sessions.artifactsMissing _ _ _ _ Hthrow) as [-> _].
  reflexivity.
Defined.

(** While shopping list and workflow are due the input is not read at all:
    the turn produces both and ends in the question state. *)
Lemma input_ignored_while_generating (world : Collaborators) (userInput : jsstring)
  (e : Engine) :
  state e = GENERATING_SHOPPING_LIST \/ state e = PLANNING_WORKFLOW ->
  let turn := processUserInput world userInput e in
  (exists reply, fst turn = Return {| message := reply; newState := READY_FOR_QUESTIONS |})
  /\ state (snd turn) = READY_FOR_QUESTIONS
  /\ userPreferences (snd turn) = userPreferences e
  /\ recommendedMenu (snd turn) = recommendedMenu e.
Proof.
  intros Hstate turn. subst turn.
  unfold processUserInput, try_catch, dispatch. unfold bind, this.
  cbv [addMessage assign]. cbn [withMessages state].
  destruct Hstate as [-> | ->].
  - cbv [handleShoppingListGeneration generateShoppingList try_catch bind this setState
         assign ret].
    cbn [fst snd state userPreferences recommendedMenu withState withMessages]. eauto.
  - cbv [handleWorkflowPlanning bind this setState assign ret].
    cbn [fst snd state userPreferences recommendedMenu withState withMessages]. eauto.
Qed.

(** Where the reset is implemented.  In the question state every utterance
    that holds a reset phrase returns the session to AWAITING_PREFERENCES with
    the preferences, the proposed menu and the confirmed records cleared and
    the history restarted from the welcome message.  While a menu is proposed
    the reset phrases are not looked for: either phrase is answered as not
    understood, and state, preferences and menu stay as they are. *)
Theorem reset_only_in_question_state (world : Collaborators) (e : Engine) :
  (forall userInput,
      state e = READY_FOR_QUESTIONS ->
      isResetRequest userInput = true ->
      processUserInput world userInput e
      = (Return {| message := Welcome; newState := AWAITING_PREFERENCES |},
         {| state := AWAITING_PREFERENCES;
            messages := [{| role := assistant; content := getWelcomeMessage |}];
            userPreferences := noPreferences;
            recommendedMenu := [];
            confirmedMenu := [];
            knowledgeBase := knowledgeBase e |}))
  /\ (forall phrase,
        state e = RECOMMENDING_MENU ->
        phrase = lit "重新开始" \/ phrase = lit "重新规划" ->
        isResetRequest phrase = true
        /\ processUserInput world phrase e
           = (Return {| message := NotUnderstood; newState := RECOMMENDING_MENU |},
              withMessages (messages e ++ [{| role := user; content := phrase |}]) e)).
Proof.
  split.
  - intros userInput Hstate Hreset. by apply reset_from_ready.
  - intros phrase Hstate Hphrase. split.
    + destruct Hphrase as [-> | ->]; reflexivity.
    + by apply reset_not_recognised_while_recommending.
Qed.

(** C8 fails on the code: the reset is implemented in the question state
    only.  While a menu is proposed the reset phrase is answered as not
    understood, and the state, the preferences and the menu stay, although
    the table of [canTransitionTo] holds the transition from RECOMMENDING_MENU
    to AWAITING_PREFERENCES and the same utterance resets the same session
    once it is ready for questions.  It fails in the very turn the engine
    asks for it: with no recipe to propose, the engine proposes the empty
    menu, whose message tells the user to start again, and the user's
    "重新开始" is then not understood.  While preferences are collected the
    phrase is handed to the intent model, and what was collected stays. *)
Theorem reset_ignored_while_recommending :
  let turn := processUserInput Sessions.servicesDown (lit "重新开始") Sessions.proposing in
  let turn' := processUserInput Sessions.nothingExtracted (lit "重新开始") Sessions.collecting in
  let ready := processUserInput Sessions.servicesDown (lit "重新开始")
                                (withState READY_FOR_QUESTIONS Sessions.proposing) in
  let asked := processUserInput Sessions.emptyPantry (lit "三个人，想吃咸的")
                                (create KnowledgeBase.fresh) in
  let answered := processUserInput Sessions.emptyPantry (lit "重新开始") (snd asked) in
  state Sessions.proposing = RECOMMENDING_MENU
  /\ fst turn = Return {| message := NotUnderstood; newState := RECOMMENDING_MENU |}
  /\ state (snd turn) = RECOMMENDING_MENU
  /\ userPreferences (snd turn) = Sessions.fourSpicy
  /\ recommendedMenu (snd turn) = recommendedMenu Sessions.proposing
  /\ recommendedMenu (snd turn) <> []
  /\ state Sessions.collecting = AWAITING_PREFERENCES
  /\ userPreferences (snd turn') = Sessions.fourSpicy
  /\ state (snd turn') = RECOMMENDING_MENU
  /\ Notions.canTransitionTo AWAITING_PREFERENCES Sessions.proposing = true
  /\ fst ready = Return {| message := Welcome; newState := AWAITING_PREFERENCES |}
  /\ state (snd ready) = AWAITING_PREFERENCES
  /\ userPreferences (snd ready) = noPreferences
  /\ recommendedMenu (snd ready) = []
  /\ fst asked = Return {| message := MenuProposal []; newState := RECOMMENDING_MENU |}
  /\ state (snd asked) = RECOMMENDING_MENU
  /\ fst answered = Return {| message := NotUnderstood; newState := RECOMMENDING_MENU |}
  /\ state (snd answered) = RECOMMENDING_MENU
  /\ userPreferences (snd answered) = Sessions.threeSavoury.
Proof.
  cbv zeta. repeat split; try (vm_compute; reflexivity). vm_compute. discriminate.
Qed.

End EngineFacts.

(** ** More on the knowledge base *)

Module SearchFacts.
Import KnowledgeBase Notions.

(** What a search on a loaded knowledge base returns, stage by stage. *)
Lemma searchRecipes_result (files : Files) (preferences : UserPreferences) (kb : KB) :
  isLoaded kb = true ->
  fst (searchRecipes files preferences kb)
  = if hasLength (ingredientExclusions preferences) then
      match filter_throwing (keepsAfterExclusions (recipesData kb) preferences)
                            (rankedSet preferences kb) with
      | Return kept => Return (map (fun recipe => recipesData kb !! idx_dishName recipe) kept)
      | Throw e => Throw e
      end
    else Return (map (fun recipe => recipesData kb !! idx_dishName recipe)
                     (rankedSet preferences kb)).
Proof.
  intros Hloaded. unfold searchRecipes, bind.
  rewrite (KnowledgeBaseFacts.ensureLoaded_loaded files kb Hloaded).
  unfold this, searchFrom, bind, sortStage, exclusionStage, rankedSet, tasteSet.
  destruct (hasLength (specialGroup preferences));
    destruct (tasteStage preferences kb) as [| arr];
    destruct (hasLength (ingredientExclusions preferences));
    unfold bind, assign, ret, this, pure;
    cbn [fst snd setIndex recipesData recipesIndex isLoaded deref];
    repeat match goal with
           | |- context [filter_throwing ?f ?l] => destruct (filter_throwing f l)
           end;
    reflexivity.
Qed.

Lemma tasteSet_incl (preferences : UserPreferences) (kb : KB) (entry : RecipeIndex) :
  In entry (tasteSet preferences kb) -> In entry (recipesIndex kb).
Proof.
  unfold tasteSet, tasteStage.
  destruct (hasLength _); [| done].
  destruct (0 <? length _); [| done].
  cbn [deref]. intros H. by apply filter_In in H as [H _].
Qed.

Lemma rankedSet_perm (preferences : UserPreferences) (kb : KB) :
  Permutation (rankedSet preferences kb) (tasteSet preferences kb).
Proof.
  unfold rankedSet. destruct (hasLength _); [| done].
  apply KnowledgeBaseFacts.Array_sort_perm.
Qed.

Lemma rankedSet_incl (preferences : UserPreferences) (kb : KB) (entry : RecipeIndex) :
  In entry (rankedSet preferences kb) -> In entry (recipesIndex kb).
Proof.
  intros H. apply tasteSet_incl with preferences.
  by apply (Permutation_in _ (rankedSet_perm preferences kb)).
Qed.

(** On entries that all have their record, the exclusion filter does not
    throw and keeps exactly the entries whose record holds no exclusion. *)
Lemma filter_throwing_covered (data : gmap jsstring ProcessedRecipe)
  (preferences : UserPreferences) (entries : list RecipeIndex) :
  (forall entry, In entry entries -> is_Some (data !! idx_dishName entry)) ->
  filter_throwing (keepsAfterExclusions data preferences) entries
  = Return (List.filter (fun entry => match data !! idx_dishName entry with
                                      | Some recipe => negb (excluded preferences recipe)
                                      | None => false
                                      end) entries).
Proof.
  induction entries as [| entry entries IH]; intros Hcov; [done |].
  simpl. unfold keepsAfterExclusions at 1.
  destruct (Hcov entry (or_introl eq_refl)) as [recipe Hrecipe]. rewrite Hrecipe.
  rewrite IH by (intros e He; apply Hcov; by right).
  reflexivity.
Qed.

(** Looking up entries that all have their record yields no [undefined]. *)
Lemma lookups_defined (data : gmap jsstring ProcessedRecipe) (entries : list RecipeIndex) :
  (forall entry, In entry entries -> is_Some (data !! idx_dishName entry)) ->
  exists recipes,
    map (fun entry => data !! idx_dishName entry) entries = map Some recipes
    /\ forall recipe, In recipe recipes ->
                      exists entry, In entry entries /\ data !! idx_dishName entry = Some recipe.
Proof.
  induction entries as [| entry entries IH]; intros Hcov.
  - exists []. split; [done | intros ? []].
  - destruct (Hcov entry (or_introl eq_refl)) as [recipe Hrecipe].
    destruct IH as (recipes & Hmap & Hin); [intros e He; apply Hcov; by right |].
    exists (recipe :: recipes). simpl. rewrite Hrecipe, Hmap. split; [done |].
    intros r [<- | Hr].
    + exists entry. split; [by left | done].
    + destruct (Hin r Hr) as (e & He & Hl). exists e. split; [by right | done].
Qed.

(** *** Sorting *)

Section Sorting.

Context {A : Type} (cmp : A -> A -> Z).

(** The comparator never puts two elements each behind the other. *)
Hypothesis cmp_total : forall x y, (0 < cmp x y)%Z -> (cmp y x <= 0)%Z.

Lemma insert_sorted_hd (x y : A) (arr : list A) :
  (cmp y x <= 0)%Z ->
  HdRel (fun a b => (cmp a b <= 0)%Z) y arr ->
  HdRel (fun a b => (cmp a b <= 0)%Z) y (insert_sorted cmp x arr).
Proof.
  intros Hyx Hhd. destruct arr as [| z arr]; simpl.
  - by constructor.
  - destruct (0 <? cmp x z)%Z; constructor; [by inversion Hhd | done].
Qed.

Lemma insert_sorted_sorted (x : A) (arr : list A) :
  Sorted (fun a b => (cmp a b <= 0)%Z) arr ->
  Sorted (fun a b => (cmp a b <= 0)%Z) (insert_sorted cmp x arr).
Proof.
  induction arr as [| y arr IH]; intros Hs; simpl.
  - repeat constructor.
  - inversion Hs as [| ? ? Hs' Hhd]; subst.
    destruct (Z.ltb_spec 0 (cmp x y)) as [Hgt | Hle].
    + constructor; [by apply IH |]. apply insert_sorted_hd; [by apply cmp_total | done].
    + constructor; [done |]. by constructor.
Qed.

Lemma Array_sort_sorted (arr : list A) :
  Sorted (fun a b => (cmp a b <= 0)%Z) (Array_sort cmp arr).
Proof.
  induction arr as [| x arr IH]; simpl; [constructor |]. by apply insert_sorted_sorted.
Qed.

End Sorting.

(** Sorting by a key, largest first, keeps the elements of each key in
    their order. *)
Lemma insert_sorted_stable {A} (key : A -> Z) (s : Z) (x : A) (arr : list A) :
  List.filter (fun a => (key a =? s)%Z) (insert_sorted (fun a b => (key b - key a)%Z) x arr)
  = List.filter (fun a => (key a =? s)%Z) (x :: arr).
Proof.
  induction arr as [| y arr IH]; [done |].
  cbn [insert_sorted]. destruct (Z.ltb_spec 0 (key y - key x)) as [Hgt | Hle]; [| done].
  cbn [List.filter] in *. rewrite IH.
  destruct (Z.eqb_spec (key x) s), (Z.eqb_spec (key y) s); try done. lia.
Qed.

Lemma Array_sort_stable {A} (key : A -> Z) (s : Z) (arr : list A) :
  List.filter (fun a => (key a =? s)%Z) (Array_sort (fun a b => (key b - key a)%Z) arr)
  = List.filter (fun a => (key a =? s)%Z) arr.
Proof.
  induction arr as [| x arr IH]; [done |].
  cbn [Array_sort fold_right]. fold (Array_sort (fun a b => (key b - key a)%Z) arr).
  rewrite insert_sorted_stable. cbn [List.filter]. by rewrite IH.
Qed.

(** *** The query layer *)

Lemma covered_twoDishes : covered Samples.twoDishes.
Proof. intros entry [<- | [<- | []]]; vm_compute; eauto. Qed.

Lemma allDefined_Some {A} (arr : list A) : allDefined (map Some arr) = Return arr.
Proof. induction arr as [| x arr IH]; simpl; [done |]. by rewrite IH. Qed.

Lemma allDefined_Return {A} (arr : list (option A)) (xs : list A) :
  allDefined arr = Return xs -> arr = map Some xs.
Proof.
  revert xs. induction arr as [| [x |] arr IH]; intros xs; simpl.
  - by intros [= <-].
  - destruct (allDefined arr) as [ys | e]; [| done].
    intros [= <-]. simpl. by rewrite (IH ys).
  - done.
Qed.

(** A search on a loaded knowledge base whose index is covered by the data
    table: it returns, every element is a record of an index entry, and none
    holds an excluded ingredient. *)
Lemma searchRecipes_covered (files : Files) (preferences : UserPreferences) (kb : KB) :
  isLoaded kb = true ->
  covered kb ->
  exists recipes,
    fst (searchRecipes files preferences kb) = Return (map Some recipes)
    /\ (forall recipe, In recipe recipes ->
          exists entry, In entry (recipesIndex kb)
                        /\ recipesData kb !! idx_dishName entry = Some recipe)
    /\ (hasLength (ingredientExclusions preferences) = true ->
        forall recipe, In recipe recipes -> excluded preferences recipe = false).
Proof.
  intros Hloaded Hcov. rewrite (searchRecipes_result files preferences kb Hloaded).
  assert (forall entry, In entry (rankedSet preferences kb) ->
                        is_Some (recipesData kb !! idx_dishName entry)) as Hranked.
  { intros entry He. apply Hcov. by apply rankedSet_incl in He. }
  destruct (hasLength (ingredientExclusions preferences)).
  - rewrite (filter_throwing_covered _ _ _ Hranked).
    match goal with |- context [List.filter ?f ?l] => set (kept := List.filter f l) end.
    destruct (lookups_defined (recipesData kb) kept) as (recipes & Hmap & Hin).
    { intros entry He. apply Hranked. by apply filter_In in He as [He _]. }
    exists recipes. rewrite Hmap. split; [done |]. split.
    + intros recipe Hr. destruct (Hin recipe Hr) as (entry & He & Hl).
      exists entry. split; [| done].
      apply filter_In in He as [He _]. by apply rankedSet_incl in He.
    + intros _ recipe Hr. destruct (Hin recipe Hr) as (entry & He & Hl).
      apply filter_In in He as [_ He]. rewrite Hl in He. by apply negb_true_iff in He.
  - destruct (lookups_defined (recipesData kb) _ Hranked) as (recipes & Hmap & Hin).
    exists recipes. rewrite Hmap. split; [done |]. split; [| done].
    intros recipe Hr. destruct (Hin recipe Hr) as (entry & He & Hl).
    exists entry. split; [by apply rankedSet_incl in He | done].
Qed.

Lemma covered_after_search (files : Files) (preferences : UserPreferences) (kb : KB) :
  isLoaded kb = true ->
  covered kb ->
  isLoaded (snd (searchRecipes files preferences kb)) = true
  /\ covered (snd (searchRecipes files preferences kb))
  /\ recipesData (snd (searchRecipes files preferences kb)) = recipesData kb.
Proof.
  intros Hloaded Hcov.
  destruct (KnowledgeBaseFacts.searchRecipes_frame files preferences kb Hloaded)
    as (Hdata & Hl & Hperm & _).
  split; [done |]. split; [| done].
  intros entry He. rewrite Hdata. apply Hcov. by apply (Permutation_in _ Hperm).
Qed.

(** On such a knowledge base the candidates are always delivered. *)
Lemma getRecommendedCandidates_covered (files : Files) (preferences : UserPreferences)
  (kb : KB) :
  isLoaded kb = true ->
  covered kb ->
  exists candidates kb',
    getRecommendedCandidates files preferences kb = (Return candidates, kb')
    /\ isLoaded kb' = true /\ covered kb' /\ recipesData kb' = recipesData kb.
Proof.
  intros Hloaded Hcov. unfold getRecommendedCandidates, bind.
  rewrite (KnowledgeBaseFacts.ensureLoaded_loaded files kb Hloaded).
  destruct (searchRecipes_covered files preferences kb Hloaded Hcov) as (recipes & Hres & _).
  destruct (covered_after_search files preferences kb Hloaded Hcov) as (Hl & Hc & Hd).
  destruct (searchRecipes files preferences kb) as [o kb1]. cbn [fst snd] in *. subst o.
  unfold pure. rewrite allDefined_Some. unfold ret. eauto 10.
Qed.

(** X1.  On a loaded knowledge base whose data table holds a record for every
    index entry, no query throws and none returns [undefined]: a search
    returns records of index entries only, [getRecipesByDifficulty] likewise,
    and [getRecommendedCandidates] delivers its buckets and leaves the
    knowledge base loaded and covered. *)
Theorem covered_queries_are_defined (files : Files) (preferences : UserPreferences)
  (maxDifficulty : Z) (kb : KB) :
  isLoaded kb = true ->
  covered kb ->
  (exists recipes,
      fst (searchRecipes files preferences kb) = Return (map Some recipes)
      /\ forall recipe, In recipe recipes ->
                        exists entry, In entry (recipesIndex kb)
                                      /\ recipesData kb !! idx_dishName entry = Some recipe)
  /\ (exists recipes,
        fst (getRecipesByDifficulty files maxDifficulty kb) = Return (map Some recipes))
  /\ (exists candidates kb',
        getRecommendedCandidates files preferences kb = (Return candidates, kb')
        /\ isLoaded kb' = true /\ covered kb').
Proof.
  intros Hloaded Hcov. split; [| split].
  - destruct (searchRecipes_covered files preferences kb Hloaded Hcov) as (rs & H1 & H2 & _).
    eauto.
  - unfold getRecipesByDifficulty, bind.
    rewrite (KnowledgeBaseFacts.ensureLoaded_loaded files kb Hloaded). unfold this, ret.
    cbn [fst].
    destruct (lookups_defined (recipesData kb)
                (List.filter (fun recipe => (difficultyOr1 (idx_difficulty recipe)
                                             <=? maxDifficulty)%Z) (recipesIndex kb)))
      as (recipes & Hmap & _).
    { intros entry He. apply Hcov. by apply filter_In in He as [He _]. }
    exists recipes. by rewrite Hmap.
  - destruct (getRecommendedCandidates_covered files preferences kb Hloaded Hcov)
      as (c & kb' & H & Hl & Hc & _).
    eauto.
Qed.

Lemma covered_queries_are_defined_witness :
  exists recipes,
    fst (searchRecipes Samples.onDisk (Samples.only Omitted (Value [lit "kid"]) Omitted)
                       Samples.twoDishes)
    = Return (map Some recipes).
Proof.
  destruct (covered_queries_are_defined Samples.onDisk
              (Samples.only Omitted (Value [lit "kid"]) Omitted) 5 Samples.twoDishes
              eq_refl covered_twoDishes) as ((recipes & H & _) & _).
  by exists recipes.
Defined.

(** X2.  The ingredient exclusion is a hard filter.  On a loaded, covered
    knowledge base a search with exclusions returns no recipe whose
    ingredients text contains an exclusion (both in lower case), and it
    returns the empty list when every record contains one. *)
Theorem exclusion_is_hard (files : Files) (preferences : UserPreferences) (kb : KB) :
  isLoaded kb = true ->
  covered kb ->
  hasLength (ingredientExclusions preferences) = true ->
  (exists recipes,
      fst (searchRecipes files preferences kb) = Return (map Some recipes)
      /\ forall recipe exclusion,
          In recipe recipes ->
          In exclusion (arrayOf (ingredientExclusions preferences)) ->
          includes (ingredientsText recipe) (toLowerCase exclusion) = false)
  /\ ((forall entry recipe,
          In entry (recipesIndex kb) ->
          recipesData kb !! idx_dishName entry = Some recipe ->
          excluded preferences recipe = true) ->
      fst (searchRecipes files preferences kb) = Return []).
Proof.
  intros Hloaded Hcov Hex. split.
  - destruct (searchRecipes_covered files preferences kb Hloaded Hcov) as (rs & H1 & _ & H3).
    exists rs. split; [done |]. intros recipe exclusion Hr Hin.
    specialize (H3 Hex recipe Hr). unfold excluded, some in H3.
    destruct (includes _ _) eqn:Hinc; [| done].
    assert (existsb (fun e => includes (ingredientsText recipe) (toLowerCase e))
                    (arrayOf (ingredientExclusions preferences)) = true) as Habs.
    { apply existsb_exists. eauto. }
    congruence.
  - intros Hall. rewrite (searchRecipes_result files preferences kb Hloaded), Hex.
    rewrite filter_throwing_covered.
    + rewrite KnowledgeBaseFacts.filter_none; [done |].
      intros entry He. apply rankedSet_incl in He.
      destruct (Hcov entry He) as [recipe Hrecipe]. rewrite Hrecipe.
      by rewrite (Hall entry recipe He Hrecipe).
    + intros entry He. apply Hcov. by apply rankedSet_incl in He.
Qed.

Lemma exclusion_is_hard_witness :
  fst (searchRecipes Samples.onDisk (Samples.only Omitted Omitted (Value [lit "肉"; lit "蛋"]))
                     Samples.twoDishes)
  = Return [].
Proof.
  apply (exclusion_is_hard Samples.onDisk
           (Samples.only Omitted Omitted (Value [lit "肉"; lit "蛋"])) Samples.twoDishes
           eq_refl covered_twoDishes eq_refl).
  intros entry recipe [<- | [<- | []]]; vm_compute; intros [= <-]; reflexivity.
Defined.

Lemma StronglySorted_impl {A} (R1 R2 : A -> A -> Prop) (arr : list A) :
  (forall a b, R1 a b -> R2 a b) -> StronglySorted R1 arr -> StronglySorted R2 arr.
Proof.
  intros Himpl Hs. induction Hs as [| x arr Hs IH Hall]; constructor; [done |].
  apply List.Forall_forall. intros y Hy. apply Himpl.
  by apply (proj1 (List.Forall_forall _ _) Hall).
Qed.

Lemma groupCompare_sorted (preferences : UserPreferences) (arr : list RecipeIndex) :
  StronglySorted (fun a b => (groupScore preferences b <= groupScore preferences a)%Z)
                 (Array_sort (groupCompare preferences) arr).
Proof.
  apply StronglySorted_impl with (R1 := fun a b => (groupCompare preferences a b <= 0)%Z).
  { unfold groupCompare. intros a b. lia. }
  apply Sorted_StronglySorted.
  { unfold groupCompare. intros a b c. lia. }
  apply Array_sort_sorted. unfold groupCompare. intros x y. lia.
Qed.

(** X3.  The special-group stage ranks and never filters.  On a loaded
    knowledge base a search with a special group and no exclusions returns the
    records of the entries that passed the taste stage, all of them, ordered
    by suitability score from high to low, entries of equal score in the order
    they had. *)
Theorem special_group_ranking (files : Files) (preferences : UserPreferences) (kb : KB) :
  isLoaded kb = true ->
  hasLength (specialGroup preferences) = true ->
  hasLength (ingredientExclusions preferences) = false ->
  exists ranked,
    fst (searchRecipes files preferences kb)
    = Return (map (fun entry => recipesData kb !! idx_dishName entry) ranked)
    /\ Permutation ranked (tasteSet preferences kb)
    /\ StronglySorted
         (fun a b => (groupScore preferences b <= groupScore preferences a)%Z) ranked
    /\ forall score,
        List.filter (fun entry => (groupScore preferences entry =? score)%Z) ranked
        = List.filter (fun entry => (groupScore preferences entry =? score)%Z)
                      (tasteSet preferences kb).
Proof.
  intros Hloaded Hgroup Hex.
  exists (Array_sort (groupCompare preferences) (tasteSet preferences kb)).
  rewrite (searchRecipes_result files preferences kb Hloaded), Hex.
  unfold rankedSet. rewrite Hgroup. split; [done |]. split; [| split].
  - apply KnowledgeBaseFacts.Array_sort_perm.
  - apply groupCompare_sorted.
  - intros score. apply (Array_sort_stable (groupScore preferences)).
Qed.

Lemma special_group_ranking_witness :
  exists ranked,
    fst (searchRecipes Samples.onDisk (Samples.only Omitted (Value [lit "kid"]) Omitted)
                       Samples.twoDishes)
    = Return (map (fun entry => recipesData Samples.twoDishes !! idx_dishName entry) ranked)
    /\ Permutation ranked (recipesIndex Samples.twoDishes).
Proof.
  destruct (special_group_ranking Samples.onDisk
              (Samples.only Omitted (Value [lit "kid"]) Omitted) Samples.twoDishes
              eq_refl eq_refl eq_refl) as (ranked & H & Hperm & _).
  exists ranked. by split.
Defined.

(** X4.  The buckets of [getRecommendedCandidates]: main dishes are the
    search results of category meat_dish or aquatic, vegetable dishes those of
    category vegetable_dish, soups those of category soup; no dish is in two
    buckets, and a search result is in a bucket exactly when it has one of
    these four categories. *)
Theorem candidate_buckets (files : Files) (preferences : UserPreferences)
  (kb kb' : KB) (candidates : CandidateDishes) :
  getRecommendedCandidates files preferences kb = (Return candidates, kb') ->
  exists found,
    fst (searchRecipes files preferences (snd (ensureLoaded files kb)))
    = Return (map Some found)
    /\ (forall dish, In dish (mainDishes candidates) <->
                     In dish found /\ (category (raw dish) = lit "meat_dish"
                                       \/ category (raw dish) = lit "aquatic"))
    /\ (forall dish, In dish (vegetableDishes candidates) <->
                     In dish found /\ category (raw dish) = lit "vegetable_dish")
    /\ (forall dish, In dish (soups candidates) <->
                     In dish found /\ category (raw dish) = lit "soup")
    /\ (forall dish, In dish (mainDishes candidates) ->
                     ~ In dish (vegetableDishes candidates) /\ ~ In dish (soups candidates))
    /\ (forall dish, In dish (vegetableDishes candidates) -> ~ In dish (soups candidates)).
Proof.
  unfold getRecommendedCandidates, bind.
  destruct (ensureLoaded files kb) as [[[] | e] kb1]; [| done]. cbn [snd].
  destruct (searchRecipes files preferences kb1) as [[results | e] kb2]; [| done].
  unfold pure. destruct (allDefined results) as [found | e] eqn:Hdef; [| done].
  unfold ret. intros [= <- <-]. cbn [mainDishes vegetableDishes soups fst].
  apply allDefined_Return in Hdef. exists found. split; [by rewrite Hdef |].
  assert (forall dish,
             In dish (List.filter (fun recipe =>
                                     arr_includes [lit "meat_dish"; lit "aquatic"]
                                                  (category (raw recipe))) found)
             <-> In dish found /\ (category (raw dish) = lit "meat_dish"
                                   \/ category (raw dish) = lit "aquatic")) as Hmain.
  { intros dish. rewrite filter_In, arr_includes_In. simpl. intuition congruence. }
  assert (forall name dish,
             In dish (List.filter (fun recipe => str_eqb (category (raw recipe)) name) found)
             <-> In dish found /\ category (raw dish) = name) as Hone.
  { intros name dish. by rewrite filter_In, str_eqb_eq. }
  split; [done |]. split; [apply Hone |]. split; [apply Hone |]. split.
  - intros dish Hd. apply Hmain in Hd as [_ Hcat]. rewrite !Hone.
    split; intros [_ Hc]; rewrite Hc in Hcat; destruct Hcat as [Hcat | Hcat];
      vm_compute in Hcat; discriminate.
  - intros dish Hd. apply Hone in Hd as [_ Hcat]. rewrite Hone.
    intros [_ Hc]. rewrite Hc in Hcat. vm_compute in Hcat. discriminate.
Qed.

Lemma candidate_buckets_witness :
  exists candidates,
    fst (getRecommendedCandidates Samples.onDisk (Samples.only Omitted Omitted Omitted)
                                  Samples.twoDishes)
    = Return candidates
    /\ mainDishes candidates = [Samples.braisedPork]
    /\ vegetableDishes candidates = [Samples.steamedEgg]
    /\ soups candidates = [].
Proof.
  destruct (getRecommendedCandidates Samples.onDisk (Samples.only Omitted Omitted Omitted)
                                     Samples.twoDishes) as [o kb'] eqn:Hrun.
  assert (exists c, o = Return c
                    /\ mainDishes c = [Samples.braisedPork]
                    /\ vegetableDishes c = [Samples.steamedEgg]
                    /\ soups c = []) as (c & -> & Hm & Hv & Hs).
  { vm_compute in Hrun. injection Hrun as <- _. eexists. repeat split. }
  pose proof (candidate_buckets _ _ _ _ _ Hrun) as _.
  exists c. by repeat split.
Defined.

(** X5.  Queries read: on a loaded knowledge base the direct projections
    leave the knowledge base as it is, and [searchRecipes] and
    [getRecommendedCandidates] leave the data table and the loaded flag as
    they are and keep the elements of the index; the index keeps its order
    too unless the special-group sort runs on the stored array. *)
Theorem queries_keep_the_data (files : Files) (preferences : UserPreferences)
  (name cat : jsstring) (maxDifficulty : Z) (kb : KB) :
  isLoaded kb = true ->
  snd (getDishByName files name kb) = kb
  /\ snd (getRecipesByCategory files cat kb) = kb
  /\ snd (getRecipesByDifficulty files maxDifficulty kb) = kb
  /\ (forall kb',
        kb' = snd (searchRecipes files preferences kb)
        \/ kb' = snd (getRecommendedCandidates files preferences kb) ->
        recipesData kb' = recipesData kb
        /\ isLoaded kb' = true
        /\ Permutation (recipesIndex kb') (recipesIndex kb)
        /\ (hasLength (specialGroup preferences) = false
            \/ tasteStage preferences kb <> SharedIndex ->
            recipesIndex kb' = recipesIndex kb)).
Proof.
  intros Hloaded.
  assert (snd (getRecommendedCandidates files preferences kb)
          = snd (searchRecipes files preferences kb)) as Hsame.
  { unfold getRecommendedCandidates, bind.
    rewrite (KnowledgeBaseFacts.ensureLoaded_loaded files kb Hloaded).
    destruct (searchRecipes files preferences kb) as [[results | e] kb1]; [| done].
    unfold pure. by destruct (allDefined results). }
  split; [| split; [| split]].
  - unfold getDishByName, bind.
    by rewrite (KnowledgeBaseFacts.ensureLoaded_loaded files kb Hloaded).
  - unfold getRecipesByCategory, bind.
    by rewrite (KnowledgeBaseFacts.ensureLoaded_loaded files kb Hloaded).
  - unfold getRecipesByDifficulty, bind.
    by rewrite (KnowledgeBaseFacts.ensureLoaded_loaded files kb Hloaded).
  - intros kb' [-> | ->]; rewrite ?Hsame;
      apply (KnowledgeBaseFacts.searchRecipes_frame files preferences kb Hloaded).
Qed.

Lemma queries_keep_the_data_witness :
  snd (getRecipesByCategory Samples.onDisk (lit "soup") Samples.twoDishes) = Samples.twoDishes.
Proof.
  destruct (queries_keep_the_data Samples.onDisk (Samples.only Omitted Omitted Omitted)
              (lit "红烧肉") (lit "soup") 5 Samples.twoDishes eq_refl) as (_ & H & _).
  exact H.
Defined.

(** X6.  Loading happens once.  After a successful [initialize] the knowledge
    base is loaded, and holds the artifacts read if it was not loaded before;
    a later [initialize] changes nothing and reads nothing, whatever is on
    disk by then. *)
Theorem initialize_once (files files' : Files) (kb kb' : KB) :
  initialize files kb = (Return tt, kb') ->
  isLoaded kb' = true
  /\ initialize files' kb' = (Return tt, kb')
  /\ (isLoaded kb = true -> kb' = kb)
  /\ (isLoaded kb = false ->
      exists index data, files = Artifacts index data
                         /\ recipesIndex kb' = index /\ recipesData kb' = data).
Proof.
  unfold initialize at 1. unfold bind, this.
  destruct (isLoaded kb) eqn:Hl.
  - unfold ret. intros [= <-]. repeat split; try done.
    unfold initialize, bind, this. by rewrite Hl.
  - unfold try_catch, loadData, bind.
    destruct files as [| | index | index data]; cbn; try done.
    intros [= <-]. cbn. repeat split; try done. eauto.
Qed.

Lemma initialize_once_witness :
  initialize Unreadable (snd (initialize Samples.onDisk fresh))
  = (Return tt, Samples.twoDishes).
Proof.
  destruct (initialize_once Samples.onDisk Unreadable fresh Samples.twoDishes eq_refl)
    as (_ & H & _).
  exact H.
Defined.

(** X7.  A load that fails is not remembered as a load: [initialize] throws,
    the knowledge base stays unloaded with its data table untouched, and every
    query tries to load again, throwing in its turn while the artifacts stay
    unreadable. *)
Theorem failed_load_is_retried (files : Files) (preferences : UserPreferences)
  (name : jsstring) (kb : KB) :
  isLoaded kb = false ->
  (forall index data, files <> Artifacts index data) ->
  fst (initialize files kb) = Throw LoadError
  /\ isLoaded (snd (initialize files kb)) = false
  /\ recipesData (snd (initialize files kb)) = recipesData kb
  /\ fst (getDishByName files name kb) = Throw LoadError
  /\ fst (searchRecipes files preferences kb) = Throw LoadError
  /\ fst (getRecommendedCandidates files preferences kb) = Throw LoadError.
Proof.
  intros Hl Hfiles.
  assert (fst (initialize files kb) = Throw LoadError
          /\ isLoaded (snd (initialize files kb)) = false
          /\ recipesData (snd (initialize files kb)) = recipesData kb) as (H1 & H2 & H3).
  { unfold initialize, bind, this. rewrite Hl.
    destruct files as [| | index | index data]; cbn; try done.
    by destruct (Hfiles index data). }
  assert (fst (ensureLoaded files kb) = Throw LoadError) as He.
  { unfold ensureLoaded, bind, this. by rewrite Hl. }
  repeat split; try done.
  - unfold getDishByName, bind.
    destruct (ensureLoaded files kb) as [[[] | e] kb1]; cbn [fst] in *; congruence.
  - unfold searchRecipes, bind.
    destruct (ensureLoaded files kb) as [[[] | e] kb1]; cbn [fst] in *; congruence.
  - unfold getRecommendedCandidates, bind.
    destruct (ensureLoaded files kb) as [[[] | e] kb1]; cbn [fst] in *; congruence.
Qed.

Lemma failed_load_is_retried_witness :
  fst (getDishByName Unreadable (lit "红烧肉") fresh) = Throw LoadError.
Proof.
  apply (failed_load_is_retried Unreadable (Samples.only Omitted Omitted Omitted)
           (lit "红烧肉") fresh eq_refl).
  intros index data. discriminate.
Defined.

End SearchFacts.

(** ** Building the artifacts *)

Module BuilderFacts.
Import DatabaseBuilder KnowledgeBase Notions.

Lemma find_app {A} (f : A -> bool) (xs ys : list A) :
  List.find f (xs ++ ys)
  = match List.find f xs with
    | Some x => Some x
    | None => List.find f ys
    end.
Proof. induction xs as [| x xs IH]; simpl; [done |]. by destruct (f x). Qed.

(** The table after the loop, from any table before it: the last record of a
    name wins, names not written keep what they had. *)
Lemma buildData_from (recipes : list ProcessedRecipe) (acc : gmap jsstring ProcessedRecipe)
  (name : jsstring) :
  fold_left (fun data recipe => <[dishName (raw recipe) := recipe]> data) recipes acc !! name
  = match List.find (MenuRevision.named name) (rev recipes) with
    | Some recipe => Some recipe
    | None => acc !! name
    end.
Proof.
  revert acc. induction recipes as [| r recipes IH]; intros acc; [done |].
  cbn [fold_left rev]. rewrite IH, find_app.
  destruct (List.find _ (rev recipes)); [done |].
  cbn [List.find]. unfold MenuRevision.named, str_eqb.
  destruct (decide (dishName (raw r) = name)) as [Heq | Hne].
  - rewrite bool_decide_eq_true_2 by done. rewrite Heq. apply lookup_insert_eq.
  - rewrite bool_decide_eq_false_2 by done. by apply lookup_insert_ne.
Qed.

Lemma find_named_In (name : jsstring) (recipes : list ProcessedRecipe) (r : ProcessedRecipe) :
  In r recipes -> dishName (raw r) = name ->
  exists r', List.find (MenuRevision.named name) recipes = Some r'
             /\ In r' recipes /\ dishName (raw r') = name.
Proof.
  intros Hin Hname.
  destruct (List.find (MenuRevision.named name) recipes) as [r' |] eqn:Hfind.
  - apply find_some in Hfind as [Hin' Hn]. apply str_eqb_eq in Hn. eauto.
  - apply find_none with (x := r) in Hfind; [| done].
    unfold MenuRevision.named in Hfind. rewrite Hname, str_eqb_refl in Hfind. done.
Qed.

Lemma named_unique (recipes : list ProcessedRecipe) (r r' : ProcessedRecipe) :
  NoDup (map (fun recipe => dishName (raw recipe)) recipes) ->
  In r recipes -> In r' recipes -> dishName (raw r') = dishName (raw r) -> r' = r.
Proof.
  induction recipes as [| x recipes IH]; intros Hnd Hr Hr' Hname; [destruct Hr |].
  apply NoDup_cons in Hnd as [Hx Hnd].
  assert (forall y, In y recipes -> dishName (raw y) <> dishName (raw x)) as Hfresh.
  { intros y Hy Heq. apply Hx. apply list_elem_of_In. rewrite <- Heq.
    by apply (in_map (fun recipe => dishName (raw recipe))). }
  destruct Hr as [<- | Hr], Hr' as [<- | Hr']; try done.
  - by destruct (Hfresh r' Hr').
  - destruct (Hfresh r Hr). congruence.
  - by apply IH.
Qed.

Lemma buildData_lookup (recipes : list ProcessedRecipe) (r : ProcessedRecipe) :
  In r recipes ->
  exists r', buildData recipes !! dishName (raw r) = Some r'
             /\ In r' recipes /\ dishName (raw r') = dishName (raw r).
Proof.
  intros Hin. unfold buildData. rewrite buildData_from.
  destruct (find_named_In (dishName (raw r)) (rev recipes) r) as (r' & -> & Hin' & Hn);
    [by apply in_rev in Hin | done |].
  exists r'. split; [done |]. split; [by apply in_rev | done].
Qed.

Lemma buildData_lookup_unique (recipes : list ProcessedRecipe) (r : ProcessedRecipe) :
  NoDup (map (fun recipe => dishName (raw recipe)) recipes) ->
  In r recipes -> buildData recipes !! dishName (raw r) = Some r.
Proof.
  intros Hnd Hin. destruct (buildData_lookup recipes r Hin) as (r' & -> & Hin' & Hn).
  f_equal. by apply (named_unique recipes).
Qed.

Lemma buildData_origin (recipes : list ProcessedRecipe) (name : jsstring)
  (r : ProcessedRecipe) :
  buildData recipes !! name = Some r -> In r recipes /\ dishName (raw r) = name.
Proof.
  unfold buildData. rewrite buildData_from.
  destruct (List.find _ (rev recipes)) as [r' |] eqn:Hfind; [| done].
  intros [= <-]. apply find_some in Hfind as [Hin Hn].
  split; [by apply in_rev | by apply str_eqb_eq].
Qed.

(** X8.  The artifacts cover each other.  The index has one entry per record,
    in input order; every index entry has a record in the data table; the
    data table holds, under each name, the last record of that name, and only
    records filed under their own name; when names are unique every record is
    found under its name. *)
Theorem built_artifacts_cover (recipes : list ProcessedRecipe) :
  length (buildIndex recipes) = length recipes
  /\ map idx_dishName (buildIndex recipes) = map (fun r => dishName (raw r)) recipes
  /\ (forall entry, In entry (buildIndex recipes) ->
                    is_Some (buildData recipes !! idx_dishName entry))
  /\ (forall name, buildData recipes !! name
                   = List.find (MenuRevision.named name) (rev recipes))
  /\ wellKeyed (buildData recipes)
  /\ (NoDup (map (fun r => dishName (raw r)) recipes) ->
      forall r, In r recipes -> buildData recipes !! dishName (raw r) = Some r).
Proof.
  split; [apply length_map |]. split; [unfold buildIndex; by rewrite map_map |].
  split; [| split; [| split]].
  - intros entry He. apply in_map_iff in He as (r & <- & Hr).
    destruct (buildData_lookup recipes r Hr) as (r' & H & _). by exists r'.
  - intros name. unfold buildData. rewrite buildData_from.
    by destruct (List.find _ _).
  - intros name r Hl. by apply buildData_origin in Hl as [_ Hn].
  - intros Hnd r Hr. by apply buildData_lookup_unique.
Qed.

(** The knowledge base a first query loads from the written artifacts. *)
Lemma load_built (now : jsstring) (recipes : list ProcessedRecipe) :
  ensureLoaded (asRead (buildDatabases now recipes)) fresh
  = (Return tt, {| recipesData := buildData recipes;
                   recipesIndex := buildIndex recipes;
                   isLoaded := true |}).
Proof. reflexivity. Qed.

Lemma covered_built (recipes : list ProcessedRecipe) :
  covered {| recipesData := buildData recipes;
             recipesIndex := buildIndex recipes;
             isLoaded := true |}.
Proof.
  intros entry He. cbn [recipesIndex recipesData] in *.
  apply in_map_iff in He as (r & <- & Hr).
  destruct (buildData_lookup recipes r Hr) as (r' & H & _). by exists r'.
Qed.

Lemma search_after_load (files : Files) (preferences : UserPreferences) (kb kb1 : KB) :
  ensureLoaded files kb = (Return tt, kb1) ->
  isLoaded kb1 = true ->
  searchRecipes files preferences kb = searchRecipes files preferences kb1.
Proof.
  intros Hload Hl. unfold searchRecipes, bind.
  by rewrite Hload, (KnowledgeBaseFacts.ensureLoaded_loaded files kb1 Hl).
Qed.

(** X9.  Build, load, query.  A knowledge base that loads what
    [buildDatabases] wrote answers every search without throwing and without
    [undefined], with records of the build only; and when the dish names are
    unique, a search without preferences returns the built records
    themselves, in their order. *)
Theorem build_load_search (now : jsstring) (recipes : list ProcessedRecipe)
  (preferences : UserPreferences) :
  (exists found,
      fst (searchRecipes (asRead (buildDatabases now recipes)) preferences fresh)
      = Return (map Some found)
      /\ forall r, In r found -> In r recipes)
  /\ (NoDup (map (fun r => dishName (raw r)) recipes) ->
      fst (searchRecipes (asRead (buildDatabases now recipes))
                         ConversationEngine.noPreferences fresh)
      = Return (map Some recipes)).
Proof.
  set (kb1 := {| recipesData := buildData recipes;
                 recipesIndex := buildIndex recipes;
                 isLoaded := true |}).
  split.
  - rewrite (search_after_load _ preferences fresh kb1 (load_built now recipes) eq_refl).
    destruct (SearchFacts.searchRecipes_covered (asRead (buildDatabases now recipes))
                preferences kb1
                eq_refl (covered_built recipes)) as (found & Hres & Horigin & _).
    exists found. split; [done |]. intros r Hr.
    destruct (Horigin r Hr) as (entry & _ & Hl). cbn [recipesData kb1] in Hl.
    by apply buildData_origin in Hl as [Hin _].
  - intros Hnd.
    rewrite (search_after_load _ _ fresh kb1 (load_built now recipes) eq_refl).
    rewrite (SearchFacts.searchRecipes_result _ _ kb1 eq_refl).
    cbn [hasLength get ConversationEngine.noPreferences ingredientExclusions].
    unfold rankedSet, tasteSet, tasteStage.
    cbn [hasLength get ConversationEngine.noPreferences specialGroup tastePreferences
         deref recipesIndex recipesData kb1].
    f_equal. unfold buildIndex. rewrite map_map. apply map_ext_in.
    intros r Hr. cbn [indexOf idx_dishName]. by apply buildData_lookup_unique.
Qed.

(** Counting into a table: the count of a key grows by the number of elements
    that carry it. *)
Lemma countUp_from `{Countable K} {A} (key : A -> K) (xs : list A) (acc : gmap K Z) (k : K) :
  default 0%Z (fold_left (fun stats x => countUp (key x) stats) xs acc !! k)
  = (default 0%Z (acc !! k)
     + Z.of_nat (length (List.filter (fun x => bool_decide (key x = k)) xs)))%Z.
Proof.
  revert acc. induction xs as [| x xs IH]; intros acc; cbn [fold_left List.filter].
  - simpl. lia.
  - rewrite IH. unfold countUp.
    destruct (decide (key x = k)) as [-> | Hne].
    + rewrite bool_decide_eq_true_2 by done. rewrite lookup_insert_eq. cbn [default length].
      unfold id. rewrite Nat2Z.inj_succ. lia.
    + rewrite bool_decide_eq_false_2 by done. by rewrite lookup_insert_ne.
Qed.

(** X10.  The statistics count every record once: the count filed under a
    category is the number of records of that category, the count filed under
    a difficulty is the number of records of that difficulty (a missing
    difficulty counts as 1), and a key without records has no entry. *)
Theorem statistics_count (recipes : list ProcessedRecipe) (cat : jsstring) (d : Z) :
  default 0%Z (getCategoryStats recipes !! cat)
  = Z.of_nat (length (List.filter (fun r => str_eqb (category (raw r)) cat) recipes))
  /\ default 0%Z (getDifficultyStats recipes !! d)
     = Z.of_nat (length (List.filter
                           (fun r => (difficultyOr1 (difficulty r) =? d)%Z) recipes))
  /\ ((forall r, In r recipes -> category (raw r) <> cat) ->
      getCategoryStats recipes !! cat = None).
Proof.
  split; [| split].
  - unfold getCategoryStats. rewrite countUp_from. by rewrite lookup_empty.
  - unfold getDifficultyStats. rewrite countUp_from, lookup_empty. cbn [default].
    rewrite Z.add_0_l. do 2 f_equal. apply filter_ext. intros r.
    destruct (Z.eqb_spec (difficultyOr1 (difficulty r)) d) as [Heq | Hne].
    + by rewrite bool_decide_eq_true_2.
    + by rewrite bool_decide_eq_false_2.
  - intros Hnone. unfold getCategoryStats.
    assert (forall acc : gmap jsstring Z,
               acc !! cat = None ->
               fold_left (fun stats recipe => countUp (category (raw recipe)) stats)
                         recipes acc !! cat = None) as Hgen.
    { induction recipes as [| r recipes IH]; intros acc Hacc; [done |].
      cbn [fold_left]. apply IH.
      - intros r' Hr'. apply Hnone. by right.
      - unfold countUp. rewrite lookup_insert_ne; [done |]. apply Hnone. by left. }
    by apply Hgen.
Qed.

End BuilderFacts.

(** ** More on the enrichment pipeline *)

Module PipelineFacts.
Import LLMBasedTagger Notions.

Section Run.

Variable generateObject : Z -> RawRecipe -> option Tags.
Variables batchSize requestDelayMs : Z.

Local Abbreviation step := (tagStep generateObject batchSize requestDelayMs).
Local Abbreviation process := (processNew generateObject batchSize requestDelayMs).

Lemma delays_app (xs ys : list Event) : delays (xs ++ ys) = delays xs ++ delays ys.
Proof. unfold delays. apply flat_map_app. Qed.

Lemma processNew_enriches (existingData : gmap jsstring ProcessedRecipe)
  (st : TagRun) (rawRecipe : RawRecipe) :
  cached existingData rawRecipe = false ->
  exists p, processedRecipes (process st rawRecipe) = processedRecipes st ++ [p]
            /\ enriches generateObject existingData rawRecipe p.
Proof.
  intros Hc. unfold processNew, tagRecipe.
  destruct (generateObject (apiCallCount st) rawRecipe) as [object |] eqn:Hcall;
    eexists; (split; [reflexivity |]); right; cbn [raw difficulty tags];
    repeat split; try done; exists (apiCallCount st); by rewrite Hcall.
Qed.

(** The output follows the input, position by position. *)
Lemma loop_positions (existingData : gmap jsstring ProcessedRecipe)
  (rawRecipes : list RawRecipe) (st : TagRun) :
  exists out,
    processedRecipes (fold_left (step existingData) rawRecipes st) = processedRecipes st ++ out
    /\ Forall2 (enriches generateObject existingData) rawRecipes out.
Proof.
  revert st. induction rawRecipes as [| r rs IH]; intros st.
  - exists []. split; [by rewrite app_nil_r | constructor].
  - cbn [fold_left].
    destruct (IH (step existingData st r)) as (out & Hout & Hall).
    destruct (cached existingData r) eqn:Hc.
    + destruct (TaggerFacts.tagStep_cached generateObject batchSize requestDelayMs
                  existingData st r Hc) as (e & He & Hstep).
      exists (e :: out). rewrite Hout, Hstep. cbn [processedRecipes].
      rewrite <- app_assoc. split; [done |]. constructor; [| done].
      left. split; [done |]. split; [done |].
      unfold cached, isUnchanged in Hc. rewrite He in Hc. by apply str_eqb_eq.
    + rewrite (TaggerFacts.tagStep_new generateObject batchSize requestDelayMs
                 existingData st r Hc) in Hout |- *.
      destruct (processNew_enriches existingData st r Hc) as (p & Hp & Hen).
      exists (p :: out). rewrite Hout, Hp, <- app_assoc. split; [done |].
      by constructor.
Qed.

Lemma run_positions (rawRecipes : list RawRecipe)
  (existingData : gmap jsstring ProcessedRecipe) :
  Forall2 (enriches generateObject existingData) rawRecipes
          (processedRecipes (tagRecipesIncremental generateObject batchSize requestDelayMs
                                                   rawRecipes existingData)).
Proof.
  unfold tagRecipesIncremental.
  destruct (loop_positions existingData rawRecipes
              {| processedRecipes := []; apiCallCount := 0%Z; events := [] |})
    as (out & Hout & Hall).
  by rewrite Hout.
Qed.

(** X11.  The output of [tagRecipesIncremental] follows its input position by
    position: for a hit it holds the stored record, for any other raw record
    it holds that raw record with the difficulty estimated locally and with
    the tags the service returned, or the fallback tags when the call
    failed. *)
Theorem output_follows_input (rawRecipes : list RawRecipe)
  (existingData : gmap jsstring ProcessedRecipe) :
  Forall2 (enriches generateObject existingData) rawRecipes
          (processedRecipes (tagRecipesIncremental generateObject batchSize requestDelayMs
                                                   rawRecipes existingData)).
Proof. apply run_positions. Qed.

Lemma div_step (count b : Z) :
  (0 <= count)%Z -> (0 < b)%Z ->
  ((count + 1) / b
   = count / b + (if (Z.rem (count + 1) b =? 0)%Z then 1 else 0))%Z.
Proof.
  intros Hc Hb. rewrite Z.rem_mod_nonneg by lia.
  destruct (Z.eqb_spec ((count + 1) mod b) 0) as [Hz | Hnz].
  - pose proof (Z.div_mod (count + 1) b ltac:(lia)) as H1.
    pose proof (Z.div_mod count b ltac:(lia)) as H2.
    pose proof (Z.mod_pos_bound count b Hb) as H3.
    rewrite Hz in H1. nia.
  - pose proof (Z.div_mod (count + 1) b ltac:(lia)) as H1.
    pose proof (Z.div_mod count b ltac:(lia)) as H2.
    pose proof (Z.mod_pos_bound count b Hb) as H3.
    pose proof (Z.mod_pos_bound (count + 1) b Hb) as H4.
    nia.
Qed.

(** Counting calls and pauses, from any intermediate state. *)
Lemma loop_counts (existingData : gmap jsstring ProcessedRecipe)
  (rawRecipes : list RawRecipe) (st : TagRun) :
  (0 < batchSize)%Z ->
  (0 <= apiCallCount st)%Z ->
  Z.of_nat (length (delays (events st))) = (apiCallCount st / batchSize)%Z ->
  Forall (eq requestDelayMs) (delays (events st)) ->
  let final := fold_left (step existingData) rawRecipes st in
  apiCallCount final
  = (apiCallCount st
     + Z.of_nat (length (List.filter (fun r => negb (cached existingData r)) rawRecipes)))%Z
  /\ Z.of_nat (length (delays (events final))) = (apiCallCount final / batchSize)%Z
  /\ Forall (eq requestDelayMs) (delays (events final)).
Proof.
  intros Hb. revert st. induction rawRecipes as [| r rs IH]; intros st Hc Hd Hms.
  - cbn. split; [lia | done].
  - cbn [fold_left List.filter].
    destruct (cached existingData r) eqn:Hcached; cbn [negb].
    + destruct (TaggerFacts.tagStep_cached generateObject batchSize requestDelayMs
                  existingData st r Hcached) as (e & He & Hstep).
      rewrite Hstep.
      exact (IH {| processedRecipes := processedRecipes st ++ [e];
                   apiCallCount := apiCallCount st;
                   events := events st |} Hc Hd Hms).
    + rewrite (TaggerFacts.tagStep_new generateObject batchSize requestDelayMs
                 existingData st r Hcached).
      assert (apiCallCount (process st r) = (apiCallCount st + 1)%Z
              /\ Z.of_nat (length (delays (events (process st r))))
                 = (apiCallCount (process st r) / batchSize)%Z
              /\ Forall (eq requestDelayMs) (delays (events (process st r))))
        as (Hn & Hdn & Hmn).
      { unfold processNew.
        destruct (TaggerFacts.tagRecipe_some generateObject (apiCallCount st) r)
          as (tagged & -> & _).
        cbn [apiCallCount events]. split; [done |].
        rewrite (div_step (apiCallCount st) batchSize Hc Hb).
        destruct (Z.rem (apiCallCount st + 1) batchSize =? 0)%Z.
        - rewrite !delays_app. cbn. rewrite app_nil_r, length_app. cbn.
          split; [lia |]. apply Forall_app. split; [done | by constructor].
        - rewrite delays_app. cbn. rewrite app_nil_r. split; [lia | done]. }
      destruct (IH (process st r)) as (H1 & H2 & H3); try done; [lia |].
      cbn zeta. rewrite H1, Hn. cbn [length]. split; [lia |]. split; [| done].
      by rewrite H2, H1, Hn.
Qed.

(** X12.  With a positive batch size, a run counts one call per raw record
    that is not a hit, and pauses once after every [batchSize] calls: the
    number of pauses is the number of calls divided by the batch size, and
    every pause lasts [requestDelayMs]. *)
Theorem calls_and_pauses (rawRecipes : list RawRecipe)
  (existingData : gmap jsstring ProcessedRecipe) :
  (0 < batchSize)%Z ->
  let out := tagRecipesIncremental generateObject batchSize requestDelayMs
                                   rawRecipes existingData in
  apiCallCount out
  = Z.of_nat (length (List.filter (fun r => negb (cached existingData r)) rawRecipes))
  /\ Z.of_nat (length (delays (events out))) = (apiCallCount out / batchSize)%Z
  /\ Forall (eq requestDelayMs) (delays (events out)).
Proof.
  intros Hb out. subst out. unfold tagRecipesIncremental.
  destruct (loop_counts existingData rawRecipes
              {| processedRecipes := []; apiCallCount := 0%Z; events := [] |} Hb)
    as (H1 & H2 & H3); cbn; try done.
Qed.

End Run.

Lemma calls_and_pauses_witness :
  let out := tagRecipesIncremental Samples.taggingDown 1 250
               [Samples.spicyChicken; Samples.spicyChicken] ∅ in
  apiCallCount out
  = Z.of_nat (length (List.filter (fun r => negb (cached ∅ r))
                                  [Samples.spicyChicken; Samples.spicyChicken]))
  /\ Z.of_nat (length (delays (events out))) = (apiCallCount out / 1)%Z
  /\ Forall (eq 250%Z) (delays (events out)).
Proof.
  apply (calls_and_pauses Samples.taggingDown 1 250
           [Samples.spicyChicken; Samples.spicyChicken] ∅).
  reflexivity.
Defined.

Lemma Forall2_In_impl {A B : Type} (P Q : A -> B -> Prop) (l : list A) (k : list B) :
  Forall2 P l k ->
  (forall x y, In x l -> In y k -> P x y -> Q x y) ->
  Forall2 Q l k.
Proof.
  induction 1 as [| x y l k Hxy Hall IH]; intros Himp; constructor.
  - apply Himp; [by left | by left | done].
  - apply IH. intros x' y' Hx Hy. apply Himp; by right.
Qed.

Lemma Forall2_In_left {A B : Type} (P : A -> B -> Prop) (l : list A) (k : list B) (x : A) :
  Forall2 P l k -> In x l -> exists y, In y k /\ P x y.
Proof.
  induction 1 as [| x' y l k Hxy Hall IH]; intros Hin; [done |].
  destruct Hin as [-> | Hin].
  - exists y. split; [by left | done].
  - destruct (IH Hin) as (z & Hz & Hp). exists z. split; [by right | done].
Qed.

Lemma Forall2_functional {A B : Type} (R : A -> B -> Prop) (l : list A) (k1 k2 : list B) :
  (forall x y z, R x y -> R x z -> y = z) ->
  Forall2 R l k1 -> Forall2 R l k2 -> k1 = k2.
Proof.
  intros Hfun H1. revert k2. induction H1 as [| x y l k Hxy Hall IH]; intros k2 H2.
  - by inversion H2.
  - inversion H2 as [| x' z l' k' Hxz Hall2]; subst. f_equal; [by eapply Hfun | by apply IH].
Qed.

Lemma Forall2_map_eq {A B C : Type} (f : A -> C) (g : B -> C) (l : list A) (k : list B) :
  Forall2 (fun x y => g y = f x) l k -> map g k = map f l.
Proof. induction 1; cbn; [done | by f_equal]. Qed.

Lemma enriches_same_name (generateObject : Z -> RawRecipe -> option Tags)
  (existingData : gmap jsstring ProcessedRecipe) (r : RawRecipe) (p : ProcessedRecipe) :
  wellKeyed existingData ->
  enriches generateObject existingData r p ->
  dishName (raw p) = dishName r /\ contentHash (raw p) = contentHash r.
Proof.
  intros Hkeys [(_ & Hp & Hhash) | (_ & Hraw & _)].
  - split; [by apply Hkeys | done].
  - by rewrite Hraw.
Qed.

Lemma cached_lookup (data : gmap jsstring ProcessedRecipe) (r : RawRecipe)
  (p : ProcessedRecipe) :
  data !! dishName r = Some p -> contentHash (raw p) = contentHash r ->
  cached data r = true.
Proof.
  intros Hp Hhash. unfold cached, isUnchanged. rewrite Hp. by apply str_eqb_eq.
Qed.

(** What a run leaves in the data file answers every raw record of that
    run, when the names are distinct. *)
Lemma written_data_answers (generateObject : Z -> RawRecipe -> option Tags)
  (batchSize requestDelayMs : Z) (rawRecipes : list RawRecipe)
  (existingData : gmap jsstring ProcessedRecipe) :
  NoDup (map dishName rawRecipes) ->
  wellKeyed existingData ->
  let out := processedRecipes (tagRecipesIncremental generateObject batchSize requestDelayMs
                                                     rawRecipes existingData) in
  Forall2 (fun r p => DatabaseBuilder.buildData out !! dishName r = Some p
                      /\ contentHash (raw p) = contentHash r)
          rawRecipes out.
Proof.
  intros Hnd Hkeys out.
  pose proof (run_positions generateObject batchSize requestDelayMs rawRecipes existingData)
    as Hpos. fold out in Hpos.
  assert (Forall2 (fun r p => dishName (raw p) = dishName r) rawRecipes out) as Hnames.
  { eapply Forall2_In_impl; [exact Hpos |]. intros r p _ _ Hen.
    by destruct (enriches_same_name _ _ _ _ Hkeys Hen). }
  apply Forall2_map_eq in Hnames.
  eapply Forall2_In_impl; [exact Hpos |]. intros r p _ Hp Hen.
  destruct (enriches_same_name _ _ _ _ Hkeys Hen) as [Hname Hhash].
  split; [| done]. rewrite <- Hname.
  apply BuilderFacts.buildData_lookup_unique; [| done]. by rewrite Hnames.
Qed.

(** X13.  Running the pipeline a second time over the same raw records, on
    the data file the first run wrote, calls the service for no record,
    whatever the service would answer, and writes the same index and the same
    data table again.  The statistics file it writes differs from the first
    in the time of generation only, so the data directory is as the first
    run left it exactly when the two times of generation are the same.  The
    names of the raw records are distinct and the first data file, if there
    was one, files every record under its own name. *)
Theorem rerun_is_free (generateObject generateObject' : Z -> RawRecipe -> option Tags)
  (batchSize requestDelayMs : Z) (now now' : jsstring) (rawRecipes : list RawRecipe)
  (dataFile : option (gmap jsstring ProcessedRecipe)) :
  NoDup (map dishName rawRecipes) ->
  wellKeyed (DatabaseBuilder.loadExistingData dataFile) ->
  let first :=
    ProcessData.main generateObject batchSize requestDelayMs now rawRecipes dataFile in
  let second :=
    ProcessData.main generateObject' batchSize requestDelayMs now' rawRecipes
                     (DatabaseBuilder.dataFileOf (snd first)) in
  apiCallCount (fst second) = 0%Z
  /\ events (fst second) = []
  /\ processedRecipes (fst second) = processedRecipes (fst first)
  /\ DatabaseBuilder.recipes_index_json (snd second)
     = DatabaseBuilder.recipes_index_json (snd first)
  /\ DatabaseBuilder.recipes_data_json (snd second)
     = DatabaseBuilder.recipes_data_json (snd first)
  /\ DatabaseBuilder.statistics_json (snd second)
     = DatabaseBuilder.generatedLater now' (DatabaseBuilder.statistics_json (snd first))
  /\ (snd second = snd first <-> now' = now).
Proof.
  intros Hnd Hkeys first second. subst first second. unfold ProcessData.main.
  cbn [fst snd DatabaseBuilder.dataFileOf DatabaseBuilder.loadExistingData
       DatabaseBuilder.buildDatabases DatabaseBuilder.recipes_data_json].
  set (existingData := DatabaseBuilder.loadExistingData dataFile) in *.
  set (out := processedRecipes (tagRecipesIncremental generateObject batchSize requestDelayMs
                                                      rawRecipes existingData)).
  pose proof (written_data_answers generateObject batchSize requestDelayMs rawRecipes
                existingData Hnd Hkeys) as Hans. fold out in Hans. cbn zeta in Hans.
  set (data := DatabaseBuilder.buildData out) in *.
  assert (forall r, In r rawRecipes -> cached data r = true) as Hall.
  { intros r Hr. destruct (Forall2_In_left _ _ _ _ Hans Hr) as (p & _ & Hp & Hhash).
    by apply (cached_lookup data r p). }
  assert (processedRecipes (tagRecipesIncremental generateObject' batchSize requestDelayMs
                                                  rawRecipes data) = out) as Hsame.
  { pose proof (run_positions generateObject' batchSize requestDelayMs rawRecipes data)
      as Hpos.
    apply (Forall2_functional
             (fun r p => In r rawRecipes /\ data !! dishName r = Some p) rawRecipes).
    - intros r p q [_ Hp] [_ Hq]. congruence.
    - eapply Forall2_In_impl; [exact Hpos |]. intros r p Hr _ [(_ & Hp & _) | (Hc & _)].
      + done.
      + rewrite (Hall r Hr) in Hc. discriminate.
    - eapply Forall2_In_impl; [exact Hans |]. intros r p Hr _ [Hp _]. done. }
  destruct (TaggerFacts.loop_all_cached generateObject' batchSize requestDelayMs data
              rawRecipes {| processedRecipes := []; apiCallCount := 0%Z; events := [] |} Hall)
    as [Hcount Hevents].
  split; [exact Hcount |]. split; [exact Hevents |]. split; [exact Hsame |].
  rewrite Hsame. cbv zeta.
  cbn [DatabaseBuilder.recipes_index_json DatabaseBuilder.recipes_data_json
       DatabaseBuilder.statistics_json].
  split; [done |]. split; [done |]. split; [done |]. split.
  - intros Heq. by injection Heq.
  - by intros ->.
Qed.


Lemma split_without_separator (sep cur s : jsstring) :
  includes s sep = false -> split_aux sep 0 cur s = [rev cur ++ s].
Proof.
  revert cur. induction s as [| c s IH]; intros cur Hno.
  - cbn. by rewrite app_nil_r.
  - cbn [includes] in Hno. apply orb_false_iff in Hno as [Hhere Hlater].
    cbn [split_aux]. rewrite Hhere, (IH (c :: cur) Hlater). cbn [rev].
    by rewrite <- app_assoc.
Qed.

Lemma few_ingredient_lines (text : jsstring) (n : nat) :
  includes text (lit "\n") = false ->
  1 <= n ->
  (n <? length (List.filter (fun line => 0 <? length (trim line))
                            (split (lit "\n") text))) = false.
Proof.
  intros Hno Hn. unfold split. rewrite (split_without_separator _ [] text Hno).
  cbn [List.filter rev app]. apply Nat.ltb_ge.
  destruct (0 <? length (trim text)); cbn [length]; lia.
Qed.

(** X14.  The ingredient lines are counted by splitting the ingredients text
    at the two characters backslash and n, not at line breaks.  A recipe whose
    ingredients text does not contain that pair gets the difficulty it would
    get without any ingredients section, which is at most 4, however many
    lines the text has. *)
Theorem ingredient_lines_need_backslash_n (recipe : RawRecipe) :
  includes (orEmpty (ingredientsAndTools (rawContent recipe))) (lit "\n") = false ->
  estimateDifficulty recipe = estimateDifficulty (withoutIngredients recipe)
  /\ (estimateDifficulty recipe <= 4)%Z.
Proof.
  intros Hno. unfold estimateDifficulty. cbv zeta.
  cbn [withoutIngredients rawContent steps ingredientsAndTools].
  rewrite !(few_ingredient_lines _ _ Hno) by lia.
  rewrite !(few_ingredient_lines (orEmpty None)) by (done || lia).
  split; [done |].
  destruct (10 <? _); [| destruct (5 <? _)]; destruct (some _ _); by vm_compute.
Qed.

Lemma ingredient_lines_need_backslash_n_witness :
  estimateDifficulty Samples.twentyIngredients
  = estimateDifficulty (withoutIngredients Samples.twentyIngredients)
  /\ (estimateDifficulty Samples.twentyIngredients <= 4)%Z.
Proof.
  apply (ingredient_lines_need_backslash_n Samples.twentyIngredients).
  by vm_compute.
Defined.

Lemma rerun_is_free_witness :
  let first :=
    ProcessData.main Samples.taggingDown 1 250 (lit "2025-01-01T08:00:00.000Z")
                     [Samples.spicyChicken] None in
  let second :=
    ProcessData.main (fun _ _ => Some Samples.savoury) 1 250
                     (lit "2025-01-02T08:00:00.000Z") [Samples.spicyChicken]
                     (DatabaseBuilder.dataFileOf (snd first)) in
  apiCallCount (fst second) = 0%Z
  /\ events (fst second) = []
  /\ processedRecipes (fst second) = processedRecipes (fst first)
  /\ DatabaseBuilder.recipes_index_json (snd second)
     = DatabaseBuilder.recipes_index_json (snd first)
  /\ DatabaseBuilder.recipes_data_json (snd second)
     = DatabaseBuilder.recipes_data_json (snd first)
  /\ DatabaseBuilder.statistics_json (snd second)
     = DatabaseBuilder.generatedLater (lit "2025-01-02T08:00:00.000Z")
                                      (DatabaseBuilder.statistics_json (snd first))
  /\ (snd second = snd first
      <-> lit "2025-01-02T08:00:00.000Z" = lit "2025-01-01T08:00:00.000Z").
Proof.
  apply (rerun_is_free Samples.taggingDown (fun _ _ => Some Samples.savoury) 1 250
           (lit "2025-01-01T08:00:00.000Z") (lit "2025-01-02T08:00:00.000Z")
           [Samples.spicyChicken] None).
  - cbn [map]. constructor; [apply not_elem_of_nil | constructor].
  - intros name recipe H. cbn in H. by rewrite lookup_empty in H.
Defined.

End PipelineFacts.

(** ** Preferences: mapping and validation *)

Module ExtractorFacts.
Import IntentExtractor Notions.

(** One round of the [forEach] of [mapTastePreferences]. *)
Local Abbreviation addTaste :=
  (fun (acc : list jsstring) (t : jsstring) =>
     match lookupMapping t with
     | Some mapped => fold_left (fun acc tag => set_add tag acc) mapped acc
     | None => set_add t acc
     end).

Lemma set_add_In (x y : jsstring) (s : list jsstring) :
  In y (set_add x s) <-> y = x \/ In y s.
Proof.
  unfold set_add. destruct (arr_includes s x) eqn:Hin.
  - apply arr_includes_In in Hin. split; [by right | by intros [-> | H]].
  - rewrite in_app_iff. cbn. intuition.
Qed.

Lemma set_add_NoDup (x : jsstring) (s : list jsstring) : NoDup s -> NoDup (set_add x s).
Proof.
  intros Hnd. unfold set_add. destruct (arr_includes s x) eqn:Hin; [done |].
  apply NoDup_app. split; [done |]. split; [| apply NoDup_singleton].
  intros y Hy Hyx. apply list_elem_of_singleton in Hyx as ->.
  apply list_elem_of_In, arr_includes_In in Hy. congruence.
Qed.

Lemma set_add_all_In (tags acc : list jsstring) (y : jsstring) :
  In y (fold_left (fun acc tag => set_add tag acc) tags acc) <-> In y tags \/ In y acc.
Proof.
  revert acc. induction tags as [| t tags IH]; intros acc; cbn [fold_left].
  - cbn. tauto.
  - rewrite IH, set_add_In. cbn. intuition.
Qed.

Lemma set_add_all_NoDup (tags acc : list jsstring) :
  NoDup acc -> NoDup (fold_left (fun acc tag => set_add tag acc) tags acc).
Proof.
  revert acc. induction tags as [| t tags IH]; intros acc Hnd; [done |].
  cbn [fold_left]. by apply IH, set_add_NoDup.
Qed.

Lemma addTaste_In (acc : list jsstring) (t y : jsstring) :
  In y (addTaste acc t) <-> In y (databaseTags t) \/ In y acc.
Proof.
  unfold databaseTags. cbv beta. destruct (lookupMapping t) as [mapped |].
  - apply set_add_all_In.
  - rewrite set_add_In. cbn. intuition.
Qed.

Lemma addTaste_NoDup (acc : list jsstring) (t : jsstring) :
  NoDup acc -> NoDup (addTaste acc t).
Proof.
  intros Hnd. cbv beta. destruct (lookupMapping t) as [mapped |].
  - by apply set_add_all_NoDup.
  - by apply set_add_NoDup.
Qed.


Lemma mapped_NoDup (tastes acc : list jsstring) :
  NoDup acc -> NoDup (fold_left addTaste tastes acc).
Proof.
  revert acc. induction tastes as [| t tastes IH]; intros acc Hnd; [done |].
  cbn [fold_left]. by apply IH, addTaste_NoDup.
Qed.



(** A tag the mapping leaves as it is. *)
Local Abbreviation settled := (fun tag : jsstring => databaseTags tag = [tag]).

Lemma mapping_images_settled (t : jsstring) (mapped : list jsstring) :
  lookupMapping t = Some mapped -> Forall settled mapped.
Proof.
  unfold lookupMapping, tasteMapping. cbn [List.find fst snd].
  repeat (match goal with
          | |- context [str_eqb ?k t] =>
              destruct (str_eqb k t);
              [cbn; intros [= <-]; constructor; [by vm_compute | constructor] |]
          end).
  done.
Qed.

Lemma addTaste_settled (acc : list jsstring) (t : jsstring) :
  Forall settled acc -> Forall settled (addTaste acc t).
Proof.
  intros Hacc. apply List.Forall_forall. intros y Hy. apply addTaste_In in Hy as [Hy | Hy].
  - unfold databaseTags in Hy. destruct (lookupMapping t) as [mapped |] eqn:Hlook.
    + by apply (proj1 (List.Forall_forall _ _) (mapping_images_settled t mapped Hlook)).
    + destruct Hy as [<- | []]. unfold databaseTags. by rewrite Hlook.
  - by apply (proj1 (List.Forall_forall _ _) Hacc).
Qed.

Lemma mapped_settled (tastes acc : list jsstring) :
  Forall settled acc -> Forall settled (fold_left addTaste tastes acc).
Proof.
  revert acc. induction tastes as [| t tastes IH]; intros acc Hacc; [done |].
  cbn [fold_left]. by apply IH, addTaste_settled.
Qed.

Lemma addTaste_settled_new (acc : list jsstring) (t : jsstring) :
  settled t -> ~ In t acc -> addTaste acc t = acc ++ [t].
Proof.
  unfold databaseTags. intros Hset Hnew.
  assert (set_add t acc = acc ++ [t]) as Hadd.
  { unfold set_add. destruct (arr_includes acc t) eqn:Hin; [| done].
    by apply arr_includes_In in Hin. }
  cbv beta. destruct (lookupMapping t) as [mapped |]; [| done]. by rewrite Hset.
Qed.

Lemma settled_tastes_kept (tastes acc : list jsstring) :
  Forall settled tastes -> NoDup (acc ++ tastes) ->
  fold_left addTaste tastes acc = acc ++ tastes.
Proof.
  revert acc. induction tastes as [| t tastes IH]; intros acc Hset Hnd; cbn [fold_left].
  - by rewrite app_nil_r.
  - inversion Hset as [| ? ? Ht Hrest]; subst.
    rewrite addTaste_settled_new; [| done |].
    + rewrite IH; [by rewrite <- app_assoc | done | by rewrite <- app_assoc].
    + apply NoDup_app in Hnd as (_ & Hdisj & _). intros Hin.
      apply (Hdisj t); [by apply list_elem_of_In | by left].
Qed.

(** X16.  Mapping the taste preferences twice is mapping them once: every
    tag the mapping produces is left as it is by the mapping. *)
Theorem mapTastePreferences_idempotent (preferences : UserPreferences) :
  mapTastePreferences (mapTastePreferences preferences) = mapTastePreferences preferences.
Proof.
  unfold mapTastePreferences at 2 3.
  destruct (get (tastePreferences preferences)) as [tastes |] eqn:Hget.
  - cbv zeta. unfold mapTastePreferences. cbn [tastePreferences get peopleCount
      ingredientExclusions specialGroup maxCookingTimeMinutes]. cbv zeta.
    f_equal. f_equal.
    apply (settled_tastes_kept _ []).
    + by apply mapped_settled.
    + cbn [app]. apply mapped_NoDup, NoDup_nil_2.
  - unfold mapTastePreferences. by rewrite Hget.
Qed.

Lemma pushIf_length {A} (c : bool) (x : A) (arr : list A) :
  length (pushIf c x arr) = (if c then S (length arr) else length arr).
Proof. destruct c; cbn; [| done]. rewrite length_app. cbn. lia. Qed.

(** X17.  Preferences are valid exactly when the people count is given and
    not zero and a taste preference or a special group is given; every
    missing item comes with a suggestion. *)
Theorem validity_criterion (preferences : UserPreferences) :
  let validation := validatePreferences preferences in
  isValid validation
  = negb (noPeopleCount preferences)
    && (hasLength (tastePreferences preferences) || hasLength (specialGroup preferences))
  /\ (isValid validation = true <-> missingInfo validation = [])
  /\ length (missingInfo validation) <= length (suggestions validation).
Proof.
  unfold validatePreferences. cbv zeta. cbn [isValid missingInfo suggestions].
  split; [| split].
  - destruct (noPeopleCount preferences), (hasLength (tastePreferences preferences)),
      (hasLength (specialGroup preferences)); reflexivity.
  - rewrite Nat.eqb_eq. apply length_zero_iff_nil.
  - rewrite !pushIf_length.
    destruct (noPeopleCount preferences),
      (negb (hasLength (tastePreferences preferences))
       && negb (hasLength (specialGroup preferences)));
      repeat match goal with |- context [if ?c then _ else _] => destruct c end;
      cbn [length]; lia.
Qed.

End ExtractorFacts.

(** ** Revising a menu *)

Module RevisionFacts.
Import MenuRecommender MenuRevision Notions.

Lemma StronglySorted_firstn {A} (R : A -> A -> Prop) (n : nat) (arr : list A) :
  StronglySorted R arr -> StronglySorted R (firstn n arr).
Proof.
  intros Hs. revert n. induction Hs as [| x arr Hs IH Hall]; intros [| n]; cbn [firstn];
    try constructor; [apply IH |].
  apply List.Forall_forall. intros y Hy. apply firstn_incl in Hy.
  by apply (proj1 (List.Forall_forall _ _) Hall).
Qed.

Lemma compareAlternatives_ranks (preferences : UserPreferences) (a b : ProcessedRecipe) :
  (compareAlternatives preferences a b <= 0)%Z <-> ranksBefore preferences a b.
Proof.
  unfold compareAlternatives, ranksBefore. cbv zeta.
  destruct (Z.eqb_spec (calculatePreferenceMatch a preferences)
                       (calculatePreferenceMatch b preferences)); cbn [negb]; lia.
Qed.

Lemma compareAlternatives_sorted (preferences : UserPreferences)
  (arr : list ProcessedRecipe) :
  StronglySorted (ranksBefore preferences) (Array_sort (compareAlternatives preferences) arr).
Proof.
  apply SearchFacts.StronglySorted_impl
    with (R1 := fun a b => (compareAlternatives preferences a b <= 0)%Z).
  { intros a b. apply compareAlternatives_ranks. }
  apply Sorted_StronglySorted.
  { intros a b c. rewrite !compareAlternatives_ranks. unfold ranksBefore. lia. }
  apply SearchFacts.Array_sort_sorted. intros x y Hxy.
  apply compareAlternatives_ranks.
  assert (~ ranksBefore preferences x y) as Hnot.
  { rewrite <- compareAlternatives_ranks. lia. }
  unfold ranksBefore in *. lia.
Qed.

(** X18.  [suggestAlternatives] returns at most five dishes, all from the
    bucket of the dish to replace, none of them on the current menu and none
    of them the dish to replace, the better preference match first and of
    equal matches the easier first; all dishes that qualify when they are at
    most five; and nothing when no candidate has the name of the dish to
    replace. *)
Theorem alternatives_are_ranked (dishToReplace : jsstring)
  (currentMenu : list MenuRecommendation)
  (candidateDishes : KnowledgeBase.CandidateDishes) (preferences : UserPreferences) :
  let result := suggestAlternatives dishToReplace currentMenu candidateDishes preferences in
  let qualifying :=
    List.filter (fun dish => negb (arr_includes (map item_dishName currentMenu)
                                                (dishName (raw dish)))
                             && negb (str_eqb (dishName (raw dish)) dishToReplace))
                (categoryDishesOf dishToReplace candidateDishes) in
  length result <= 5
  /\ (forall dish, In dish result ->
        In dish (categoryDishesOf dishToReplace candidateDishes)
        /\ ~ In (dishName (raw dish)) (map item_dishName currentMenu)
        /\ dishName (raw dish) <> dishToReplace)
  /\ StronglySorted (ranksBefore preferences) result
  /\ (categoryDishesOf dishToReplace candidateDishes <> [] ->
      length qualifying <= 5 -> Permutation result qualifying)
  /\ ((forall dish,
          In dish (KnowledgeBase.mainDishes candidateDishes
                   ++ KnowledgeBase.vegetableDishes candidateDishes
                   ++ KnowledgeBase.soups candidateDishes) ->
          dishName (raw dish) <> dishToReplace) ->
      result = []).
Proof.
  intros result qualifying. subst result. unfold suggestAlternatives. cbv zeta.
  fold qualifying.
  destruct (List.find (named dishToReplace) _) as [found |] eqn:Hfind.
  - rewrite slice0_firstn by lia. change (Z.to_nat 5) with 5.
    split; [| split; [| split; [| split]]].
    + rewrite length_firstn. lia.
    + intros dish Hdish. apply firstn_incl in Hdish.
      apply (Permutation_in _ (KnowledgeBaseFacts.Array_sort_perm _ _)) in Hdish.
      apply filter_In in Hdish as [Hin Hkeep].
      apply andb_true_iff in Hkeep as [Hmenu Hold].
      split; [done |]. split.
      * intros Hon. apply arr_includes_In in Hon. by rewrite Hon in Hmenu.
      * intros Hsame. apply str_eqb_eq in Hsame. by rewrite Hsame in Hold.
    + apply StronglySorted_firstn, compareAlternatives_sorted.
    + intros _ Hfew. rewrite firstn_all2.
      * apply KnowledgeBaseFacts.Array_sort_perm.
      * by rewrite (Permutation_length (KnowledgeBaseFacts.Array_sort_perm _ _)).
    + intros Hnone. apply find_some in Hfind as [Hin Hname].
      apply str_eqb_eq in Hname. by destruct (Hnone found Hin).
  - split; [cbn; lia |]. split; [by intros dish [] |]. split; [constructor |].
    split; [| done].
    intros Hbucket _. exfalso. apply Hbucket. unfold categoryDishesOf.
    assert (forall bucket,
              incl bucket (KnowledgeBase.mainDishes candidateDishes
                           ++ KnowledgeBase.vegetableDishes candidateDishes
                           ++ KnowledgeBase.soups candidateDishes) ->
              some (named dishToReplace) bucket = false) as Hno.
    { intros bucket Hincl. unfold some. apply not_true_is_false. intros Hex.
      apply existsb_exists in Hex as (dish & Hdish & Hname).
      by rewrite (find_none _ _ Hfind dish (Hincl dish Hdish)) in Hname. }
    rewrite !Hno; [done | | |]; intros dish Hdish; rewrite !in_app_iff; tauto.
Qed.

(** X19.  A menu [recommendMenu] took from the service, so without the
    warning that too many items were invalid, is never reported as too small
    by [validateMenu] under the same preferences. *)
Theorem accepted_menu_is_large_enough
  (generateObject : UserPreferences -> KnowledgeBase.CandidateDishes ->
                    MenuComposition -> option (list MenuRecommendation))
  (preferences : UserPreferences) (candidateDishes : KnowledgeBase.CandidateDishes)
  (returned : list MenuRecommendation) :
  generateObject preferences candidateDishes
                 (calculateMenuComposition (peopleCountOr2 preferences)) = Some returned ->
  let result := recommendMenu generateObject preferences candidateDishes in
  (forall valid total, ~ In (TooManyInvalid valid total) (snd result)) ->
  forall missing, ~ In (TooFewDishes missing) (warnings (validateMenu (fst result) preferences)).
Proof.
  intros Hcall result Hquiet missing. subst result. revert Hquiet.
  unfold recommendMenu. rewrite Hcall. cbv zeta.
  destruct (Z.of_nat (length (List.filter _ returned)) <? _)%Z eqn:Hsmall.
  - intros Hquiet. exfalso. cbn [snd] in Hquiet.
    eapply Hquiet. apply in_app_iff. right. by left.
  - intros _. cbn [fst]. unfold validateMenu. cbv zeta. cbn [warnings].
    rewrite Hsmall. unfold pushIf.
    repeat match goal with
           | |- context [if ?c then _ else _] => destruct c
           end; cbn [In app]; intuition discriminate.
Qed.

Lemma accepted_menu_is_large_enough_witness :
  let answer := [ {| item_dishName := lit "红烧肉"; recommendationReason := lit "下饭" |};
                  {| item_dishName := lit "蒸水蛋"; recommendationReason := lit "滑嫩" |} ] in
  let candidates :=
    {| KnowledgeBase.mainDishes := [Samples.braisedPork];
       KnowledgeBase.vegetableDishes := [Samples.steamedEgg];
       KnowledgeBase.soups := [] |} in
  let preferences := Samples.only Omitted Omitted Omitted in
  ~ In (TooFewDishes 1)
       (warnings (validateMenu (fst (recommendMenu (fun _ _ _ => Some answer)
                                                   preferences candidates))
                               preferences)).
Proof.
  cbv zeta.
  apply (accepted_menu_is_large_enough
           (fun _ _ _ =>
              Some [ {| item_dishName := lit "红烧肉"; recommendationReason := lit "下饭" |};
                     {| item_dishName := lit "蒸水蛋"; recommendationReason := lit "滑嫩" |} ])
           (Samples.only Omitted Omitted Omitted)
           {| KnowledgeBase.mainDishes := [Samples.braisedPork];
              KnowledgeBase.vegetableDishes := [Samples.steamedEgg];
              KnowledgeBase.soups := [] |}
           _ eq_refl).
  intros valid total. vm_compute. intros [].
Defined.

(** X20.  For a positive people count the fallback menu never has more
    dishes than the composition asks for, and has exactly that many when each
    bucket holds as many candidates as the composition asks of it. *)
Theorem fallback_menu_size (candidateDishes : KnowledgeBase.CandidateDishes) (p : Z) :
  (0 < p)%Z ->
  let c := calculateMenuComposition p in
  let menu := generateFallbackMenu candidateDishes p in
  (Z.of_nat (length menu) <= totalDishes c)%Z
  /\ ((mainDishes c <= Z.of_nat (length (KnowledgeBase.mainDishes candidateDishes)))%Z ->
      (vegetableDishes c
       <= Z.of_nat (length (KnowledgeBase.vegetableDishes candidateDishes)))%Z ->
      (soups c <= Z.of_nat (length (KnowledgeBase.soups candidateDishes)))%Z ->
      Z.of_nat (length menu) = totalDishes c).
Proof.
  intros Hp c menu. subst menu.
  rewrite (MenuFacts.fallback_shape candidateDishes p Hp). fold c.
  destruct (MenuFacts.composition_nonneg p Hp) as (Hm & Hv & Hs). fold c in Hm, Hv, Hs.
  destruct (MenuFacts.composition_counts p) as (_ & _ & _ & Htotal). fold c in Htotal.
  rewrite !length_app, !length_map, !length_firstn, Htotal. split; [lia |]. lia.
Qed.

Lemma fallback_menu_size_witness :
  let candidates :=
    {| KnowledgeBase.mainDishes := [Samples.braisedPork; Samples.braisedPork];
       KnowledgeBase.vegetableDishes := [Samples.steamedEgg];
       KnowledgeBase.soups := [] |} in
  let c := calculateMenuComposition 2 in
  let menu := generateFallbackMenu candidates 2 in
  (Z.of_nat (length menu) <= totalDishes c)%Z
  /\ ((mainDishes c <= Z.of_nat (length (KnowledgeBase.mainDishes candidates)))%Z ->
      (vegetableDishes c <= Z.of_nat (length (KnowledgeBase.vegetableDishes candidates)))%Z ->
      (soups c <= Z.of_nat (length (KnowledgeBase.soups candidates)))%Z ->
      Z.of_nat (length menu) = totalDishes c).
Proof.
  intros candidates. apply (fallback_menu_size candidates 2). lia.
Defined.

End RevisionFacts.

(** ** The dialogue as a whole *)

Module DialogueFacts.
Import ConversationEngine Notions.

Section Handlers.

Variable world : Collaborators.

Lemma handlePreferenceInput_effect (userInput : jsstring) (e e' : Engine)
  (o : Outcome Response) :
  handlePreferenceInput world userInput e = (o, e') ->
  messages e' = messages e
  /\ confirmedMenu e' = confirmedMenu e
  /\ (state e' = state e \/ state e' = RECOMMENDING_MENU).
Proof.
  unfold handlePreferenceInput, bind, this, updateUserPreferences, assign.
  match goal with |- context [withPreferences ?p e] => set (e1 := withPreferences p e) end.
  destruct (negb _).
  { unfold ret. intros [= _ <-]. repeat split; by left. }
  destruct (onKnowledgeBase _ e1) as [[candidates | er] e2] eqn:Hk;
    apply EngineFacts.onKnowledgeBase_frame in Hk as (H1 & H2 & H3 & H4 & H5).
  - cbv [setRecommendedMenu bind setState assign ret]. intros [= _ <-].
    cbn [messages confirmedMenu state withState withRecommended].
    rewrite H2, H5. repeat split; by right.
  - intros [= _ <-]. rewrite H1, H2, H5. repeat split; by left.
Qed.

Lemma confirmMenu_effect (names : list jsstring) (e e' : Engine)
  (o : Outcome (list ProcessedRecipe)) :
  confirmMenu world names e = (o, e') ->
  messages e' = messages e
  /\ ((exists err, o = Throw err) /\ state e' = state e /\ confirmedMenu e' = confirmedMenu e
      \/ (exists rs, o = Return rs) /\ state e' = GENERATING_SHOPPING_LIST).
Proof.
  unfold confirmMenu, bind.
  destruct (resolveDishes world names [] e) as [[rs | er] e1] eqn:Hr;
    apply EngineFacts.resolveDishes_frame in Hr as (H1 & H2 & H3 & H4 & H5).
  - cbv [setState assign ret]. intros [= <- <-].
    cbn [messages state withState withConfirmed]. split; [done |]. right. eauto.
  - intros [= <- <-]. split; [done |]. left. eauto.
Qed.

Lemma handleShoppingListGeneration_effect (e : Engine) :
  exists reply,
    handleShoppingListGeneration world e
    = (Return {| message := reply; newState := READY_FOR_QUESTIONS |},
       withState READY_FOR_QUESTIONS e).
Proof.
  cbv [handleShoppingListGeneration generateShoppingList try_catch bind this setState
       assign ret]. eauto.
Qed.

Lemma handleWorkflowPlanning_effect (e : Engine) :
  exists reply,
    handleWorkflowPlanning world e
    = (Return {| message := reply; newState := READY_FOR_QUESTIONS |},
       withState READY_FOR_QUESTIONS e).
Proof. cbv [handleWorkflowPlanning bind this setState assign ret]. eauto. Qed.

Lemma handleMenuResponse_effect (userInput : jsstring) (e e' : Engine)
  (o : Outcome Response) :
  handleMenuResponse world userInput e = (o, e') ->
  messages e' = messages e
  /\ (confirmedMenu e' = confirmedMenu e
      /\ (state e' = state e \/ state e' = RECOMMENDING_MENU)
      \/ state e' = READY_FOR_QUESTIONS).
Proof.
  unfold handleMenuResponse, bind, this.
  destruct (IntentExtractor.action _).
  - intros H. apply handlePreferenceInput_effect in H as (H1 & H2 & H3).
    split; [done |]. by left.
  - destruct (confirmMenu world _ e) as [[rs | er] e1] eqn:Hc;
      apply confirmMenu_effect in Hc as (Hm & Hc).
    + destruct Hc as [((err & Herr) & _) | (_ & Hs)]; [discriminate Herr |].
      destruct (handleShoppingListGeneration_effect e1) as (reply & ->).
      intros [= _ <-]. cbn [messages state withState]. split; [done |]. by right.
    + destruct Hc as [(_ & Hs & Hcm) | ((rs & Hrs) & _)]; [| discriminate Hrs].
      intros [= _ <-]. split; [done |]. left. split; [done | by left].
  -     destruct (replaceMatch userInput) as [captured |].
    + destruct (replaceDish world _ e) as [[alternatives | er] e1] eqn:Hr;
        apply EngineFacts.replaceDish_frame in Hr as (H1 & H2 & H3 & H4 & H5).
      * destruct (0 <? length alternatives); intros [= _ <-];
          (split; [done |]); left; (split; [done | by left]).
      * intros [= _ <-]. split; [done |]. left. split; [done | by left].
    + intros [= _ <-]. split; [done |]. left. split; [done | by left].
  - intros [= _ <-]. split; [done |]. left. split; [done | by left].
  - intros [= _ <-]. split; [done |]. left. split; [done | by left].
Qed.

Lemma handleQuestionInput_effect (userInput : jsstring) (e : Engine) :
  exists reply,
    fst (handleQuestionInput userInput e) = Return reply
    /\ snd (handleQuestionInput userInput e)
       = if isResetRequest userInput
         then {| state := AWAITING_PREFERENCES;
                 messages := [{| role := assistant; content := getWelcomeMessage |}];
                 userPreferences := noPreferences;
                 recommendedMenu := [];
                 confirmedMenu := [];
                 knowledgeBase := knowledgeBase e |}
         else e.
Proof.
  unfold handleQuestionInput. destruct (isResetRequest userInput).
  - cbv [reset addMessage bind this setState assign ret]. eexists. split; reflexivity.
  - unfold bind, this, ret. destruct (List.find _ _); eexists; split; reflexivity.
Qed.

(** What the handler of a turn can do, whatever it returns. *)
Lemma dispatch_effect (userInput : jsstring) (e e' : Engine) (o : Outcome Response) :
  dispatch world userInput e = (o, e') ->
  (messages e' = messages e
   \/ state e = READY_FOR_QUESTIONS /\ isResetRequest userInput = true
      /\ messages e' = [{| role := assistant; content := getWelcomeMessage |}])
  /\ mayFollow (state e) (state e') = true
  /\ (unconfirmed e -> unconfirmed e').
Proof.
  unfold dispatch, bind, this. destruct (state e) eqn:Hstate.
  - intros H. apply handlePreferenceInput_effect in H as (H1 & H2 & H3).
    rewrite Hstate in H3. split; [by left |]. split.
    + by destruct H3 as [-> | ->].
    + unfold unconfirmed. rewrite Hstate, H2. intros Hun _. apply Hun. by left.
  - intros H. apply handleMenuResponse_effect in H as (H1 & H2).
    rewrite Hstate in H2. split; [by left |]. split.
    + by destruct H2 as [(_ & [-> | ->]) | ->].
    + unfold unconfirmed. rewrite Hstate. intros Hun.
      destruct H2 as [(Hc & _) | Hs].
      * rewrite Hc. intros _. apply Hun. by right.
      * rewrite Hs. by intros [|].
  - destruct (handleShoppingListGeneration_effect e) as (reply & ->). intros [= _ <-].
    cbn [messages state withState]. split; [by left |]. split; [done |].
    unfold unconfirmed. cbn [state withState]. by intros _ [|].
  - destruct (handleWorkflowPlanning_effect e) as (reply & ->). intros [= _ <-].
    cbn [messages state withState]. split; [by left |]. split; [done |].
    unfold unconfirmed. cbn [state withState]. by intros _ [|].
  - destruct (handleQuestionInput_effect userInput e) as (reply & Hreply & He').
    intros H. rewrite H in He'. cbn [snd] in He'. subst e'.
    destruct (isResetRequest userInput).
    + cbn [messages state]. split; [by right |]. split; [done |]. by intros _ _.
    + rewrite Hstate. split; [by left |]. split; [done |]. done.
Qed.

(** A turn ends where its handler ends, and in a reply. *)
Lemma processUserInput_engine (userInput : jsstring) (e : Engine) :
  (exists reply, fst (processUserInput world userInput e) = Return reply)
  /\ snd (processUserInput world userInput e)
     = snd (dispatch world userInput (snd (addMessage user userInput e))).
Proof.
  unfold processUserInput, try_catch, bind, this, ret.
  cbv [addMessage assign]. cbn [snd].
  destruct (dispatch world userInput _) as [[reply | err] e1].
  - cbn [fst snd]. split; [by eexists | done].
  - cbn [fst snd]. split; [by eexists | done].
Qed.

(** X21.  A turn never throws: [processUserInput] always ends in a reply.
    It appends the user's message to the history and nothing else, so the
    reply is not recorded; the one exception is a reset in the question
    state, after which the history holds the welcome message only. *)
Theorem turn_always_answers (userInput : jsstring) (e : Engine) :
  let turn := processUserInput world userInput e in
  (exists reply, fst turn = Return reply)
  /\ (messages (snd turn) = messages e ++ [{| role := user; content := userInput |}]
      \/ state e = READY_FOR_QUESTIONS /\ isResetRequest userInput = true
         /\ messages (snd turn) = [{| role := assistant; content := getWelcomeMessage |}]).
Proof.
  intros turn. subst turn.
  destruct (processUserInput_engine userInput e) as (Hreply & ->). split; [done |].
  destruct (dispatch world userInput (snd (addMessage user userInput e))) as [o e1] eqn:Hd.
  apply dispatch_effect in Hd as (Hm & _). cbn [snd].
  destruct Hm as [Hm | (Hs & Hr & Hm)]; [left | right]; done.
Qed.

(** X22.  The dialogue states follow one another in a fixed way: a turn that
    starts while preferences are collected ends there or with a menu
    proposed; one that starts with a menu proposed ends there or ready for
    questions; one that starts ready for questions ends there or collecting
    preferences again; and no turn ends in GENERATING_SHOPPING_LIST or
    PLANNING_WORKFLOW, not even one that starts there. *)
Theorem state_machine (userInput : jsstring) (e : Engine) :
  let after := state (snd (processUserInput world userInput e)) in
  mayFollow (state e) after = true
  /\ after <> GENERATING_SHOPPING_LIST
  /\ after <> PLANNING_WORKFLOW.
Proof.
  intros after. subst after.
  destruct (processUserInput_engine userInput e) as (_ & ->).
  destruct (dispatch world userInput (snd (addMessage user userInput e))) as [o e1] eqn:Hd.
  apply dispatch_effect in Hd as (_ & Hfollow & _). cbn [snd].
  change (state (snd (addMessage user userInput e))) with (state e) in Hfollow.
  split; [done |]. destruct (state e), (state e1); done.
Qed.

Lemma processUserInput_unconfirmed (userInput : jsstring) (e : Engine) :
  unconfirmed e -> unconfirmed (snd (processUserInput world userInput e)).
Proof.
  intros Hun. destruct (processUserInput_engine userInput e) as (_ & ->).
  destruct (dispatch world userInput (snd (addMessage user userInput e))) as [o e1] eqn:Hd.
  apply dispatch_effect in Hd as (_ & _ & Hkeep). cbn [snd]. by apply Hkeep.
Qed.

Lemma replaceDish_unconfirmed (oldDishName otherDishName : jsstring) (e : Engine) :
  confirmedMenu e = [] ->
  replaceDish world oldDishName e = replaceDish world otherDishName e.
Proof. intros Hnone. unfold replaceDish, bind, this. by rewrite Hnone. Qed.

End Handlers.

Lemma afterTurns_unconfirmed (turns : list (Collaborators * jsstring)) (e : Engine) :
  unconfirmed e -> unconfirmed (afterTurns turns e).
Proof.
  revert e. induction turns as [| [world userInput] turns IH]; intros e Hun; [done |].
  apply IH. by apply processUserInput_unconfirmed.
Qed.

(** X23.  From a new engine, after any series of turns, no record is
    confirmed while preferences are collected or a menu is proposed.  The
    alternatives [replaceDish] offers while a menu is proposed are therefore
    the same whichever dish is to be replaced. *)
Theorem replacement_ignores_the_dish (kb : KnowledgeBase.KB)
  (turns : list (Collaborators * jsstring)) (world : Collaborators)
  (oldDishName otherDishName : jsstring) :
  let e := afterTurns turns (create kb) in
  state e = RECOMMENDING_MENU ->
  confirmedMenu e = []
  /\ replaceDish world oldDishName e = replaceDish world otherDishName e.
Proof.
  intros e Hstate.
  assert (confirmedMenu e = []) as Hnone.
  { apply afterTurns_unconfirmed; [by intros _ | by right]. }
  split; [done |]. by apply replaceDish_unconfirmed.
Qed.

Lemma replacement_ignores_the_dish_witness :
  let e := afterTurns [(Sessions.listening, lit "三个人，想吃咸的")]
                      (create Samples.twoDishes) in
  confirmedMenu e = []
  /\ replaceDish Sessions.listening (lit "红烧肉") e
     = replaceDish Sessions.listening (lit "蒸水蛋") e.
Proof.
  apply (replacement_ignores_the_dish Samples.twoDishes
           [(Sessions.listening, lit "三个人，想吃咸的")] Sessions.listening
           (lit "红烧肉") (lit "蒸水蛋")).
  by vm_compute.
Defined.

Lemma withKnowledgeBase_same (e : Engine) : withKnowledgeBase (knowledgeBase e) e = e.
Proof. by destruct e. Qed.

Lemma omap_map {A B C} (f : B -> option C) (g : A -> B) (l : list A) :
  omap f (map g l) = omap (fun x => f (g x)) l.
Proof.
  induction l as [| x l IH]; [done |]. cbn [map omap list_omap].
  destruct (f (g x)); by rewrite IH.
Qed.

Section LoadedTurns.

Variable world : Collaborators.

Lemma getDishByName_loaded (name : jsstring) (e : Engine) :
  KnowledgeBase.isLoaded (knowledgeBase e) = true ->
  onKnowledgeBase (KnowledgeBase.getDishByName (files world) name) e
  = (Return (KnowledgeBase.recipesData (knowledgeBase e) !! name), e).
Proof.
  intros Hloaded. unfold onKnowledgeBase, KnowledgeBase.getDishByName, bind.
  rewrite (KnowledgeBaseFacts.ensureLoaded_loaded (files world) _ Hloaded).
  unfold this, ret. by rewrite withKnowledgeBase_same.
Qed.

Lemma resolveDishes_loaded (names : list jsstring) (acc : list ProcessedRecipe)
  (e : Engine) :
  KnowledgeBase.isLoaded (knowledgeBase e) = true ->
  resolveDishes world names acc e
  = (Return (acc ++ omap (fun name => KnowledgeBase.recipesData (knowledgeBase e) !! name)
                         names), e).
Proof.
  intros Hloaded. revert acc. induction names as [| name names IH]; intros acc.
  - cbn. by rewrite app_nil_r.
  - cbn [resolveDishes omap list_omap]. unfold bind at 1. rewrite (getDishByName_loaded name e Hloaded).
    destruct (KnowledgeBase.recipesData (knowledgeBase e) !! name) as [r |].
    + rewrite IH. by rewrite <- app_assoc.
    + apply IH.
Qed.

(** X24.  Confirming the proposed menu, on a loaded knowledge base: the
    confirmed menu is the records of the proposed dishes in their order, a
    dish without a record being left out without a word; the reply holds the
    shopping list and the plan for these records; and the turn ends ready for
    questions. *)
Theorem confirmation_turn (userInput : jsstring) (e : Engine) :
  state e = RECOMMENDING_MENU ->
  KnowledgeBase.isLoaded (knowledgeBase e) = true ->
  IntentExtractor.action
    (IntentExtractor.interpretFollowUpRequest (intentModel world) userInput
                                              (userPreferences e))
  = IntentExtractor.confirm_menu ->
  let confirmed :=
    omap (fun item => KnowledgeBase.recipesData (knowledgeBase e) !! item_dishName item)
         (recommendedMenu e) in
  processUserInput world userInput e
  = (Return {| message :=
                 ShoppingListAndWorkflow
                   (shoppingLinesFrom 0 confirmed)
                   (WorkflowPlanner.planWorkflow (workflowModel world) confirmed);
               newState := READY_FOR_QUESTIONS |},
     {| state := READY_FOR_QUESTIONS;
        messages := messages e ++ [{| role := user; content := userInput |}];
        userPreferences := userPreferences e;
        recommendedMenu := recommendedMenu e;
        confirmedMenu := confirmed;
        knowledgeBase := knowledgeBase e |}).
Proof.
  intros Hstate Hloaded Haction confirmed.
  unfold processUserInput, try_catch, dispatch. unfold bind at 1 2, this.
  cbv [addMessage assign withMessages]. cbn [state]. rewrite Hstate.
  unfold handleMenuResponse. unfold bind at 1, this.
  cbn [userPreferences recommendedMenu]. rewrite Haction.
  unfold confirmMenu. unfold bind at 1 2.
  rewrite resolveDishes_loaded by done. cbn [app knowledgeBase].
  rewrite omap_map. fold confirmed.
  cbv [handleShoppingListGeneration generateShoppingList try_catch bind this setState
       assign ret withState withConfirmed].
  cbn [state messages userPreferences recommendedMenu confirmedMenu knowledgeBase].
  reflexivity.
Qed.

Lemma candidates_have_records (preferences : UserPreferences) (kb kb' : KnowledgeBase.KB)
  (candidates : KnowledgeBase.CandidateDishes) :
  KnowledgeBase.isLoaded kb = true ->
  covered kb ->
  KnowledgeBase.getRecommendedCandidates (files world) preferences kb
  = (Return candidates, kb') ->
  forall dish,
    In dish (KnowledgeBase.mainDishes candidates ++ KnowledgeBase.vegetableDishes candidates
             ++ KnowledgeBase.soups candidates) ->
    exists entry, In entry (KnowledgeBase.recipesIndex kb)
                  /\ KnowledgeBase.recipesData kb !! idx_dishName entry = Some dish.
Proof.
  intros Hloaded Hcov. unfold KnowledgeBase.getRecommendedCandidates, bind.
  rewrite (KnowledgeBaseFacts.ensureLoaded_loaded (files world) kb Hloaded).
  destruct (SearchFacts.searchRecipes_covered (files world) preferences kb Hloaded Hcov)
    as (recipes & Hres & Horigin & _).
  destruct (KnowledgeBase.searchRecipes (files world) preferences kb) as [o kb1].
  cbn [fst] in Hres. subst o. unfold pure. rewrite SearchFacts.allDefined_Some.
  unfold ret. intros [= <- <-] dish.
  cbn [KnowledgeBase.mainDishes KnowledgeBase.vegetableDishes KnowledgeBase.soups].
  rewrite !in_app_iff, !filter_In. intros Hin. apply Horigin. tauto.
Qed.

Lemma recommended_names_available
  (preferences : UserPreferences) (candidates : KnowledgeBase.CandidateDishes)
  (item : MenuRecommendation) :
  In item (fst (MenuRecommender.recommendMenu (menuModel world) preferences candidates)) ->
  In (item_dishName item) (MenuRecommender.availableDishNames candidates).
Proof.
  unfold MenuRecommender.recommendMenu. cbv zeta.
  destruct (menuModel world preferences candidates _) as [returned |].
  - destruct (_ <? _)%Z; cbn [fst].
    + apply MenuFacts.fallback_names_available.
    + intros Hin. apply filter_In in Hin as [_ Hknown]. by apply arr_includes_In.
  - cbn [fst]. apply MenuFacts.fallback_names_available.
Qed.

(** X25.  A turn that completes the preferences, on a loaded knowledge base
    whose index is covered by the data table: the extracted fields are merged
    into the preferences, the menu is proposed and stored, and the turn ends
    in RECOMMENDING_MENU.  When the data table files every record under its
    own name, every proposed dish has its record there, so that a
    confirmation leaves none out. *)
Theorem menu_proposal_turn (userInput : jsstring) (e : Engine) :
  state e = AWAITING_PREFERENCES ->
  KnowledgeBase.isLoaded (knowledgeBase e) = true ->
  covered (knowledgeBase e) ->
  let heard := messages e ++ [{| role := user; content := userInput |}] in
  let merged :=
    spread (userPreferences e)
           (IntentExtractor.extractIntent (intentModel world) userInput heard) in
  IntentExtractor.isValid (IntentExtractor.validatePreferences merged) = true ->
  exists menu kb',
    processUserInput world userInput e
    = (Return {| message := MenuProposal menu; newState := RECOMMENDING_MENU |},
       {| state := RECOMMENDING_MENU;
          messages := heard;
          userPreferences := merged;
          recommendedMenu := menu;
          confirmedMenu := confirmedMenu e;
          knowledgeBase := kb' |})
    /\ KnowledgeBase.isLoaded kb' = true
    /\ KnowledgeBase.recipesData kb' = KnowledgeBase.recipesData (knowledgeBase e)
    /\ (wellKeyed (KnowledgeBase.recipesData (knowledgeBase e)) ->
        forall item, In item menu ->
                     is_Some (KnowledgeBase.recipesData kb' !! item_dishName item)).
Proof.
  intros Hstate Hloaded Hcov heard merged Hvalid.
  destruct (SearchFacts.getRecommendedCandidates_covered (files world) merged
              (knowledgeBase e) Hloaded Hcov)
    as (candidates & kb' & Hcand & Hl' & _ & Hdata).
  exists (fst (MenuRecommender.recommendMenu (menuModel world) merged candidates)), kb'.
  split; [| split; [done | split; [done |]]].
  - unfold processUserInput, try_catch, dispatch. unfold bind at 1 2, this.
    cbv [addMessage assign withMessages]. cbn [state]. rewrite Hstate.
    unfold handlePreferenceInput. unfold bind at 1 2 3, this.
    cbv [updateUserPreferences assign withPreferences].
    cbn [messages userPreferences]. fold heard. fold merged. rewrite Hvalid. cbn [negb].
    unfold bind at 1. unfold onKnowledgeBase at 1. cbn [knowledgeBase]. rewrite Hcand.
    cbv [setRecommendedMenu setState bind assign ret withRecommended withState
         withKnowledgeBase].
    cbn [state messages userPreferences recommendedMenu confirmedMenu knowledgeBase].
    reflexivity.
  - intros Hkeys item Hitem. apply recommended_names_available in Hitem.
    unfold MenuRecommender.availableDishNames in Hitem.
    apply in_map_iff in Hitem as (dish & Hname & Hdish).
    destruct (candidates_have_records merged (knowledgeBase e) kb' candidates
                Hloaded Hcov Hcand dish Hdish) as (entry & _ & Hentry).
    rewrite Hdata, <- Hname, (Hkeys _ _ Hentry). by exists dish.
Qed.

(** X26.  While a menu is proposed, an utterance read as a change of
    preferences that leaves the preferences incomplete is answered with the
    request for the missing information and with AWAITING_PREFERENCES as the
    new state; the engine itself stays in RECOMMENDING_MENU and keeps the
    proposed menu. *)
Theorem announced_state_differs (userInput : jsstring) (e : Engine) :
  state e = RECOMMENDING_MENU ->
  IntentExtractor.action
    (IntentExtractor.interpretFollowUpRequest (intentModel world) userInput
                                              (userPreferences e))
  = IntentExtractor.modify_preferences ->
  let heard := messages e ++ [{| role := user; content := userInput |}] in
  let merged :=
    spread (userPreferences e)
           (IntentExtractor.extractIntent (intentModel world) userInput heard) in
  IntentExtractor.isValid (IntentExtractor.validatePreferences merged) = false ->
  processUserInput world userInput e
  = (Return {| message :=
                 NeedMoreInfo
                   (IntentExtractor.missingInfo (IntentExtractor.validatePreferences merged))
                   (IntentExtractor.suggestions (IntentExtractor.validatePreferences merged));
               newState := AWAITING_PREFERENCES |},
     {| state := RECOMMENDING_MENU;
        messages := heard;
        userPreferences := merged;
        recommendedMenu := recommendedMenu e;
        confirmedMenu := confirmedMenu e;
        knowledgeBase := knowledgeBase e |}).
Proof.
  intros Hstate Haction heard merged Hinvalid.
  unfold processUserInput, try_catch, dispatch. unfold bind at 1 2, this.
  cbv [addMessage assign withMessages]. cbn [state]. rewrite Hstate.
  unfold handleMenuResponse. unfold bind at 1, this.
  cbn [userPreferences]. rewrite Haction.
  unfold handlePreferenceInput. unfold bind at 1 2 3, this.
  cbv [updateUserPreferences assign withPreferences].
  cbn [messages userPreferences]. fold heard. fold merged. rewrite Hinvalid. cbn [negb].
  unfold ret.
  cbn [state messages userPreferences recommendedMenu confirmedMenu knowledgeBase].
  reflexivity.
Qed.

(** X27.  Every change of state a turn makes is in the table of
    [canTransitionTo], except the changes into READY_FOR_QUESTIONS from
    RECOMMENDING_MENU and from GENERATING_SHOPPING_LIST: these the table does
    not hold, and the turn makes them all the same, since no state change
    consults the table. *)
Theorem transitions_and_the_table (userInput : jsstring) (e : Engine) :
  let after := state (snd (processUserInput world userInput e)) in
  after = state e
  \/ canTransitionTo after e = true
  \/ (after = READY_FOR_QUESTIONS
      /\ (state e = RECOMMENDING_MENU \/ state e = GENERATING_SHOPPING_LIST)
      /\ canTransitionTo after e = false).
Proof.
  intros after. subst after.
  destruct (processUserInput_engine world userInput e) as (_ & ->).
  destruct (dispatch world userInput (snd (addMessage user userInput e))) as [o e1] eqn:Hd.
  apply dispatch_effect in Hd as (_ & Hfollow & _). cbn [snd].
  change (state (snd (addMessage user userInput e))) with (state e) in Hfollow.
  unfold canTransitionTo.
  destruct (state e), (state e1); try discriminate Hfollow; cbn; tauto.
Qed.

End LoadedTurns.

Lemma menu_proposal_turn_witness :
  exists menu,
    fst (processUserInput Sessions.listening (lit "三个人，想吃咸的")
                          (create Samples.twoDishes))
    = Return {| message := MenuProposal menu; newState := RECOMMENDING_MENU |}.
Proof.
  destruct (menu_proposal_turn Sessions.listening (lit "三个人，想吃咸的")
              (create Samples.twoDishes) eq_refl eq_refl SearchFacts.covered_twoDishes)
    as (menu & kb' & Hturn & _); [by vm_compute |].
  exists menu. by rewrite Hturn.
Defined.

Lemma announced_state_differs_witness :
  let turn := processUserInput Sessions.servicesDown (lit "口味清淡一点")
                               Sessions.proposing in
  (exists reply, fst turn = Return {| message := reply; newState := AWAITING_PREFERENCES |})
  /\ state (snd turn) = RECOMMENDING_MENU.
Proof.
  rewrite (announced_state_differs Sessions.servicesDown (lit "口味清淡一点")
             Sessions.proposing eq_refl);
    [split; [by eexists | reflexivity] | by vm_compute | by vm_compute].
Defined.


Lemma confirmation_turn_witness :
  state (snd (processUserInput Sessions.servicesDown (lit "好的，就这些")
                               Sessions.proposing))
  = READY_FOR_QUESTIONS.
Proof.
  rewrite (confirmation_turn Sessions.servicesDown (lit "好的，就这些") Sessions.proposing
             eq_refl eq_refl); [reflexivity | by vm_compute].
Defined.

Lemma shoppingLinesOf_length (index : nat) (recipe : ProcessedRecipe) :
  length (shoppingLinesOf index recipe) <= 6.
Proof.
  unfold shoppingLinesOf.
  destruct (truthy (ingredientsAndTools _)), (truthy (calculation _)); cbn; lia.
Qed.

Lemma shoppingLinesFrom_heading (start : nat) (menu : list ProcessedRecipe)
  (n : nat) (name : jsstring) :
  In (DishHeading n name) (shoppingLinesFrom start menu) <->
  exists recipe,
    start < n /\ menu !! (n - 1 - start) = Some recipe
    /\ dishName (raw recipe) = name
    /\ truthy (ingredientsAndTools (rawContent (raw recipe))) = true.
Proof.
  revert start. induction menu as [| recipe menu IH]; intros start.
  - cbn. split; [done | by intros (r & _ & [=] & _)].
  - cbn [shoppingLinesFrom]. rewrite in_app_iff, IH. split.
    + intros [Hhere | (r & Hlt & Hr & Hname & Hing)].
      * exists recipe. unfold shoppingLinesOf in Hhere.
        destruct (truthy (ingredientsAndTools _)) eqn:Hing,
                 (truthy (calculation _)); cbn in Hhere;
          repeat (destruct Hhere as [Hhere | Hhere]; try discriminate Hhere);
          try done; injection Hhere as <- <-;
          (split; [lia |]); replace (start + 1 - 1 - start) with 0 by lia; done.
      * exists r. split; [lia |]. replace (n - 1 - start) with (S (n - 1 - S start)) by lia.
        done.
    + intros (r & Hlt & Hr & Hname & Hing).
      destruct (decide (n = start + 1)) as [-> | Hne].
      * left. replace (start + 1 - 1 - start) with 0 in Hr by lia. injection Hr as ->.
        unfold shoppingLinesOf. rewrite Hing, Hname. by left.
      * right. exists r. split; [lia |].
        replace (n - 1 - start) with (S (n - 1 - S start)) in Hr by lia. done.
Qed.

Lemma shoppingLinesFrom_length (start : nat) (menu : list ProcessedRecipe) :
  length (shoppingLinesFrom start menu) <= 6 * length menu.
Proof.
  revert start. induction menu as [| recipe menu IH]; intros start; [done |].
  cbn [shoppingLinesFrom length]. rewrite length_app.
  pose proof (shoppingLinesOf_length start recipe). pose proof (IH (S start)). lia.
Qed.

(** X28.  The shopping list leaves the session as it is and has at most six
    lines for each confirmed dish.  Its dish headings are numbered by the
    position of the dish in the confirmed menu: the heading with number n
    and a name is there exactly when the n-th confirmed dish has that name
    and an ingredients text that is not empty, so the numbers skip the dishes
    without one. *)
Theorem shopping_list_numbering (e : Engine) :
  exists lines,
    generateShoppingList e = (Return lines, e)
    /\ length lines <= 6 * length (confirmedMenu e)
    /\ forall n name,
        In (DishHeading n name) lines <->
        exists recipe,
          0 < n /\ confirmedMenu e !! (n - 1) = Some recipe
          /\ dishName (raw recipe) = name
          /\ truthy (ingredientsAndTools (rawContent (raw recipe))) = true.
Proof.
  exists (shoppingLinesFrom 0 (confirmedMenu e)). split; [done |]. split.
  - apply shoppingLinesFrom_length.
  - intros n name. rewrite shoppingLinesFrom_heading.
    by replace (n - 1 - 0) with (n - 1) by lia.
Qed.

End DialogueFacts.
